(** * Wedding RSVP application

    A shallow embedding of [models.py], [send_whatsapp.py] and the request
    handlers of [routes.py], followed by the properties of the venue cache,
    the RSVP workflow, the admin surfaces and the notification dispatcher.

    Conventions.
    - A Python [str] is a [string]; text outside ASCII is carried as the
      bytes of its UTF-8 encoding.  [Py.len] counts code points, as Python's
      [len] does, and [Py.strip] removes the white space of Unicode.
      [Py.int], [Py.isdigit], [Strptime] and [Db.lower] know the ASCII
      digits and letters only; the statements that depend on it say so.
    - A table is the list of its rows, in the order the store returns them.
      An [UPDATE] is modelled as leaving the row in its place; a backend
      may return it elsewhere afterwards, so the statements about the rows
      after an update speak of membership, of the row of a key, of a table
      of one row, or of the rows up to a permutation.
    - [datetime.utcnow()] is an input of the handler: a number of
      microseconds since the epoch.
    - An exception is a value of [Py.exn]; a computation that can raise
      returns a [Py.result].
    - A write to the store can fail for reasons outside the program
      (connection lost, constraint refused): the handlers take a flag
      [db_ok] saying whether the pending write goes through. *)

From Stdlib Require Import String Ascii List ZArith Lia Bool DecimalString.
From Stdlib Require Import Permutation Sorted.
Import ListNotations.

Local Open Scope Z_scope.

(* ================================================================= *)
(** ** Python built-ins used by the handlers *)

Module Py.

Inductive exn :=
| NotFound
| ValueError (msg : string)
| TypeError (msg : string)
| KeyError (key : string)
| DatabaseError (msg : string).

Inductive result (A : Type) :=
| Ok (a : A)
| Raise (e : exn).
Arguments Ok {A} a.
Arguments Raise {A} e.

Definition bind {A B} (m : result A) (k : A -> result B) : result B :=
  match m with
  | Ok a => k a
  | Raise e => Raise e
  end.

Notation "x <- m ;; k" := (bind m (fun x => k))
  (at level 61, m at next level, right associativity).

(** [str(e)] *)
Definition str_exn (e : exn) : string :=
  match e with
  | NotFound =>
      "404 Not Found: The requested URL was not found on the server. If you entered the URL manually please check your spelling and try again."
  | ValueError m => m
  | TypeError m => m
  | KeyError k => String.append "'" (String.append k "'")
  | DatabaseError m => m
  end.

(** [str(n)] for an integer *)
Definition str_int (n : Z) : string := NilZero.string_of_int (Z.to_int n).

(** The white space of [str.isspace] among the ASCII characters. *)
Definition is_space (c : ascii) : bool :=
  let n := nat_of_ascii c in
  (((9 <=? n) && (n <=? 13)) || ((28 <=? n) && (n <=? 32)))%nat.

(** The white space that [int] skips around a literal: space, tab, line
    feed, vertical tab, form feed, carriage return. *)
Definition is_c_space (c : ascii) : bool :=
  let n := nat_of_ascii c in
  (((9 <=? n) && (n <=? 13)) || (n =? 32))%nat.

Definition is_digit (c : ascii) : bool :=
  let n := nat_of_ascii c in ((48 <=? n) && (n <=? 57))%nat.

Definition digit_val (c : ascii) : Z := Z.of_nat (nat_of_ascii c) - 48.

(** A byte of the form 10xxxxxx continues a UTF-8 sequence. *)
Definition is_continuation (c : ascii) : bool :=
  let n := nat_of_ascii c in ((128 <=? n) && (n <=? 191))%nat.

(** The string of the bytes of codes [l]. *)
Fixpoint of_bytes (l : list nat) : string :=
  match l with
  | [] => EmptyString
  | n :: l' => String (ascii_of_nat n) (of_bytes l')
  end.

(** The first byte of [x] continues a sequence. *)
Definition continues (x : string) : bool :=
  match x with
  | String d _ => is_continuation d
  | EmptyString => false
  end.

(** The characters of a string: each byte that does not continue a
    sequence starts a character, and the bytes that continue it follow. *)
Fixpoint chars (s : string) : list string :=
  match s with
  | EmptyString => []
  | String c s' =>
      match chars s' with
      | x :: xs =>
          if continues x then String c x :: xs
          else String c EmptyString :: x :: xs
      | [] => [String c EmptyString]
      end
  end.

(** [''.join(xs)] *)
Fixpoint joined (xs : list string) : string :=
  match xs with
  | [] => EmptyString
  | x :: xs' => String.append x (joined xs')
  end.

(** The white-space characters beyond ASCII, in UTF-8: U+0085, U+00A0,
    U+1680, U+2000 to U+200A, U+2028, U+2029, U+202F, U+205F, U+3000. *)
Definition unicode_spaces : list string :=
  map of_bytes
    ([[194; 133]; [194; 160]; [225; 154; 128]; [226; 128; 128];
     [226; 128; 129]; [226; 128; 130]; [226; 128; 131];
     [226; 128; 132]; [226; 128; 133]; [226; 128; 134];
     [226; 128; 135]; [226; 128; 136]; [226; 128; 137];
     [226; 128; 138]; [226; 128; 168]; [226; 128; 169];
     [226; 128; 175]; [226; 129; 159]; [227; 128; 128]])%nat.

(** [ch.isspace()] for one character. *)
Definition is_space_char (x : string) : bool :=
  match x with
  | String c EmptyString => is_space c
  | _ => existsb (String.eqb x) unicode_spaces
  end.

Fixpoint lstrip_chars (xs : list string) : list string :=
  match xs with
  | [] => []
  | x :: xs' => if is_space_char x then lstrip_chars xs' else xs
  end.

(** A white-space character is dropped when nothing but white space
    follows it. *)
Fixpoint rstrip_chars (xs : list string) : list string :=
  match xs with
  | [] => []
  | x :: xs' =>
      match rstrip_chars xs' with
      | [] => if is_space_char x then [] else [x]
      | r => x :: r
      end
  end.

(** [s.lstrip()], [s.rstrip()], [s.strip()]: the white-space characters
    at the two ends are removed. *)
Definition lstrip (s : string) : string := joined (lstrip_chars (chars s)).

Definition rstrip (s : string) : string := joined (rstrip_chars (chars s)).

Definition strip (s : string) : string :=
  joined (rstrip_chars (lstrip_chars (chars s))).

(** [len(s)]: the number of code points. *)
Fixpoint len (s : string) : Z :=
  match s with
  | EmptyString => 0
  | String c s' => (if is_continuation c then 0 else 1) + len s'
  end.

(** Truth value of a string: [bool(s)]. *)
Definition truthy (s : string) : bool :=
  match s with EmptyString => false | _ => true end.

(** Truth value of an optional string ([None] and [''] are false). *)
Definition truthy_opt (s : option string) : bool :=
  match s with None => false | Some s => truthy s end.

(** [s or None] *)
Definition or_None (s : string) : option string :=
  if truthy s then Some s else None.

(** [s.isdigit()] on ASCII text. *)
Fixpoint all_digits (s : string) : bool :=
  match s with
  | EmptyString => true
  | String c s' => is_digit c && all_digits s'
  end.

Definition isdigit (s : string) : bool := truthy s && all_digits s.

(** The digits of an integer literal: single underscores are allowed
    between digits. *)
Fixpoint int_digits (acc : Z) (after_digit : bool) (s : string) : option Z :=
  match s with
  | EmptyString => if after_digit then Some acc else None
  | String c s' =>
      if is_digit c then int_digits (10 * acc + digit_val c) true s'
      else if Ascii.eqb c "_"
           then (if after_digit then int_digits acc false s' else None)
           else None
  end.

Definition invalid_literal (s : string) : exn :=
  ValueError (String.append "invalid literal for int() with base 10: '"
                            (String.append s "'")).

Fixpoint lskip (s : string) : string :=
  match s with
  | EmptyString => EmptyString
  | String c s' => if is_c_space c then lskip s' else s
  end.

Fixpoint rskip (s : string) : string :=
  match s with
  | EmptyString => EmptyString
  | String c s' =>
      match rskip s' with
      | EmptyString => if is_c_space c then EmptyString else String c EmptyString
      | r => String c r
      end
  end.

(** [int(s)] for a string argument: white space, an optional sign, the
    digits, white space.  Digits and white space beyond ASCII are not
    recognised, and no limit is put on the number of digits: the result
    is the one of Python for ASCII text of at most 4300 digits. *)
Definition int (s : string) : result Z :=
  let body := rskip (lskip s) in
  let parsed :=
    match body with
    | String "-" d => option_map Z.opp (int_digits 0 false d)
    | String "+" d => int_digits 0 false d
    | d => int_digits 0 false d
    end in
  match parsed with
  | Some n => Ok n
  | None => Raise (invalid_literal s)
  end.

(** [[int(x) for x in xs]] *)
Fixpoint int_all (xs : list string) : result (list Z) :=
  match xs with
  | [] => Ok []
  | x :: xs' => n <- int x ;; ns <- int_all xs' ;; Ok (n :: ns)
  end.

(** [a, b, c = xs] *)
Definition unpack3 {A} (xs : list A) : result (A * A * A) :=
  match xs with
  | [a; b; c] => Ok (a, b, c)
  | _ :: _ :: _ :: _ :: _ =>
      Raise (ValueError "too many values to unpack (expected 3)")
  | _ =>
      Raise (ValueError
        (String.append "not enough values to unpack (expected 3, got "
           (String.append (str_int (Z.of_nat (List.length xs))) ")")))
  end.

(** [sep.join(xs)] *)
Fixpoint join (sep : string) (xs : list string) : string :=
  match xs with
  | [] => EmptyString
  | [x] => x
  | x :: xs' => String.append x (String.append sep (join sep xs'))
  end.

(** A [timedelta], normalised as Python keeps it:
    [0 <= seconds < 86400] and [0 <= microseconds < 1000000]. *)
Record timedelta := { days : Z; seconds : Z; microseconds : Z }.

(** [a - b] for two [datetime] values given in microseconds. *)
Definition datetime_sub (a b : Z) : timedelta :=
  let us := a - b in
  {| days := us / 86400000000;
     seconds := (us mod 86400000000) / 1000000;
     microseconds := us mod 1000000 |}.

End Py.

Import Py.

(* ================================================================= *)
(** ** Flask: form data, flashed messages, responses *)

Module Flask.

(** [request.form]: a multi-dict, kept as the list of its fields. *)
Definition form := list (string * string).

(** [request.form.getlist(key)] *)
Fixpoint getlist (f : form) (key : string) : list string :=
  match f with
  | [] => []
  | (k, v) :: f' =>
      if String.eqb k key then v :: getlist f' key else getlist f' key
  end.

(** [request.form.get(key)]: the first value of the field, or [None]. *)
Definition get (f : form) (key : string) : option string :=
  match getlist f key with
  | [] => None
  | v :: _ => Some v
  end.

(** [request.form.get(key, default)] *)
Definition get_default (f : form) (key default : string) : string :=
  match get f key with
  | Some v => v
  | None => default
  end.

(** ['key' in request.form] *)
Definition contains (f : form) (key : string) : bool :=
  match get f key with Some _ => true | None => false end.

Inductive category := success | warning | danger | info.

(** [flash(message, category)] appends to the messages of the response. *)
Definition flashed := (string * category)%type.

#[local] Set Warnings "-register-all".
Inductive json :=
| JNull
| JInt (n : Z)
| JStr (s : string)
| JBool (b : bool)
| JList (l : list json)
| JDict (fields : list (string * json)).

Definition json_opt_str (s : option string) : json :=
  match s with Some s => JStr s | None => JNull end.

Inductive response :=
| Redirect (endpoint : string)
| Jsonify (body : json) (status : Z).

End Flask.

Import Flask.

(* ================================================================= *)
(** ** models.py *)

Record date := { year : Z; month : Z; day : Z }.
Record time := { hour : Z; minute : Z; second : Z }.
Record datetime := { dt_date : date; dt_time : time }.

Module GuestGroup.
Record t := {
  id : Z;
  name : string;
  description : option string;
  created_at : option Z
}.
End GuestGroup.

Module Guest.
Record t := {
  id : Z;
  name : string;
  phone : option string;
  rsvp_status : string;
  group_id : option Z;
  created_at : option Z
}.

Definition set_rsvp_status (g : t) (s : string) : t :=
  {| id := id g; name := name g; phone := phone g; rsvp_status := s;
     group_id := group_id g; created_at := created_at g |}.

Definition set_phone (g : t) (p : option string) : t :=
  {| id := id g; name := name g; phone := p; rsvp_status := rsvp_status g;
     group_id := group_id g; created_at := created_at g |}.
End Guest.

Module VenueInfo.
Record t := {
  id : Z;
  name : string;
  address : option string;
  map_link : option string;
  description : option string;
  date : option date;
  time : option time;
  event_datetime : option datetime;
  created_at : option Z;
  updated_at : option Z
}.
End VenueInfo.

(** The tables the handlers below touch. *)
Record store := {
  guests : list Guest.t;
  groups : list GuestGroup.t;
  venues : list VenueInfo.t
}.

Definition with_guests (s : store) (gs : list Guest.t) : store :=
  {| guests := gs; groups := groups s; venues := venues s |}.

Definition with_groups (s : store) (gs : list GuestGroup.t) : store :=
  {| guests := guests s; groups := gs; venues := venues s |}.

Definition with_venues (s : store) (vs : list VenueInfo.t) : store :=
  {| guests := guests s; groups := groups s; venues := vs |}.

(* ================================================================= *)
(** ** The queries and writes issued through the ORM *)

Module Db.

Definition lower_char (c : ascii) : ascii :=
  let n := nat_of_ascii c in
  if ((65 <=? n) && (n <=? 90))%nat then ascii_of_nat (n + 32) else c.

Fixpoint lower (s : string) : string :=
  match s with
  | EmptyString => EmptyString
  | String c s' => String (lower_char c) (lower s')
  end.

(** The rest of the character whose first byte was just consumed. *)
Fixpoint skip_continuation (s : string) : string :=
  match s with
  | EmptyString => EmptyString
  | String c s' => if Py.is_continuation c then skip_continuation s' else s
  end.

(** SQL [LIKE] with no [ESCAPE] clause: [%] stands for any run of
    characters, [_] for exactly one character, anything else for itself.
    Where the backslash is the escape character of the backend, this is
    the meaning of the patterns without a backslash. *)
Fixpoint like (pattern s : string) : bool :=
  match pattern with
  | EmptyString => match s with EmptyString => true | _ => false end
  | String p pattern' =>
      if Ascii.eqb p "%" then
        (fix any (s : string) : bool :=
           like pattern' s
           || match s with
              | EmptyString => false
              | String _ s' => any s'
              end) s
      else
        match s with
        | EmptyString => false
        | String c s' =>
            if Ascii.eqb p "_" then like pattern' (skip_continuation s')
            else Ascii.eqb p c && like pattern' s'
        end
  end.

(** [column.ilike(pattern)]: [lower(column) LIKE lower(pattern)]. *)
Definition ilike (column pattern : string) : bool :=
  like (lower pattern) (lower column).

(** [query.first()] *)
Definition first {A} (rows : list A) : option A := hd_error rows.

(** [query.first_or_404()] and [query.get_or_404(id)] *)
Definition first_or_404 {A} (rows : list A) : Py.result A :=
  match first rows with
  | Some r => Py.Ok r
  | None => Py.Raise Py.NotFound
  end.

(** [query.limit(n).all()] *)
Definition limit {A} (n : nat) (rows : list A) : list A := firstn n rows.

(** [query.count()] *)
Definition count {A} (rows : list A) : Z := Z.of_nat (List.length rows).

(** [Guest.query.filter_by(id=guest_id)] *)
Definition guests_by_id (s : store) (guest_id : Z) : list Guest.t :=
  filter (fun g => Guest.id g =? guest_id) (guests s).

(** [Guest.query.filter_by(group_id=group_id)] *)
Definition guests_by_group (s : store) (group_id : Z) : list Guest.t :=
  filter (fun g => match Guest.group_id g with
                   | Some i => i =? group_id
                   | None => false
                   end) (guests s).

(** [Guest.query.filter(Guest.id.in_(guest_ids))] *)
Definition guests_in (s : store) (guest_ids : list Z) : list Guest.t :=
  filter (fun g => existsb (Z.eqb (Guest.id g)) guest_ids) (guests s).

(** [GuestGroup.query.get(group_id)] *)
Definition groups_by_id (s : store) (group_id : Z) : list GuestGroup.t :=
  filter (fun g => GuestGroup.id g =? group_id) (groups s).

(** The relationship [guest.group]. *)
Definition group_of (s : store) (g : Guest.t) : option GuestGroup.t :=
  match Guest.group_id g with
  | Some i => first (groups_by_id s i)
  | None => None
  end.

(** One mapping of [bulk_update_mappings]:
    [UPDATE guest SET rsvp_status = ? WHERE id = ?]. *)
Definition update_mapping (rows : list Guest.t) (u : Z * string)
  : list Guest.t :=
  map (fun g => if Guest.id g =? fst u
                then Guest.set_rsvp_status g (snd u) else g) rows.

(** The rows after the statements of all the mappings. *)
Definition apply_mappings (rows : list Guest.t)
  (updates : list (Z * string)) : list Guest.t :=
  fold_left update_mapping updates rows.

(** The number of rows the statements matched, all mappings together. *)
Definition rows_matched (rows : list Guest.t) (updates : list (Z * string))
  : Z :=
  fold_right
    (fun u n =>
       Z.of_nat (List.length (filter (fun g => Guest.id g =? fst u) rows)) + n)
    0 updates.

(** [db.session.bulk_update_mappings(Guest, updates)]: one [UPDATE] for
    each mapping; [StaleDataError] is raised when the statements did not
    match as many rows as there are mappings, that is, when the key of a
    mapping is the key of no row. *)
Definition bulk_update_mappings (rows : list Guest.t)
  (updates : list (Z * string)) : Py.result (list Guest.t) :=
  if rows_matched rows updates =? Z.of_nat (List.length updates) then
    Py.Ok (apply_mappings rows updates)
  else
    Py.Raise
      (Py.DatabaseError
         (String.append "UPDATE statement on table 'guest' expected to update "
            (String.append (Py.str_int (Z.of_nat (List.length updates)))
               (String.append " row(s); "
                  (String.append (Py.str_int (rows_matched rows updates))
                     " were matched."))))).

(** Replace the row that has the identity of [g]. *)
Definition save_guest (rows : list Guest.t) (g : Guest.t) : list Guest.t :=
  map (fun r => if Guest.id r =? Guest.id g then g else r) rows.

Definition save_venue (rows : list VenueInfo.t) (v : VenueInfo.t)
  : list VenueInfo.t :=
  map (fun r => if VenueInfo.id r =? VenueInfo.id v then v else r) rows.

(** [db.session.delete(group)] *)
Definition delete_group_row (rows : list GuestGroup.t) (group_id : Z)
  : list GuestGroup.t :=
  filter (fun r => negb (GuestGroup.id r =? group_id)) rows.

(** The key an inserted venue row receives. *)
Definition next_venue_id (rows : list VenueInfo.t) : Z :=
  1 + fold_right (fun r m => Z.max (VenueInfo.id r) m) 0 rows.

(** [db.session.commit()] *)
Definition commit (db_ok : bool) (pending : store) : Py.result store :=
  if db_ok then Py.Ok pending
  else Py.Raise (Py.DatabaseError "database error").

End Db.

(* ================================================================= *)
(** ** routes.py: the venue cache *)

(** The two module-level variables.  [_venue_cache] is either the empty
    dict ([None]) or the dict [{'venue': v}] ([Some v]); [v] itself is
    [None] when the table had no row at the time of the read. *)
Record venue_cache := {
  _venue_cache : option (option VenueInfo.t);
  _venue_cache_time : option Z
}.

(** The state of a freshly started process. *)
Definition empty_cache : venue_cache :=
  {| _venue_cache := None; _venue_cache_time := None |}.

(** [_venue_cache.get('venue')] *)
Definition cache_get_venue (c : venue_cache) : option VenueInfo.t :=
  match _venue_cache c with
  | Some v => v
  | None => None
  end.

(** What a call of [get_cached_venue] leaves behind: the value returned,
    the cache, and the number of reads it issued to the store. *)
Record cached_venue := {
  venue : option VenueInfo.t;
  cache : venue_cache;
  reads : nat
}.

Definition get_cached_venue (s : store) (c : venue_cache) (now : Z)
  : cached_venue :=
  let fresh :=
    match _venue_cache_time c with
    | Some t => Py.seconds (Py.datetime_sub now t) <? 300
    | None => false
    end in
  if fresh then
    {| venue := cache_get_venue c; cache := c; reads := 0 |}
  else
    let venue := Db.first (venues s) in
    {| venue := venue;
       cache := {| _venue_cache := Some venue; _venue_cache_time := Some now |};
       reads := 1 |}.

(* ================================================================= *)
(** ** routes.py: the public RSVP workflow *)

(** What a handler leaves behind. *)
Record outcome := {
  db : store;
  flashes : list flashed;
  resp : response
}.

Definition search_result (s : store) (g : Guest.t) : json :=
  JDict [("id"%string, JInt (Guest.id g));
         ("name"%string, JStr (Guest.name g));
         ("rsvp_status"%string, JStr (Guest.rsvp_status g));
         ("group_name"%string,
            match Db.group_of s g with
            | Some gr => JStr (GuestGroup.name gr)
            | None => JNull
            end)].

(** [search_guest]: the response and the number of queries issued. *)
Definition search_guest (s : store) (f : form) : response * nat :=
  let name := Py.strip (get_default f "name" "") in
  if negb (Py.truthy name) || (Py.len name <? 3) then
    (Jsonify (JDict [("guests"%string, JList [])]) 200, 0%nat)
  else
    let guests :=
      Db.limit 10
        (filter (fun g => Db.ilike (Guest.name g) (String.append name "%"))
                (guests s)) in
    let results := map (search_result s) guests in
    (Jsonify (JDict [("guests"%string, JList results)]) 200, 1%nat).

Definition group_member (g : Guest.t) : json :=
  JDict [("id"%string, JInt (Guest.id g));
         ("name"%string, JStr (Guest.name g));
         ("rsvp_status"%string, JStr (Guest.rsvp_status g))].

(** Truth value of [guest.group_id]. *)
Definition truthy_id (i : option Z) : option Z :=
  match i with
  | Some n => if n =? 0 then None else Some n
  | None => None
  end.

(** The body of the [try] block of [get_guest_group]. *)
Definition get_guest_group_body (s : store) (guest_id : Z)
  : Py.result response :=
  guest <- Db.first_or_404 (Db.guests_by_id s guest_id) ;;
  let guests :=
    match truthy_id (Guest.group_id guest) with
    | Some group_id => Db.guests_by_group s group_id
    | None => [guest]
    end in
  Ok (Jsonify (JDict [("selected_guest_name"%string, JStr (Guest.name guest));
                      ("guests"%string, JList (map group_member guests))])
              200).

Definition get_guest_group (s : store) (guest_id : Z) : response :=
  match get_guest_group_body s guest_id with
  | Ok r => r
  | Raise _ => Jsonify (JDict [("error"%string, JStr "Erro interno")]) 500
  end.

(** [status in ['confirmado', 'nao_confirmado']] *)
Definition accepted_status (status : option string) : bool :=
  match status with
  | Some st => String.eqb st "confirmado" || String.eqb st "nao_confirmado"
  | None => false
  end.

(** One turn of the loop of [confirm_rsvp] over [(updates, confirmed_count)]. *)
Definition rsvp_step (f : form) (acc : list (Z * string) * Z)
  (guest_id : string) : Py.result (list (Z * string) * Z) :=
  let '(updates, confirmed_count) := acc in
  let status := get f (String.append "rsvp_" guest_id) in
  if accepted_status status then
    id <- Py.int guest_id ;;
    Ok ((updates ++ [(id, match status with Some st => st | None => ""%string end)])%list,
        confirmed_count + 1)
  else Ok acc.

(** [for x in xs: acc = step(acc, x)], stopping at the first exception. *)
Fixpoint for_each {A S} (step : S -> A -> Py.result S) (xs : list A) (acc : S)
  : Py.result S :=
  match xs with
  | [] => Ok acc
  | x :: xs' => acc' <- step acc x ;; for_each step xs' acc'
  end.

(** The body of the [try] block of [confirm_rsvp]. *)
Definition confirm_rsvp_body (s : store) (f : form) (guest_ids : list string)
  (db_ok : bool) : Py.result (store * flashed) :=
  acc <- for_each (rsvp_step f) guest_ids ([], 0) ;;
  let '(updates, confirmed_count) := acc in
  match updates with
  | _ :: _ =>
      rows <- Db.bulk_update_mappings (guests s) updates ;;
      s' <- Db.commit db_ok (with_guests s rows) ;;
      Ok (s', (String.append "Confirmação registrada para "
                 (String.append (Py.str_int confirmed_count) " convidado(s)!"),
               success))
  | [] => Ok (s, ("Nenhuma confirmação foi processada."%string, warning))
  end.

Definition confirm_rsvp (s : store) (f : form) (db_ok : bool) : outcome :=
  let guest_ids := getlist f "guest_ids" in
  match guest_ids with
  | [] =>
      {| db := s;
         flashes := [("Nenhum convidado selecionado."%string, danger)];
         resp := Redirect "rsvp" |}
  | _ =>
      match confirm_rsvp_body s f guest_ids db_ok with
      | Ok (s', msg) =>
          {| db := s'; flashes := [msg]; resp := Redirect "rsvp" |}
      | Raise _ =>
          (* db.session.rollback() *)
          {| db := s;
             flashes := [("Erro ao processar confirmação."%string, danger)];
             resp := Redirect "rsvp" |}
      end
  end.

(* ================================================================= *)
(** ** routes.py: guests and groups, admin side *)

(** [int(group_id) if group_id and group_id.isdigit() else None].  With
    the ASCII digits of [Py.isdigit], [Py.int] accepts what [Py.isdigit]
    accepts; a digit beyond ASCII that [isdigit] accepts and [int] refuses
    raises in the code, as does a run of digits beyond the limit of
    [int]. *)
Definition parse_group_id (group_id : option string) : Py.result (option Z) :=
  match group_id with
  | Some g =>
      if Py.truthy g && Py.isdigit g
      then (n <- Py.int g ;; Ok (Some n))
      else Ok None
  | None => Ok None
  end.

(** The body of the [try] block of [edit_guest]; [None] stands for the
    early return after the validation message. *)
Definition edit_guest_body (s : store) (guest_id : Z) (f : form)
  (db_ok : bool) : Py.result (option (store * string)) :=
  guest <- Db.first_or_404 (Db.guests_by_id s guest_id) ;;
  let name := Py.strip (get_default f "name" "") in
  let phone := Py.strip (get_default f "phone" "") in
  let group_id := get f "group_id" in
  let rsvp_status := get_default f "rsvp_status" "pendente" in
  if negb (Py.truthy name) then Ok None
  else
    gid <- parse_group_id group_id ;;
    let guest' :=
      {| Guest.id := Guest.id guest;
         Guest.name := name;
         Guest.phone := Py.or_None phone;
         Guest.rsvp_status := rsvp_status;
         Guest.group_id := gid;
         Guest.created_at := Guest.created_at guest |} in
    s' <- Db.commit db_ok (with_guests s (Db.save_guest (guests s) guest')) ;;
    Ok (Some (s', name)).

Definition edit_guest (s : store) (guest_id : Z) (f : form) (db_ok : bool)
  : outcome :=
  match edit_guest_body s guest_id f db_ok with
  | Ok (Some (s', name)) =>
      {| db := s';
         flashes := [(String.append "Convidado '"
                        (String.append name "' atualizado com sucesso!"),
                      success)];
         resp := Redirect "admin_guests" |}
  | Ok None =>
      {| db := s;
         flashes := [("Nome do convidado é obrigatório!"%string, danger)];
         resp := Redirect "admin_guests" |}
  | Raise e =>
      {| db := s;
         flashes := [(String.append "Erro ao editar convidado: " (Py.str_exn e),
                      danger)];
         resp := Redirect "admin_guests" |}
  end.

(** The body of the [try] block of [delete_group]: the store and the
    message flashed, at the early return or at the end. *)
Definition delete_group_body (s : store) (group_id : Z) (db_ok : bool)
  : Py.result (store * flashed) :=
  group <- Db.first_or_404 (Db.groups_by_id s group_id) ;;
  let group_name := GuestGroup.name group in
  let guests_count := Db.count (Db.guests_by_group s group_id) in
  if guests_count >? 0 then
    Ok (s, (String.append "Não é possível deletar o grupo '"
              (String.append group_name
                 (String.append "' pois há "
                    (String.append (Py.str_int guests_count)
                       " convidado(s) associado(s)!"))),
            danger))
  else
    s' <- Db.commit db_ok
            (with_groups s (Db.delete_group_row (groups s) (GuestGroup.id group))) ;;
    Ok (s', (String.append "Grupo '"
               (String.append group_name "' removido com sucesso!"),
             success)).

Definition delete_group (s : store) (group_id : Z) (db_ok : bool) : outcome :=
  match delete_group_body s group_id db_ok with
  | Ok (s', msg) =>
      {| db := s'; flashes := [msg]; resp := Redirect "admin_groups" |}
  | Raise e =>
      {| db := s;
         flashes := [(String.append "Erro ao remover grupo: " (Py.str_exn e),
                      danger)];
         resp := Redirect "admin_groups" |}
  end.

(* ================================================================= *)
(** ** [datetime.strptime] for the two formats of [update_venue] *)

Module Strptime.

(** A format is compiled to a regular expression and matched with
    backtracking: a parser returns its matches in the order the regular
    expression tries them.  The digits and the white space are those of
    ASCII: on ASCII text the result is that of [strptime]. *)
Definition parser (A : Type) := string -> list (A * string).

Definition ret {A} (a : A) : parser A := fun s => [(a, s)].

Definition bind {A B} (p : parser A) (k : A -> parser B) : parser B :=
  fun s => flat_map (fun ar => k (fst ar) (snd ar)) (p s).

Definition alt {A} (p q : parser A) : parser A :=
  fun s => (p s ++ q s)%list.

Notation "x <~ p ;; k" := (bind p (fun x => k))
  (at level 61, p at next level, right associativity).

Definition between (lo hi : nat) (c : ascii) : bool :=
  let n := nat_of_ascii c in ((lo <=? n) && (n <=? hi))%nat.

(** One digit between the characters of codes [lo] and [hi]. *)
Definition digit (lo hi : nat) : parser Z :=
  fun s =>
    match s with
    | String c s' => if between lo hi c then [(Py.digit_val c, s')] else []
    | EmptyString => []
    end.

Definition lit (c : ascii) : parser unit :=
  fun s =>
    match s with
    | String d s' => if Ascii.eqb c d then [(tt, s')] else []
    | EmptyString => []
    end.

(** [\s+], greedy: the longest run first. *)
Fixpoint spaces (s : string) : list (unit * string) :=
  match s with
  | String c s' => if Py.is_space c then (spaces s' ++ [(tt, s')])%list else []
  | EmptyString => []
  end.

Definition two (p q : parser Z) : parser Z :=
  a <~ p ;; b <~ q ;; ret (10 * a + b).

(** [%Y]: [\d\d\d\d] *)
Definition dir_Y : parser Z :=
  a <~ digit 48 57 ;; b <~ digit 48 57 ;; c <~ digit 48 57 ;;
  d <~ digit 48 57 ;; ret (1000 * a + 100 * b + 10 * c + d).

(** [%m]: [1[0-2]|0[1-9]|[1-9]] *)
Definition dir_m : parser Z :=
  alt (two (digit 49 49) (digit 48 50))
 (alt (two (digit 48 48) (digit 49 57))
      (digit 49 57)).

(** [%d]: [3[0-1]|[1-2]\d|0[1-9]|[1-9]| [1-9]] *)
Definition dir_d : parser Z :=
  alt (two (digit 51 51) (digit 48 49))
 (alt (two (digit 49 50) (digit 48 57))
 (alt (two (digit 48 48) (digit 49 57))
 (alt (digit 49 57)
      (_ <~ lit " " ;; digit 49 57)))).

(** [%H]: [2[0-3]|[0-1]\d|\d] *)
Definition dir_H : parser Z :=
  alt (two (digit 50 50) (digit 48 51))
 (alt (two (digit 48 49) (digit 48 57))
      (digit 48 57)).

(** [%M]: [[0-5]\d|\d] *)
Definition dir_M : parser Z :=
  alt (two (digit 48 53) (digit 48 57))
      (digit 48 57).

(** ["%Y-%m-%d"] *)
Definition fmt_date : parser date :=
  y <~ dir_Y ;; _ <~ lit "-" ;; m <~ dir_m ;; _ <~ lit "-" ;; d <~ dir_d ;;
  ret {| year := y; month := m; day := d |}.

(** ["%Y-%m-%d %H:%M"] *)
Definition fmt_datetime : parser datetime :=
  dt <~ fmt_date ;; _ <~ spaces ;; h <~ dir_H ;; _ <~ lit ":" ;; mi <~ dir_M ;;
  ret {| dt_date := dt; dt_time := {| hour := h; minute := mi; second := 0 |} |}.

(** [re.match] keeps the first match; [strptime] then refuses data left
    over.  [None] stands for [ValueError]. *)
Definition first_match {A} (p : parser A) (s : string) : option A :=
  match p s with
  | (a, EmptyString) :: _ => Some a
  | _ => None
  end.

Definition is_leap (y : Z) : bool :=
  (y mod 4 =? 0) && (negb (y mod 100 =? 0) || (y mod 400 =? 0)).

Definition days_in_month (y m : Z) : Z :=
  if m =? 2 then (if is_leap y then 29 else 28)
  else if (m =? 4) || (m =? 6) || (m =? 9) || (m =? 11) then 30
  else 31.

(** The check of the [date] constructor. *)
Definition valid_date (d : date) : bool :=
  (1 <=? year d) && (year d <=? 9999)
  && (1 <=? month d) && (month d <=? 12)
  && (1 <=? day d) && (day d <=? days_in_month (year d) (month d)).

(** [datetime.strptime(s, "%Y-%m-%d %H:%M")] *)
Definition strptime_datetime (s : string) : option datetime :=
  match first_match fmt_datetime s with
  | Some dt => if valid_date (dt_date dt) then Some dt else None
  | None => None
  end.

(** [datetime.strptime(s, "%Y-%m-%d").date()] *)
Definition strptime_date (s : string) : option date :=
  match first_match fmt_date s with
  | Some d => if valid_date d then Some d else None
  | None => None
  end.

End Strptime.

(* ================================================================= *)
(** ** routes.py: the venue, admin side *)

(** [VenueInfo()]: every column empty; the key is assigned on insert. *)
Definition new_venue (id now : Z) : VenueInfo.t :=
  {| VenueInfo.id := id; VenueInfo.name := ""; VenueInfo.address := None;
     VenueInfo.map_link := None; VenueInfo.description := None;
     VenueInfo.date := None; VenueInfo.time := None;
     VenueInfo.event_datetime := None;
     VenueInfo.created_at := Some now; VenueInfo.updated_at := Some now |}.

(** The assignments of [update_venue] to the text columns. *)
Definition set_venue_text (v : VenueInfo.t)
  (name address map_link description : string) : VenueInfo.t :=
  {| VenueInfo.id := VenueInfo.id v;
     VenueInfo.name := name;
     VenueInfo.address := Py.or_None address;
     VenueInfo.map_link := Py.or_None map_link;
     VenueInfo.description := Py.or_None description;
     VenueInfo.date := VenueInfo.date v;
     VenueInfo.time := VenueInfo.time v;
     VenueInfo.event_datetime := VenueInfo.event_datetime v;
     VenueInfo.created_at := VenueInfo.created_at v;
     VenueInfo.updated_at := VenueInfo.updated_at v |}.

Definition set_venue_when (v : VenueInfo.t) (d : option date)
  (t : option time) (dt : option datetime) : VenueInfo.t :=
  {| VenueInfo.id := VenueInfo.id v;
     VenueInfo.name := VenueInfo.name v;
     VenueInfo.address := VenueInfo.address v;
     VenueInfo.map_link := VenueInfo.map_link v;
     VenueInfo.description := VenueInfo.description v;
     VenueInfo.date := d;
     VenueInfo.time := t;
     VenueInfo.event_datetime := dt;
     VenueInfo.created_at := VenueInfo.created_at v;
     VenueInfo.updated_at := VenueInfo.updated_at v |}.

Definition set_venue_updated_at (v : VenueInfo.t) (now : Z) : VenueInfo.t :=
  {| VenueInfo.id := VenueInfo.id v;
     VenueInfo.name := VenueInfo.name v;
     VenueInfo.address := VenueInfo.address v;
     VenueInfo.map_link := VenueInfo.map_link v;
     VenueInfo.description := VenueInfo.description v;
     VenueInfo.date := VenueInfo.date v;
     VenueInfo.time := VenueInfo.time v;
     VenueInfo.event_datetime := VenueInfo.event_datetime v;
     VenueInfo.created_at := VenueInfo.created_at v;
     VenueInfo.updated_at := Some now |}.

(** The two parsing branches of [update_venue]: the venue after them and
    the warning flashed, if any. *)
Definition set_venue_event (v : VenueInfo.t) (event_date event_time : string)
  : VenueInfo.t * list flashed :=
  if Py.truthy event_date && Py.truthy event_time then
    match Strptime.strptime_datetime
            (String.append event_date (String.append " " event_time)) with
    | Some event_datetime =>
        (set_venue_when v (Some (dt_date event_datetime))
                          (Some (dt_time event_datetime))
                          (Some event_datetime), [])
    | None => (v, [("Formato de data ou hora inválido!"%string, warning)])
    end
  else if Py.truthy event_date then
    match Strptime.strptime_date event_date with
    | Some event_date_obj =>
        (set_venue_when v (Some event_date_obj) (VenueInfo.time v)
                          (VenueInfo.event_datetime v), [])
    | None => (v, [("Formato de data inválido!"%string, warning)])
    end
  else (v, []).

Record venue_outcome := {
  out : outcome;
  cache_after : venue_cache
}.

(** [update_venue].  The row returned by [VenueInfo.query.first()] is
    changed in place; when the table is empty the new object is inserted
    ([not venue.id] holds for it alone: a stored row has a key). *)
Definition update_venue (s : store) (c : venue_cache) (f : form) (now : Z)
  (db_ok : bool) : venue_outcome :=
  let name := Py.strip (get_default f "name" "") in
  let address := Py.strip (get_default f "address" "") in
  let map_link := Py.strip (get_default f "map_link" "") in
  let description := Py.strip (get_default f "description" "") in
  let event_date := Py.strip (get_default f "event_date" "") in
  let event_time := Py.strip (get_default f "event_time" "") in
  if negb (Py.truthy name) then
    {| out := {| db := s;
                 flashes := [("Nome do local é obrigatório!"%string, danger)];
                 resp := Redirect "admin_venue" |};
       cache_after := c |}
  else
    let existing := Db.first (venues s) in
    let venue :=
      match existing with
      | Some v => v
      | None => new_venue (Db.next_venue_id (venues s)) now
      end in
    let venue := set_venue_text venue name address map_link description in
    let '(venue, warnings) := set_venue_event venue event_date event_time in
    let venue := set_venue_updated_at venue now in
    let pending :=
      match existing with
      | Some _ => with_venues s (Db.save_venue (venues s) venue)
      | None => with_venues s (venues s ++ [venue])%list
      end in
    match Db.commit db_ok pending with
    | Ok s' =>
        {| out := {| db := s';
                     flashes :=
                       (warnings ++
                        [("Informações do local atualizadas com sucesso!"%string,
                          success)])%list;
                     resp := Redirect "admin_venue" |};
           cache_after := {| _venue_cache := None; _venue_cache_time := None |} |}
    | Raise e =>
        {| out := {| db := s;
                     flashes :=
                       (warnings ++
                        [(String.append "Erro ao atualizar informações do local: "
                            (Py.str_exn e), danger)])%list;
                     resp := Redirect "admin_venue" |};
           cache_after := c |}
    end.

(* ================================================================= *)
(** ** send_whatsapp.py *)

Module Whatsapp.

(** The three environment variables read at import time. *)
Record credentials := {
  TWILIO_ACCOUNT_SID : option string;
  TWILIO_AUTH_TOKEN : option string;
  TWILIO_PHONE_NUMBER : option string
}.

(** What [client.messages.create] does with a message: it returns a
    message instance, or an exception is raised whose text is [error]. *)
Inductive reply :=
| Created (sid status : string)
| Failure (error : string).

(** The messaging provider: sender, destination, body. *)
Definition provider := string -> string -> string -> reply.

(** [str(x)] for an optional environment value inside an f-string. *)
Definition str_opt (s : option string) : string :=
  match s with Some s => s | None => "None" end.

Section Dispatch.

(** The elements of the list handed to the dispatcher, and their [str()]. *)
Variable recipient : Type.
Variable str_of : recipient -> string.
Variable creds : credentials.
Variable twilio : provider.

(** The dict returned by [send_whatsapp_message], in its two shapes. *)
Inductive send_result :=
| Sent (message_sid status : string) (to : recipient)
| NotSent (error : string).

(** [result['success']] *)
Definition success_of (r : send_result) : bool :=
  match r with Sent _ _ _ => true | NotSent _ => false end.

(** [result.get('error', None)] *)
Definition error_of (r : send_result) : option string :=
  match r with Sent _ _ _ => None | NotSent e => Some e end.

Definition send_whatsapp_message (to_phone_number : recipient)
  (message : string) : send_result :=
  if negb (Py.truthy_opt (TWILIO_ACCOUNT_SID creds)
           && Py.truthy_opt (TWILIO_AUTH_TOKEN creds)
           && Py.truthy_opt (TWILIO_PHONE_NUMBER creds)) then
    NotSent "Credenciais do Twilio não configuradas. Verifique TWILIO_ACCOUNT_SID, TWILIO_AUTH_TOKEN e TWILIO_PHONE_NUMBER."
  else
    let whatsapp_number := String.append "whatsapp:" (str_of to_phone_number) in
    let twilio_whatsapp_number :=
      String.append "whatsapp:" (str_opt (TWILIO_PHONE_NUMBER creds)) in
    match twilio twilio_whatsapp_number whatsapp_number message with
    | Created sid status => Sent sid status to_phone_number
    | Failure e => NotSent e
    end.

(** One element of [results['results']]. *)
Record entry := {
  phone : recipient;
  success : bool;
  error : option string
}.

(** The dict returned by [send_bulk_whatsapp_messages]. *)
Record bulk := {
  total : Z;
  successful : Z;
  failed : Z;
  results : list entry
}.

(** The keys of that dict, in the order iteration yields them. *)
Definition bulk_keys (b : bulk) : list string :=
  ["total"; "successful"; "failed"; "results"]%string.

(** One turn of the loop of [send_bulk_whatsapp_messages]. *)
Definition bulk_step (message : string) (acc : bulk) (phone : recipient)
  : bulk :=
  let result := send_whatsapp_message phone message in
  let appended :=
    (results acc ++ [{| phone := phone;
                        success := success_of result;
                        error := error_of result |}])%list in
  if success_of result then
    {| total := total acc; successful := successful acc + 1;
       failed := failed acc; results := appended |}
  else
    {| total := total acc; successful := successful acc;
       failed := failed acc + 1; results := appended |}.

Definition send_bulk_whatsapp_messages (phone_numbers : list recipient)
  (message : string) : bulk :=
  fold_left (bulk_step message) phone_numbers
    {| total := Z.of_nat (List.length phone_numbers);
       successful := 0; failed := 0; results := [] |}.

End Dispatch.

Arguments Sent {recipient}.
Arguments NotSent {recipient}.
Arguments phone {recipient}.
Arguments success {recipient}.
Arguments error {recipient}.
Arguments total {recipient}.
Arguments successful {recipient}.
Arguments failed {recipient}.
Arguments results {recipient}.
Arguments bulk_keys {recipient}.

Local Open Scope string_scope.

Definition WEDDING_MESSAGES : list (string * string) := [
  ("confirmation_reminder",
"
🤍 Olá! Este é um lembrete gentil sobre nosso casamento.

📅 Data: {date}
⏰ Horário: {time}
📍 Local: {venue}

Por favor, confirme sua presença através do link: {rsvp_link}

Aguardamos você! 💕
");
  ("thank_you",
"
🤍 Muito obrigado(a) por confirmar sua presença em nosso casamento!

📅 Data: {date}
⏰ Horário: {time}
📍 Local: {venue}

Estamos ansiosos para celebrar este momento especial com você! 💕
");
  ("venue_update",
"
🤍 Informações importantes sobre nosso casamento:

📅 Data: {date}
⏰ Horário: {time}
📍 Local: {venue}
🗺️ Endereço: {address}

Não esqueça de confirmar sua presença! 💕
");
  ("gift_registry",
"
🤍 Nosso casamento está chegando!

🎁 Criamos uma lista de presentes para facilitar. Confira em: {gift_link}

📅 Data: {date}
⏰ Horário: {time}

Sua presença já é nosso maior presente! 💕
")
].

Local Close Scope string_scope.

(** [WEDDING_MESSAGES.get(key, default)] and [kwargs[key]]. *)
Fixpoint dict_get (d : list (string * string)) (key : string)
  : option string :=
  match d with
  | [] => None
  | (k, v) :: d' => if String.eqb k key then Some v else dict_get d' key
  end.

Definition kwarg (kwargs : list (string * string)) (key : string)
  : Py.result string :=
  match dict_get kwargs key with
  | Some v => Ok v
  | None => Raise (KeyError key)
  end.

(** [template.format], given [kwargs], for the format strings of this module:
    literal text, doubled braces, and fields [{name}] looked up in
    [kwargs].  [field] holds the name read so far inside a field. *)
Fixpoint format_from (kwargs : list (string * string)) (field : option string)
  (s : string) : Py.result string :=
  match s with
  | EmptyString =>
      match field with
      | None => Ok EmptyString
      | Some _ => Raise (ValueError "expected '}' before end of string")
      end
  | String c s' =>
      match field with
      | Some name =>
          if Ascii.eqb c "}" then
            v <- kwarg kwargs name ;;
            r <- format_from kwargs None s' ;;
            Ok (String.append v r)
          else format_from kwargs (Some (String.append name (String c EmptyString))) s'
      | None =>
          if Ascii.eqb c "{" then
            match s' with
            | String "{" s'' =>
                r <- format_from kwargs None s'' ;; Ok (String "{" r)
            | _ => format_from kwargs (Some EmptyString) s'
            end
          else if Ascii.eqb c "}" then
            match s' with
            | String "}" s'' =>
                r <- format_from kwargs None s'' ;; Ok (String "}" r)
            | _ => Raise (ValueError "Single '}' encountered in format string")
            end
          else r <- format_from kwargs None s' ;; Ok (String c r)
      end
  end.

Definition format (template : string) (kwargs : list (string * string))
  : Py.result string :=
  format_from kwargs None template.

Definition get_wedding_message (message_type : string)
  (kwargs : list (string * string)) : Py.result string :=
  let template :=
    match dict_get WEDDING_MESSAGES message_type with
    | Some t => t
    | None => EmptyString
    end in
  if Py.truthy template then format template kwargs
  else Ok EmptyString.

(** A call of [get_wedding_message] with [message_type] followed by
    [more_positional] further positional arguments: the function takes one
    positional argument. *)
Definition call_get_wedding_message (message_type : string)
  (more_positional : nat) (kwargs : list (string * string))
  : Py.result string :=
  match more_positional with
  | O => get_wedding_message message_type kwargs
  | S n =>
      Raise (TypeError
        (String.append "get_wedding_message() takes 1 positional argument but "
           (String.append (Py.str_int (Z.of_nat (S (S n)))) " were given")))
  end.

End Whatsapp.

(* ================================================================= *)
(** ** routes.py: WhatsApp, admin side *)

(** [str(guest)]: the [repr] of a model instance. *)
Definition guest_repr (g : Guest.t) : string :=
  String.append "<Guest " (String.append (Py.str_int (Guest.id g)) ">").

(** What [send_whatsapp] leaves behind: the messages flashed, the
    response, the venue cache, and the single sends that were made, with
    what each returned. *)
Record whatsapp_outcome := {
  w_flashes : list flashed;
  w_resp : response;
  w_cache : venue_cache;
  w_attempts : list (Whatsapp.entry Guest.t)
}.

(** The handler of [except Exception as e] in [send_whatsapp]. *)
Definition general_error (before : list flashed) (e : Py.exn)
  (c : venue_cache) (attempts : list (Whatsapp.entry Guest.t))
  : whatsapp_outcome :=
  {| w_flashes :=
       (before ++ [(String.append "Erro geral no envio: " (Py.str_exn e),
                    danger)])%list;
     w_resp := Redirect "admin_whatsapp";
     w_cache := c;
     w_attempts := attempts |}.

(** The message to send, and the cache after choosing it. *)
Definition choose_message (s : store) (c : venue_cache) (now : Z)
  (message_type custom_message : string)
  : Py.result string * venue_cache :=
  if String.eqb message_type "custom" && Py.truthy custom_message then
    (Ok custom_message, c)
  else
    let cv := get_cached_venue s c now in
    (* get_wedding_message(message_type, venue) *)
    (Whatsapp.call_get_wedding_message message_type 1 [], cache cv).

Definition send_whatsapp (s : store) (c : venue_cache)
  (creds : Whatsapp.credentials) (twilio : Whatsapp.provider)
  (f : form) (now : Z) : whatsapp_outcome :=
  let message_type := get_default f "message_type" "invite" in
  let custom_message := Py.strip (get_default f "custom_message" "") in
  let selected_guests := getlist f "guest_ids" in
  match selected_guests with
  | [] =>
      {| w_flashes := [("Nenhum convidado selecionado!"%string, warning)];
         w_resp := Redirect "admin_whatsapp";
         w_cache := c;
         w_attempts := [] |}
  | _ =>
      match Py.int_all selected_guests with
      | Raise e => general_error [] e c []
      | Ok guest_ids =>
          let guests := Db.guests_in s guest_ids in
          let guests_without_phone :=
            filter (fun g => negb (Py.truthy_opt (Guest.phone g))) guests in
          let warned :=
            match guests_without_phone with
            | [] => []
            | _ =>
                [(String.append "Convidados sem telefone: "
                    (Py.join ", " (map Guest.name guests_without_phone)),
                  warning)]
            end in
          let guests_with_phone :=
            filter (fun g => Py.truthy_opt (Guest.phone g)) guests in
          match guests_with_phone with
          | [] =>
              {| w_flashes :=
                   (warned ++
                    [("Nenhum convidado selecionado possui telefone!"%string,
                      danger)])%list;
                 w_resp := Redirect "admin_whatsapp";
                 w_cache := c;
                 w_attempts := [] |}
          | _ =>
              match choose_message s c now message_type custom_message with
              | (Raise e, c') => general_error warned e c' []
              | (Ok message, c') =>
                  let sent :=
                    Whatsapp.send_bulk_whatsapp_messages Guest.t guest_repr
                      creds twilio guests_with_phone message in
                  (* success_count, error_count, errors = <the dict> *)
                  match Py.unpack3 (Whatsapp.bulk_keys sent) with
                  | Raise e =>
                      general_error warned e c' (Whatsapp.results sent)
                  | Ok (success_count, error_count, errors) =>
                      (* success_count > 0, with a key of the dict on the left *)
                      general_error warned
                        (TypeError
                           "'>' not supported between instances of 'str' and 'int'")
                        c' (Whatsapp.results sent)
                  end
              end
          end
      end
  end.

(* ================================================================= *)
(** ** Constants and sample data used in the statements below *)

(** One day in microseconds. *)
Definition day_us : Z := 86400000000.

Definition old_venue : VenueInfo.t :=
  {| VenueInfo.id := 1; VenueInfo.name := "Igreja";
     VenueInfo.address := None; VenueInfo.map_link := None;
     VenueInfo.description := None; VenueInfo.date := None;
     VenueInfo.time := None; VenueInfo.event_datetime := None;
     VenueInfo.created_at := Some 0; VenueInfo.updated_at := Some 0 |}.

Definition moved_venue : VenueInfo.t :=
  set_venue_text old_venue "Capela" "" "" "".


Definition familia : GuestGroup.t :=
  {| GuestGroup.id := 1; GuestGroup.name := "Familia Silva";
     GuestGroup.description := None; GuestGroup.created_at := Some 0 |}.

Definition amigos : GuestGroup.t :=
  {| GuestGroup.id := 2; GuestGroup.name := "Amigos";
     GuestGroup.description := None; GuestGroup.created_at := Some 0 |}.

Definition ana : Guest.t :=
  {| Guest.id := 1; Guest.name := "Ana Silva";
     Guest.phone := Some "+5511666666666"%string;
     Guest.rsvp_status := "pendente"; Guest.group_id := Some 1;
     Guest.created_at := Some 0 |}.

Definition joao : Guest.t :=
  {| Guest.id := 2; Guest.name := "Joao Silva"; Guest.phone := None;
     Guest.rsvp_status := "pendente"; Guest.group_id := Some 1;
     Guest.created_at := Some 0 |}.

Definition rita : Guest.t :=
  {| Guest.id := 3; Guest.name := "Rita Lima";
     Guest.phone := Some "+5511999000000"%string;
     Guest.rsvp_status := "pendente"; Guest.group_id := None;
     Guest.created_at := Some 0 |}.

Definition sample_store : store :=
  {| guests := [ana; joao; rita]; groups := [familia; amigos]; venues := [] |}.

Definition empty_store : store :=
  {| guests := []; groups := []; venues := [] |}.

(* ================================================================= *)
(** ** Vocabulary of the statements *)

(** The response of [get_guest_group] when something was raised. *)
Definition internal_error : response :=
  Jsonify (JDict [("error"%string, JStr "Erro interno")]) 500.

(** The selected ids whose submitted status is one of the two accepted. *)
Definition valid_ids (f : form) (guest_ids : list string) : list string :=
  filter (fun guest_id =>
            accepted_status (get f (String.append "rsvp_" guest_id)))
         guest_ids.

(** The status submitted for a guest id ([''] when the field is absent). *)
Definition status_of (f : form) (guest_id : string) : string :=
  match get f (String.append "rsvp_" guest_id) with
  | Some st => st
  | None => ""%string
  end.


Definition none_selected : flashed :=
  ("Nenhum convidado selecionado."%string, danger).

Definition rsvp_failed : flashed :=
  ("Erro ao processar confirmação."%string, danger).


(** The three values of the rsvp status the data model names. *)
Definition in_enum (status : string) : bool :=
  String.eqb status "pendente" || String.eqb status "confirmado"
  || String.eqb status "nao_confirmado".

(** The message of [delete_group] when guests still belong to the group. *)
Definition group_in_use (group_name : string) (guests_count : Z) : flashed :=
  (String.append "Não é possível deletar o grupo '"
     (String.append group_name
        (String.append "' pois há "
           (String.append (Py.str_int guests_count)
              " convidado(s) associado(s)!"))), danger).

Definition group_removed (group_name : string) : flashed :=
  (String.append "Grupo '" (String.append group_name "' removido com sucesso!"),
   success).


(** An admin edit that submits a status outside the three values. *)
Definition edit_form : form :=
  [("name", "Ana Silva"); ("phone", ""); ("group_id", "1");
   ("rsvp_status", "talvez")]%string.

(** A guest with the phone number blanked. *)
Definition without_phone (g : Guest.t) : Guest.t := Guest.set_phone g None.

(** Two stores that differ at most in the phone numbers of their guests. *)
Definition same_but_phones (s1 s2 : store) : Prop :=
  map without_phone (guests s1) = map without_phone (guests s2)
  /\ groups s1 = groups s2
  /\ venues s1 = venues s2.

(** [sample_store] with other phone numbers. *)
Definition sample_store_other_phones : store :=
  {| guests := [Guest.set_phone ana None;
                Guest.set_phone joao (Some "+5511000000000"%string);
                Guest.set_phone rita (Some ""%string)];
     groups := [familia; amigos]; venues := [] |}.



(** The guests a search for [name] is meant to find: those whose name
    starts with it, letter case aside. *)
Definition name_starts_with (name : string) (g : Guest.t) : bool :=
  String.prefix (Db.lower name) (Db.lower (Guest.name g)).

(** The list of guests in a response of [search_guest]. *)
Definition found (r : response * nat) : list json :=
  match fst r with
  | Jsonify (JDict [(_, JList l)]) _ => l
  | _ => []
  end.

Definition no_guests : response :=
  Jsonify (JDict [("guests"%string, JList [])]) 200.

(** A field of the form as [update_venue] reads it. *)
Definition field (f : form) (key : string) : string :=
  Py.strip (get_default f key "").

(** The row [update_venue] works on: the first row of the table, or a new
    one when the table is empty. *)
Definition prior_venue (s : store) (now : Z) : VenueInfo.t :=
  match Db.first (venues s) with
  | Some v => v
  | None => new_venue (Db.next_venue_id (venues s)) now
  end.

Definition venue_updated : flashed :=
  ("Informações do local atualizadas com sucesso!"%string, success).

Definition bad_date_time : flashed :=
  ("Formato de data ou hora inválido!"%string, warning).

Definition bad_date : flashed :=
  ("Formato de data inválido!"%string, warning).

(** The date, time and combined columns of [v] are those of [prior]. *)
Definition same_event (v prior : VenueInfo.t) : Prop :=
  VenueInfo.date v = VenueInfo.date prior
  /\ VenueInfo.time v = VenueInfo.time prior
  /\ VenueInfo.event_datetime v = VenueInfo.event_datetime prior.

Definition venue_form : form :=
  [("name", "X"); ("event_date", "2025-08-15"); ("event_time", "16:00")]%string.

Definition venue_form_renamed : form :=
  [("name", "Y")]%string.

(** The provider credentials, all three set. *)
Definition sample_creds : Whatsapp.credentials :=
  {| Whatsapp.TWILIO_ACCOUNT_SID := Some "AC0"%string;
     Whatsapp.TWILIO_AUTH_TOKEN := Some "token"%string;
     Whatsapp.TWILIO_PHONE_NUMBER := Some "+14155238886"%string |}.

(** A provider that refuses one destination and accepts the others. *)
Definition sample_twilio : Whatsapp.provider :=
  fun from_ to body =>
    if String.eqb to "whatsapp:<Guest 3>"
    then Whatsapp.Failure "HTTP 400 error: Unable to create record"
    else Whatsapp.Created "SM1" "queued".

(** Three guests selected, one of them without a phone, and a message
    typed by the admin. *)
Definition whatsapp_form : form :=
  [("message_type", "custom"); ("custom_message", "Oi!");
   ("guest_ids", "1"); ("guest_ids", "2"); ("guest_ids", "3")]%string.

(** The same selection with one of the predefined messages. *)
Definition whatsapp_form_template : form :=
  [("message_type", "thank_you");
   ("guest_ids", "1"); ("guest_ids", "2"); ("guest_ids", "3")]%string.

Definition thank_you_kwargs : list (string * string) :=
  [("date", "15/08/2025"); ("time", "16:00"); ("venue", "Igreja")]%string.

Definition thank_you_rendered : string :=
"
🤍 Muito obrigado(a) por confirmar sua presença em nosso casamento!

📅 Data: 15/08/2025
⏰ Horário: 16:00
📍 Local: Igreja

Estamos ansiosos para celebrar este momento especial com você! 💕
".

(** The entry of [results['results']] for one recipient. *)
Definition entry_of {recipient : Type} (str_of : recipient -> string)
  (creds : Whatsapp.credentials) (twilio : Whatsapp.provider)
  (message : string) (phone : recipient) : Whatsapp.entry recipient :=
  let result :=
    Whatsapp.send_whatsapp_message recipient str_of creds twilio phone message in
  {| Whatsapp.phone := phone;
     Whatsapp.success := Whatsapp.success_of recipient result;
     Whatsapp.error := Whatsapp.error_of recipient result |}.

(** The number of elements of [xs] for which [p] holds. *)
Definition count_if {A} (p : A -> bool) (xs : list A) : Z :=
  Z.of_nat (List.length (filter p xs)).

(* ================================================================= *)
(** ** models.py: gifts and administrators *)

(** [GiftRegistry].  The class has no [updated_at] column: the
    assignment [gift.updated_at = ...] of [edit_gift] sets a plain
    attribute of the object and stores nothing. *)
Module GiftRegistry.
Record t := {
  id : Z;
  item_name : string;
  description : option string;
  price : option string;
  image_url : option string;
  image_filename : option string;
  pix_key : option string;
  pix_link : option string;
  credit_card_link : option string;
  is_active : bool;
  created_at : option Z
}.
End GiftRegistry.

Module AdminUser.
Record t := {
  id : Z;
  username : string;
  password_hash : string;
  created_at : option Z
}.

Definition set_password_hash (a : t) (h : string) : t :=
  {| id := id a; username := username a; password_hash := h;
     created_at := created_at a |}.
End AdminUser.

(* ================================================================= *)
(** ** Further queries and writes *)

Module Sql.

(** The key an inserted row receives: one that no row of the table has. *)
Definition next_id {A} (key : A -> Z) (rows : list A) : Z :=
  1 + fold_right (fun r m => Z.max (key r) m) 0 rows.

(** [ORDER BY key]: insertion of a row before the first row whose key is
    not smaller. *)
Fixpoint insert_by {A} (key : A -> Z) (x : A) (rows : list A) : list A :=
  match rows with
  | [] => [x]
  | y :: rows' =>
      if key x <=? key y then x :: rows else y :: insert_by key x rows'
  end.

Definition order_by {A} (key : A -> Z) (rows : list A) : list A :=
  fold_right (insert_by key) [] rows.

(** [ORDER BY key DESC] *)
Definition order_by_desc {A} (key : A -> Z) (rows : list A) : list A :=
  order_by (fun r => - key r) rows.

(** [Guest.query.filter_by(name=name)] *)
Definition guests_by_name (s : store) (name : string) : list Guest.t :=
  filter (fun g => String.eqb (Guest.name g) name) (guests s).

(** [GuestGroup.query.filter_by(name=name)] *)
Definition groups_by_name (s : store) (name : string) : list GuestGroup.t :=
  filter (fun g => String.eqb (GuestGroup.name g) name) (groups s).

(** [db.session.delete(guest)] *)
Definition delete_guest_row (rows : list Guest.t) (guest_id : Z)
  : list Guest.t :=
  filter (fun r => negb (Guest.id r =? guest_id)) rows.

Definition save_group (rows : list GuestGroup.t) (g : GuestGroup.t)
  : list GuestGroup.t :=
  map (fun r => if GuestGroup.id r =? GuestGroup.id g then g else r) rows.

(** [Guest.query.filter_by(id=guest_id).update({'group_id': group_id})]:
    the rows after the statement. *)
Definition update_group_id (rows : list Guest.t) (guest_id : Z)
  (group_id : option Z) : list Guest.t :=
  map (fun g =>
         if Guest.id g =? guest_id then
           {| Guest.id := Guest.id g; Guest.name := Guest.name g;
              Guest.phone := Guest.phone g;
              Guest.rsvp_status := Guest.rsvp_status g;
              Guest.group_id := group_id;
              Guest.created_at := Guest.created_at g |}
         else g) rows.

(** [GiftRegistry.query.filter_by(is_active=True)] *)
Definition active (gifts : list GiftRegistry.t) : list GiftRegistry.t :=
  filter GiftRegistry.is_active gifts.

Definition gifts_by_id (gifts : list GiftRegistry.t) (gift_id : Z)
  : list GiftRegistry.t :=
  filter (fun g => GiftRegistry.id g =? gift_id) gifts.

Definition save_gift (rows : list GiftRegistry.t) (g : GiftRegistry.t)
  : list GiftRegistry.t :=
  map (fun r => if GiftRegistry.id r =? GiftRegistry.id g then g else r) rows.

Definition delete_gift_row (rows : list GiftRegistry.t) (gift_id : Z)
  : list GiftRegistry.t :=
  filter (fun r => negb (GiftRegistry.id r =? gift_id)) rows.

(** [db.session.commit()] on one table. *)
Definition commit {T} (db_ok : bool) (pending : T) : Py.result T :=
  if db_ok then Py.Ok pending
  else Py.Raise (Py.DatabaseError "database error").

End Sql.

(* ================================================================= *)
(** ** routes.py: the other handlers of guests and groups *)

Definition add_guest_body (s : store) (f : form) (now : Z) (db_ok : bool)
  : Py.result (store * flashed) :=
  let name := Py.strip (get_default f "name" "") in
  let phone := Py.strip (get_default f "phone" "") in
  let group_id := get f "group_id" in
  if negb (Py.truthy name) then
    Ok (s, ("Nome do convidado é obrigatório!"%string, danger))
  else
    match Db.first (Sql.guests_by_name s name) with
    | Some _ =>
        Ok (s, (String.append "Convidado '" (String.append name "' já existe!"),
                warning))
    | None =>
        gid <- parse_group_id group_id ;;
        let new_guest :=
          {| Guest.id := Sql.next_id Guest.id (guests s);
             Guest.name := name;
             Guest.phone := Py.or_None phone;
             Guest.rsvp_status := "pendente";
             Guest.group_id := gid;
             Guest.created_at := Some now |} in
        s' <- Db.commit db_ok (with_guests s (guests s ++ [new_guest])%list) ;;
        Ok (s', (String.append "Convidado '"
                   (String.append name "' adicionado com sucesso!"), success))
    end.

Definition add_guest (s : store) (f : form) (now : Z) (db_ok : bool)
  : outcome :=
  match add_guest_body s f now db_ok with
  | Ok (s', msg) =>
      {| db := s'; flashes := [msg]; resp := Redirect "admin_guests" |}
  | Raise e =>
      {| db := s;
         flashes := [(String.append "Erro ao adicionar convidado: "
                        (Py.str_exn e), danger)];
         resp := Redirect "admin_guests" |}
  end.

Definition delete_guest_body (s : store) (guest_id : Z) (db_ok : bool)
  : Py.result (store * flashed) :=
  guest <- Db.first_or_404 (Db.guests_by_id s guest_id) ;;
  let guest_name := Guest.name guest in
  s' <- Db.commit db_ok
          (with_guests s (Sql.delete_guest_row (guests s) (Guest.id guest))) ;;
  Ok (s', (String.append "Convidado '"
             (String.append guest_name "' removido com sucesso!"), success)).

Definition delete_guest (s : store) (guest_id : Z) (db_ok : bool) : outcome :=
  match delete_guest_body s guest_id db_ok with
  | Ok (s', msg) =>
      {| db := s'; flashes := [msg]; resp := Redirect "admin_guests" |}
  | Raise e =>
      {| db := s;
         flashes := [(String.append "Erro ao remover convidado: "
                        (Py.str_exn e), danger)];
         resp := Redirect "admin_guests" |}
  end.

Definition add_group_body (s : store) (f : form) (now : Z) (db_ok : bool)
  : Py.result (store * flashed) :=
  let name := Py.strip (get_default f "name" "") in
  let description := Py.strip (get_default f "description" "") in
  if negb (Py.truthy name) then
    Ok (s, ("Nome do grupo é obrigatório!"%string, danger))
  else
    match Db.first (Sql.groups_by_name s name) with
    | Some _ =>
        Ok (s, (String.append "Grupo '" (String.append name "' já existe!"),
                warning))
    | None =>
        let new_group :=
          {| GuestGroup.id := Sql.next_id GuestGroup.id (groups s);
             GuestGroup.name := name;
             GuestGroup.description := Py.or_None description;
             GuestGroup.created_at := Some now |} in
        s' <- Db.commit db_ok (with_groups s (groups s ++ [new_group])%list) ;;
        Ok (s', (String.append "Grupo '"
                   (String.append name "' criado com sucesso!"), success))
    end.

Definition add_group (s : store) (f : form) (now : Z) (db_ok : bool)
  : outcome :=
  match add_group_body s f now db_ok with
  | Ok (s', msg) =>
      {| db := s'; flashes := [msg]; resp := Redirect "admin_groups" |}
  | Raise e =>
      {| db := s;
         flashes := [(String.append "Erro ao criar grupo: " (Py.str_exn e),
                      danger)];
         resp := Redirect "admin_groups" |}
  end.

Definition edit_group_body (s : store) (group_id : Z) (f : form)
  (db_ok : bool) : Py.result (store * flashed) :=
  group <- Db.first_or_404 (Db.groups_by_id s group_id) ;;
  let name := Py.strip (get_default f "name" "") in
  let description := Py.strip (get_default f "description" "") in
  if negb (Py.truthy name) then
    Ok (s, ("Nome do grupo é obrigatório!"%string, danger))
  else
    let group' :=
      {| GuestGroup.id := GuestGroup.id group;
         GuestGroup.name := name;
         GuestGroup.description := Py.or_None description;
         GuestGroup.created_at := GuestGroup.created_at group |} in
    s' <- Db.commit db_ok (with_groups s (Sql.save_group (groups s) group')) ;;
    Ok (s', (String.append "Grupo '"
               (String.append name "' atualizado com sucesso!"), success)).

Definition edit_group (s : store) (group_id : Z) (f : form) (db_ok : bool)
  : outcome :=
  match edit_group_body s group_id f db_ok with
  | Ok (s', msg) =>
      {| db := s'; flashes := [msg]; resp := Redirect "admin_groups" |}
  | Raise e =>
      {| db := s;
         flashes := [(String.append "Erro ao editar grupo: " (Py.str_exn e),
                      danger)];
         resp := Redirect "admin_groups" |}
  end.

(** [get_group_guests]: the guests without a group and the guests of the
    group. *)
Definition get_group_guests (s : store) (group_id : Z) : response :=
  let all_guests := guests s in
  let available_guests :=
    filter (fun g => match Guest.group_id g with
                     | None => true
                     | Some _ => false
                     end) all_guests in
  let group_guests :=
    filter (fun g => match Guest.group_id g with
                     | Some i => i =? group_id
                     | None => false
                     end) all_guests in
  Jsonify (JDict [("available_guests"%string,
                   JList (map group_member available_guests));
                  ("group_guests"%string,
                   JList (map group_member group_guests))]) 200.

(** The body of the requests of [add_guest_to_group] and
    [remove_guest_from_group]: a JSON object whose two fields are integers,
    [null] or absent. *)
Record group_request := {
  req_guest_id : option Z;
  req_group_id : option Z
}.

Definition json_failure (error : string) (status : Z) : response :=
  Jsonify (JDict [("success"%string, JBool false);
                  ("error"%string, JStr error)]) status.

Definition json_success (message : string) : response :=
  Jsonify (JDict [("success"%string, JBool true);
                  ("message"%string, JStr message)]) 200.

(** [add_guest_to_group].  The [UPDATE] is issued at once; [db_ok] says
    whether it and the commit go through. *)
Definition add_guest_to_group (s : store) (data : group_request)
  (db_ok : bool) : store * response :=
  match truthy_id (req_guest_id data), truthy_id (req_group_id data) with
  | Some guest_id, Some group_id =>
      if db_ok then
        let rows_updated := Db.count (Db.guests_by_id s guest_id) in
        if rows_updated =? 0 then
          (s, json_failure "Convidado não encontrado" 404)
        else
          (with_guests s
             (Sql.update_group_id (guests s) guest_id (Some group_id)),
           json_success "Convidado adicionado ao grupo com sucesso")
      else
        (s, json_failure (Py.str_exn (Py.DatabaseError "database error")) 500)
  | _, _ => (s, json_failure "Dados inválidos" 400)
  end.

Definition remove_guest_from_group (s : store) (data : group_request)
  (db_ok : bool) : store * response :=
  match truthy_id (req_guest_id data) with
  | Some guest_id =>
      if db_ok then
        let rows_updated := Db.count (Db.guests_by_id s guest_id) in
        if rows_updated =? 0 then
          (s, json_failure "Convidado não encontrado" 404)
        else
          (with_guests s (Sql.update_group_id (guests s) guest_id None),
           json_success "Convidado removido do grupo com sucesso")
      else
        (s, json_failure (Py.str_exn (Py.DatabaseError "database error")) 500)
  | None => (s, json_failure "ID obrigatório" 400)
  end.

(** [agradecimento_personalizado]: the name shown, or the 404 raised by
    [first_or_404], which nothing catches here. *)
Definition agradecimento_personalizado (s : store) (guest_id : Z)
  : Py.result string :=
  guest <- Db.first_or_404 (Db.guests_by_id s guest_id) ;;
  Ok (Guest.name guest).

(* ================================================================= *)
(** ** routes.py: gifts *)

(** What a handler of the gift table leaves behind. *)
Record gift_outcome := {
  gift_rows : list GiftRegistry.t;
  gift_flashes : list flashed;
  gift_resp : response
}.

(** The public page [gifts]: the rows handed to the template. *)
Definition gifts_page (table : list GiftRegistry.t) : list GiftRegistry.t :=
  Sql.order_by GiftRegistry.id (Sql.active table).

(** [admin_gifts] *)
Definition admin_gifts (table : list GiftRegistry.t) : list GiftRegistry.t :=
  Sql.order_by GiftRegistry.id table.

(** The home page [index]: the venue, the gifts, the cache afterwards and
    the reads of the venue table. *)
Record index_page := {
  index_venue : option VenueInfo.t;
  index_gifts : list GiftRegistry.t;
  index_cache : venue_cache;
  index_reads : nat
}.

Definition index (s : store) (table : list GiftRegistry.t) (c : venue_cache)
  (now : Z) : index_page :=
  let cv := get_cached_venue s c now in
  let gifts :=
    Db.limit 3 (Sql.order_by_desc GiftRegistry.id (Sql.active table)) in
  {| index_venue := venue cv; index_gifts := gifts;
     index_cache := cache cv; index_reads := reads cv |}.

Definition add_gift_body (table : list GiftRegistry.t) (f : form) (now : Z)
  (db_ok : bool) : Py.result (list GiftRegistry.t * flashed) :=
  let item_name := Py.strip (get_default f "item_name" "") in
  let description := Py.strip (get_default f "description" "") in
  let price := Py.strip (get_default f "price" "") in
  let image_url := Py.strip (get_default f "image_url" "") in
  let pix_key := Py.strip (get_default f "pix_key" "") in
  let pix_link := Py.strip (get_default f "pix_link" "") in
  let credit_card_link := Py.strip (get_default f "credit_card_link" "") in
  if negb (Py.truthy item_name) then
    Ok (table, ("Nome do presente é obrigatório!"%string, danger))
  else
    let new_gift :=
      {| GiftRegistry.id := Sql.next_id GiftRegistry.id table;
         GiftRegistry.item_name := item_name;
         GiftRegistry.description := Py.or_None description;
         GiftRegistry.price := Py.or_None price;
         GiftRegistry.image_url := Py.or_None image_url;
         GiftRegistry.image_filename := None;
         GiftRegistry.pix_key := Py.or_None pix_key;
         GiftRegistry.pix_link := Py.or_None pix_link;
         GiftRegistry.credit_card_link := Py.or_None credit_card_link;
         GiftRegistry.is_active := true;
         GiftRegistry.created_at := Some now |} in
    table' <- Sql.commit db_ok (table ++ [new_gift])%list ;;
    Ok (table', (String.append "Presente '"
                   (String.append item_name "' adicionado com sucesso!"),
                 success)).

Definition add_gift (table : list GiftRegistry.t) (f : form) (now : Z)
  (db_ok : bool) : gift_outcome :=
  match add_gift_body table f now db_ok with
  | Ok (table', msg) =>
      {| gift_rows := table'; gift_flashes := [msg];
         gift_resp := Redirect "admin_gifts" |}
  | Raise e =>
      {| gift_rows := table;
         gift_flashes := [(String.append "Erro ao adicionar presente: "
                             (Py.str_exn e), danger)];
         gift_resp := Redirect "admin_gifts" |}
  end.

(** [edit_gift].  The columns are assigned before the name is checked;
    when the name is empty the handler returns without a commit and the
    assignments are dropped with the session of the request. *)
Definition edit_gift_body (table : list GiftRegistry.t) (gift_id : Z)
  (f : form) (db_ok : bool) : Py.result (list GiftRegistry.t * flashed) :=
  gift <- Db.first_or_404 (Sql.gifts_by_id table gift_id) ;;
  let gift' :=
    {| GiftRegistry.id := GiftRegistry.id gift;
       GiftRegistry.item_name := Py.strip (get_default f "item_name" "");
       GiftRegistry.description :=
         Py.or_None (Py.strip (get_default f "description" ""));
       GiftRegistry.price := Py.or_None (Py.strip (get_default f "price" ""));
       GiftRegistry.image_url :=
         Py.or_None (Py.strip (get_default f "image_url" ""));
       GiftRegistry.image_filename := GiftRegistry.image_filename gift;
       GiftRegistry.pix_key :=
         Py.or_None (Py.strip (get_default f "pix_key" ""));
       GiftRegistry.pix_link :=
         Py.or_None (Py.strip (get_default f "pix_link" ""));
       GiftRegistry.credit_card_link :=
         Py.or_None (Py.strip (get_default f "credit_card_link" ""));
       GiftRegistry.is_active := contains f "is_active";
       GiftRegistry.created_at := GiftRegistry.created_at gift |} in
  if negb (Py.truthy (GiftRegistry.item_name gift')) then
    Ok (table, ("Nome do presente é obrigatório!"%string, danger))
  else
    table' <- Sql.commit db_ok (Sql.save_gift table gift') ;;
    Ok (table', (String.append "Presente '"
                   (String.append (GiftRegistry.item_name gift')
                      "' atualizado com sucesso!"), success)).

Definition edit_gift (table : list GiftRegistry.t) (gift_id : Z) (f : form)
  (db_ok : bool) : gift_outcome :=
  match edit_gift_body table gift_id f db_ok with
  | Ok (table', msg) =>
      {| gift_rows := table'; gift_flashes := [msg];
         gift_resp := Redirect "admin_gifts" |}
  | Raise e =>
      {| gift_rows := table;
         gift_flashes := [(String.append "Erro ao editar presente: "
                             (Py.str_exn e), danger)];
         gift_resp := Redirect "admin_gifts" |}
  end.

Definition delete_gift_body (table : list GiftRegistry.t) (gift_id : Z)
  (db_ok : bool) : Py.result (list GiftRegistry.t * flashed) :=
  gift <- Db.first_or_404 (Sql.gifts_by_id table gift_id) ;;
  let gift_name := GiftRegistry.item_name gift in
  table' <- Sql.commit db_ok
              (Sql.delete_gift_row table (GiftRegistry.id gift)) ;;
  Ok (table', (String.append "Presente '"
                 (String.append gift_name "' removido com sucesso!"),
               success)).

Definition delete_gift (table : list GiftRegistry.t) (gift_id : Z)
  (db_ok : bool) : gift_outcome :=
  match delete_gift_body table gift_id db_ok with
  | Ok (table', msg) =>
      {| gift_rows := table'; gift_flashes := [msg];
         gift_resp := Redirect "admin_gifts" |}
  | Raise e =>
      {| gift_rows := table;
         gift_flashes := [(String.append "Erro ao remover presente: "
                             (Py.str_exn e), danger)];
         gift_resp := Redirect "admin_gifts" |}
  end.

(* ================================================================= *)
(** ** routes.py: counts, event date, date filter *)

(** The values [admin_dashboard] hands to its template. *)
Record dashboard := {
  total_guests : Z;
  confirmed_guests : Z;
  pending_guests : Z;
  declined_guests : Z;
  total_groups : Z;
  total_gifts : Z
}.

(** [func.count(Guest.id).filter(Guest.rsvp_status == status)] *)
Definition count_status (s : store) (status : string) : Z :=
  Db.count (filter (fun g => String.eqb (Guest.rsvp_status g) status)
                   (guests s)).

Definition admin_dashboard (s : store) (table : list GiftRegistry.t)
  : dashboard :=
  {| total_guests := Db.count (guests s);
     confirmed_guests := count_status s "confirmado";
     pending_guests := count_status s "pendente";
     declined_guests := count_status s "nao_confirmado";
     total_groups := Db.count (groups s);
     total_gifts := Db.count (Sql.active table) |}.

(** [api_stats]; [timestamp] is [datetime.utcnow().isoformat()]. *)
Definition api_stats (s : store) (table : list GiftRegistry.t)
  (timestamp : string) : response :=
  Jsonify
    (JDict [("total_guests"%string, JInt (Db.count (guests s)));
            ("confirmed"%string, JInt (count_status s "confirmado"));
            ("pending"%string, JInt (count_status s "pendente"));
            ("declined"%string, JInt (count_status s "nao_confirmado"));
            ("total_groups"%string, JInt (Db.count (groups s)));
            ("total_gifts"%string, JInt (Db.count (Sql.active table)));
            ("timestamp"%string, JStr timestamp)]) 200.

(** [n] in decimal, filled with zeros on the left up to [width]
    characters (the [%02d] and [%04d] of [isoformat]), for [0 <= n]. *)
Fixpoint zeros (n : nat) : string :=
  match n with
  | O => EmptyString
  | S n' => String "0" (zeros n')
  end.

Definition zfill (width : nat) (n : Z) : string :=
  let digits := Py.str_int n in
  String.append (zeros (width - String.length digits)) digits.

(** [dt.isoformat()] for a [datetime] without microseconds. *)
Definition isoformat (dt : datetime) : string :=
  String.append (zfill 4 (year (dt_date dt)))
 (String.append "-"
 (String.append (zfill 2 (month (dt_date dt)))
 (String.append "-"
 (String.append (zfill 2 (day (dt_date dt)))
 (String.append "T"
 (String.append (zfill 2 (hour (dt_time dt)))
 (String.append ":"
 (String.append (zfill 2 (minute (dt_time dt)))
 (String.append ":" (zfill 2 (second (dt_time dt)))))))))))).

Definition event_json (text : string) : response :=
  Jsonify (JDict [("datetime"%string, JStr text);
                  ("success"%string, JBool true)]) 200.

(** [api_event_datetime]: the response and the cache afterwards. *)
Definition api_event_datetime (s : store) (c : venue_cache) (now : Z)
  : response * venue_cache :=
  let cv := get_cached_venue s c now in
  match venue cv with
  | Some v =>
      match VenueInfo.event_datetime v with
      | Some dt => (event_json (isoformat dt), cache cv)
      | None => (event_json "2025-10-19T18:30:00", cache cv)
      end
  | None => (event_json "2025-10-19T18:30:00", cache cv)
  end.

(** The values the filter [format_date_br] is applied to. *)
Inductive filter_value :=
| FNone
| FStr (s : string)
| FDate (d : date)
| FDateTime (dt : datetime).

Definition meses : list string :=
  [""; "Janeiro"; "Fevereiro"; "Março"; "Abril"; "Maio"; "Junho";
   "Julho"; "Agosto"; "Setembro"; "Outubro"; "Novembro"; "Dezembro"]%string.

Definition date_br (d : date) : string :=
  String.append (Py.str_int (day d))
 (String.append " de "
 (String.append (nth (Z.to_nat (month d)) meses EmptyString)
 (String.append " de " (Py.str_int (year d))))).

(** [format_date_br].  A [date] has its month between 1 and 12, so the
    index into [meses] is in range. *)
Definition format_date_br (value : filter_value) : string :=
  match value with
  | FNone => EmptyString
  | FStr s => s
  | FDate d => date_br d
  | FDateTime dt => date_br (dt_date dt)
  end.

(* ================================================================= *)
(** ** routes.py: the admin session *)

(** The Flask [session]: a dict, kept as the list of its items. *)
Definition session := list (string * json).

(** [key in session] *)
Definition session_has (sess : session) (key : string) : bool :=
  existsb (fun kv => String.eqb (fst kv) key) sess.

(** [session[key] = value] *)
Definition session_set (sess : session) (key : string) (value : json)
  : session :=
  ((key, value) :: filter (fun kv => negb (String.eqb (fst kv) key)) sess)%list.

(** What a decorated handler returns: the refusal of the decorator, or
    what the handler itself returns. *)
Inductive gated (A : Type) :=
| Refused (message : flashed) (to : response)
| Allowed (a : A).
Arguments Refused {A} message to.
Arguments Allowed {A} a.

(** The decorator [admin_required_optimized] around a handler [f]. *)
Definition admin_required_optimized {A} (sess : session) (f : unit -> A)
  : gated A :=
  if negb (session_has sess "admin_id") then
    Refused ("Acesso negado! Faça login como administrador."%string, danger)
            (Redirect "admin_login")
  else Allowed (f tt).

(** What [admin_login] answers: a redirect, the login page, or the error
    page after an exception nothing catches. *)
Inductive login_response :=
| LoginRedirect (endpoint : string)
| LoginPage
| ServerError (e : Py.exn).

Record login_outcome := {
  session_after : session;
  login_flashes : list flashed;
  login_resp : login_response
}.

(** [admin_logout] *)
Definition admin_logout (sess : session) : session * flashed * response :=
  ([], ("Logout realizado com sucesso!"%string, info), Redirect "index").

Record admin_outcome := {
  admin_rows : list AdminUser.t;
  admin_flashes : list flashed;
  admin_resp : response
}.

Section Passwords.

(** The two functions of [werkzeug.security].  The check receives what
    [request.form.get] returned, which is [None] for an absent field, and
    may raise; the hash is the one generated in the call at hand. *)
Variable check_password_hash : string -> option string -> Py.result bool.
Variable generate_password_hash : string -> string.

(** [Admin.query.filter_by(username=username).first()] *)
Definition admin_by_username (admins : list AdminUser.t)
  (username : option string) : option AdminUser.t :=
  match username with
  | Some u =>
      Db.first (filter (fun a => String.eqb (AdminUser.username a) u) admins)
  | None => None
  end.

(** [Admin.query.get(id)] *)
Definition admin_by_id (admins : list AdminUser.t) (admin_id : Z)
  : option AdminUser.t :=
  Db.first (filter (fun a => AdminUser.id a =? admin_id) admins).

Definition admin_login (admins : list AdminUser.t) (sess : session)
  (is_post : bool) (f : form) : login_outcome :=
  if is_post then
    let username := get f "username" in
    let password := get f "password" in
    let invalid :=
      {| session_after := sess;
         login_flashes := [("Usuário ou senha inválidos!"%string, danger)];
         login_resp := LoginPage |} in
    match admin_by_username admins username with
    | Some admin =>
        match check_password_hash (AdminUser.password_hash admin) password with
        | Ok true =>
            {| session_after :=
                 session_set
                   (session_set sess "admin_id" (JInt (AdminUser.id admin)))
                   "admin_username" (JStr (AdminUser.username admin));
               login_flashes := [("Login realizado com sucesso!"%string,
                                  success)];
               login_resp := LoginRedirect "admin_dashboard" |}
        | Ok false => invalid
        | Raise e =>
            {| session_after := sess; login_flashes := [];
               login_resp := ServerError e |}
        end
    | None => invalid
    end
  else
    {| session_after := sess; login_flashes := []; login_resp := LoginPage |}.

(** [create_admin], run before each request. *)
Definition create_admin (admins : list AdminUser.t) (now : Z) (db_ok : bool)
  : list AdminUser.t :=
  match Db.first admins with
  | Some _ => admins
  | None =>
      let admin :=
        {| AdminUser.id := Sql.next_id AdminUser.id admins;
           AdminUser.username := "admin";
           AdminUser.password_hash := generate_password_hash "admin123";
           AdminUser.created_at := Some now |} in
      match Sql.commit db_ok (admins ++ [admin])%list with
      | Ok admins' => admins'
      | Raise _ => admins
      end
  end.

Definition save_admin (rows : list AdminUser.t) (a : AdminUser.t)
  : list AdminUser.t :=
  map (fun r => if AdminUser.id r =? AdminUser.id a then a else r) rows.

Definition password_error (admins : list AdminUser.t) (text : string)
  : admin_outcome :=
  {| admin_rows := admins;
     admin_flashes := [(String.append "Erro ao alterar senha: " text, danger)];
     admin_resp := Redirect "admin_settings" |}.

Definition password_refused (admins : list AdminUser.t) (text : string)
  : admin_outcome :=
  {| admin_rows := admins;
     admin_flashes := [(text, danger)];
     admin_resp := Redirect "admin_settings" |}.

(** [change_password] for the administrator [session['admin_id']]. *)
Definition change_password (admins : list AdminUser.t) (admin_id : Z)
  (f : form) (db_ok : bool) : admin_outcome :=
  let current_password := get_default f "current_password" "" in
  let new_password := get_default f "new_password" "" in
  let confirm_password := get_default f "confirm_password" "" in
  match admin_by_id admins admin_id with
  | None =>
      (* admin is None *)
      password_error admins
        "'NoneType' object has no attribute 'password_hash'"
  | Some admin =>
      match check_password_hash (AdminUser.password_hash admin)
              (Some current_password) with
      | Raise e => password_error admins (Py.str_exn e)
      | Ok false => password_refused admins "Senha atual incorreta!"
      | Ok true =>
          if Py.len new_password <? 6 then
            password_refused admins
              "A nova senha deve ter pelo menos 6 caracteres!"
          else if negb (String.eqb new_password confirm_password) then
            password_refused admins "A confirmação de senha não confere!"
          else
            match Sql.commit db_ok
                    (save_admin admins
                       (AdminUser.set_password_hash admin
                          (generate_password_hash new_password))) with
            | Ok admins' =>
                {| admin_rows := admins';
                   admin_flashes := [("Senha alterada com sucesso!"%string,
                                      success)];
                   admin_resp := Redirect "admin_settings" |}
            | Raise e => password_error admins (Py.str_exn e)
            end
      end
  end.

End Passwords.

(* ================================================================= *)
(** ** Vocabulary of the further statements *)

(** The text of the result when a credential is missing. *)
Definition credentials_missing : string :=
  "Credenciais do Twilio não configuradas. Verifique TWILIO_ACCOUNT_SID, TWILIO_AUTH_TOKEN e TWILIO_PHONE_NUMBER.".

(** All three credentials are set and not empty. *)
Definition configured (creds : Whatsapp.credentials) : bool :=
  Py.truthy_opt (Whatsapp.TWILIO_ACCOUNT_SID creds)
  && Py.truthy_opt (Whatsapp.TWILIO_AUTH_TOKEN creds)
  && Py.truthy_opt (Whatsapp.TWILIO_PHONE_NUMBER creds).

(** The names between braces of a format string, in the order they occur;
    [None] when the braces do not pair up.  [field] is the name read so
    far inside a field. *)
Fixpoint fields_from (field : option string) (s : string)
  : option (list string) :=
  match s with
  | EmptyString =>
      match field with
      | None => Some []
      | Some _ => None
      end
  | String c s' =>
      match field with
      | Some name =>
          if Ascii.eqb c "}" then option_map (cons name) (fields_from None s')
          else fields_from (Some (String.append name (String c EmptyString))) s'
      | None =>
          if Ascii.eqb c "{" then
            match s' with
            | String "{" s'' => fields_from None s''
            | _ => fields_from (Some EmptyString) s'
            end
          else if Ascii.eqb c "}" then
            match s' with
            | String "}" s'' => fields_from None s''
            | _ => None
            end
          else fields_from None s'
      end
  end.

Definition fields_of (template : string) : option (list string) :=
  fields_from None template.

(** The keyword argument [key] was given. *)
Definition supplied (kwargs : list (string * string)) (key : string) : bool :=
  match Whatsapp.dict_get kwargs key with
  | Some _ => true
  | None => false
  end.

Definition no_credentials : Whatsapp.credentials :=
  {| Whatsapp.TWILIO_ACCOUNT_SID := Some "AC0"%string;
     Whatsapp.TWILIO_AUTH_TOKEN := None;
     Whatsapp.TWILIO_PHONE_NUMBER := Some "+14155238886"%string |}.

(** A time of day. *)
Definition real_time (t : time) : bool :=
  (0 <=? hour t) && (hour t <=? 23)
  && (0 <=? minute t) && (minute t <=? 59)
  && (0 <=? second t) && (second t <=? 59).

(** The date and time columns of a venue hold calendar dates and times of
    day. *)
Definition real_event (v : VenueInfo.t) : bool :=
  match VenueInfo.date v with
  | Some d => Strptime.valid_date d
  | None => true
  end
  && match VenueInfo.time v with
     | Some t => real_time t
     | None => true
     end
  && match VenueInfo.event_datetime v with
     | Some dt => Strptime.valid_date (dt_date dt) && real_time (dt_time dt)
     | None => true
     end.

Definition venue_form_bad_day : form :=
  [("name", "X"); ("event_date", "2025-02-30"); ("event_time", "16:00")]%string.

Definition guest_already_exists (name : string) : flashed :=
  (String.append "Convidado '" (String.append name "' já existe!"), warning).

Definition group_already_exists (name : string) : flashed :=
  (String.append "Grupo '" (String.append name "' já existe!"), warning).

Definition new_guest_form : form :=
  [("name", "  Bruno Ferreira "); ("phone", "+5511111111111");
   ("group_id", "2")]%string.

Definition new_group_form : form :=
  [("name", "Colegas"); ("description", "")]%string.

Definition rename_group_form : form :=
  [("name", "Familia Souza"); ("description", "Lado da noiva")]%string.

(** The request that puts guest [guest_id] into group [group_id]. *)
Definition into_group (guest_id group_id : Z) : group_request :=
  {| req_guest_id := Some guest_id; req_group_id := Some group_id |}.

(** The request that takes guest [guest_id] out of its group. *)
Definition out_of_group (guest_id : Z) : group_request :=
  {| req_guest_id := Some guest_id; req_group_id := None |}.

(** A guest with the rsvp status blanked. *)
Definition without_status (g : Guest.t) : Guest.t :=
  Guest.set_rsvp_status g EmptyString.

(** Every guest of the store has one of the three statuses. *)
Definition all_in_enum (s : store) : bool :=
  forallb (fun g => in_enum (Guest.rsvp_status g)) (guests s).

Definition panelas : GiftRegistry.t :=
  {| GiftRegistry.id := 1; GiftRegistry.item_name := "Jogo de Panelas";
     GiftRegistry.description := None;
     GiftRegistry.price := Some "R$ 299,00"%string;
     GiftRegistry.image_url := None; GiftRegistry.image_filename := None;
     GiftRegistry.pix_key := None; GiftRegistry.pix_link := None;
     GiftRegistry.credit_card_link := None;
     GiftRegistry.is_active := true; GiftRegistry.created_at := Some 0 |}.

Definition liquidificador : GiftRegistry.t :=
  {| GiftRegistry.id := 2; GiftRegistry.item_name := "Liquidificador";
     GiftRegistry.description := None;
     GiftRegistry.price := Some "R$ 189,00"%string;
     GiftRegistry.image_url := None; GiftRegistry.image_filename := None;
     GiftRegistry.pix_key := None; GiftRegistry.pix_link := None;
     GiftRegistry.credit_card_link := None;
     GiftRegistry.is_active := false; GiftRegistry.created_at := Some 0 |}.

Definition sample_gifts : list GiftRegistry.t := [liquidificador; panelas].

(** The form of [edit_gift] with the box [is_active] left unchecked. *)
Definition hide_gift_form : form :=
  [("item_name", "Jogo de Panelas"); ("price", "R$ 299,00")]%string.

Definition new_gift_form : form :=
  [("item_name", "Jogo de Cama"); ("price", "R$ 149,00")]%string.

(** A stand-in for the two functions of [werkzeug.security], to run the
    handlers on examples. *)
Definition toy_hash (password : string) : string :=
  String.append "plain$" password.

Definition toy_check (pwhash : string) (password : option string)
  : Py.result bool :=
  match password with
  | Some p => Ok (String.eqb pwhash (toy_hash p))
  | None => Raise (TypeError "a string is required")
  end.

Definition sample_admins : list AdminUser.t :=
  [{| AdminUser.id := 1; AdminUser.username := "admin";
      AdminUser.password_hash := toy_hash "admin123";
      AdminUser.created_at := Some 0 |}].

Definition default_login : form :=
  [("username", "admin"); ("password", "admin123")]%string.

Definition short_password_form : form :=
  [("current_password", "admin123"); ("new_password", "abc");
   ("confirm_password", "abc")]%string.

Definition new_password_form : form :=
  [("current_password", "admin123"); ("new_password", "segredo1");
   ("confirm_password", "segredo1")]%string.

(** A submission whose selected id is not a number. *)
Definition rsvp_form_bad_id : form :=
  [("guest_ids", "1"); ("guest_ids", "x1");
   ("rsvp_1", "confirmado"); ("rsvp_x1", "confirmado")]%string.

(** A name made of white space only. *)
Definition blank_name_form : form :=
  [("name", "   "); ("item_name", "  "); ("rsvp_status", "confirmado");
   ("is_active", "on")]%string.

(** What [format_from] does on a string whose braces pair up: its result
    when every field is supplied, the [KeyError] otherwise. *)
Definition formats_as (kwargs : list (string * string))
  (field : option string) (s : string) : Prop :=
  forall fs, fields_from field s = Some fs ->
    (forallb (supplied kwargs) fs = true ->
     exists m, Whatsapp.format_from kwargs field s = Ok m)
    /\
    (forallb (supplied kwargs) fs = false ->
     exists k, In k fs /\ supplied kwargs k = false
               /\ Whatsapp.format_from kwargs field s = Raise (KeyError k)).

(* ================================================================= *)
(** ** Text as forms send it *)

(** Every byte of the string is an ASCII character. *)
Fixpoint is_ascii (s : string) : bool :=
  match s with
  | EmptyString => true
  | String c s' => (nat_of_ascii c <? 128)%nat && is_ascii s'
  end.

(** A group field on which [isdigit] and [int] are those of ASCII text:
    the field is absent, or it is ASCII text of no more characters than
    the digits the interpreter converts (4300). *)
Definition plain_group_field (s : option string) : bool :=
  match s with
  | Some s => is_ascii s && (Py.len s <=? 4300)
  | None => true
  end.

(** The character of the digit [n], for [0 <= n <= 9]. *)
Definition digit_char (n : Z) : ascii := ascii_of_nat (48 + Z.to_nat n).

Definition two_digits (n : Z) : string :=
  String (digit_char (n / 10)) (String (digit_char (n mod 10)) EmptyString).

Definition four_digits (n : Z) : string :=
  String (digit_char (n / 1000))
    (String (digit_char (n / 100 mod 10)) (two_digits (n mod 100))).

(** A date as a date field sends it: [YYYY-MM-DD]. *)
Definition date_text (d : date) : string :=
  String.append (four_digits (year d))
    (String.append "-"
       (String.append (two_digits (month d))
          (String.append "-" (two_digits (day d))))).

(** A time as a time field sends it: [HH:MM]. *)
Definition time_text (t : time) : string :=
  String.append (two_digits (hour t)) (String.append ":" (two_digits (minute t))).

(** A time of day on the minute. *)
Definition on_the_minute (t : time) : bool :=
  (0 <=? hour t) && (hour t <=? 23)
  && (0 <=? minute t) && (minute t <=? 59)
  && (second t =? 0).

(* ================================================================= *)
(** * Properties *)

(* ================================================================= *)
(** ** The venue cache *)

Lemma seconds_whole_days (t n d : Z) :
  0 <= d < day_us ->
  Py.seconds (Py.datetime_sub (t + n * day_us + d) t) = d / 1000000.
Proof.
  intros Hd. unfold Py.datetime_sub, day_us in *. cbn [Py.seconds].
  replace (t + n * 86400000000 + d - t) with (d + n * 86400000000) by lia.
  rewrite Z.mod_add by lia.
  rewrite Z.mod_small by lia. reflexivity.
Qed.

Lemma seconds_same_day (t now : Z) :
  0 <= now - t < day_us ->
  Py.seconds (Py.datetime_sub now t) = (now - t) / 1000000.
Proof.
  intros H. replace now with (t + 0 * day_us + (now - t)) at 1 by lia.
  now apply seconds_whole_days.
Qed.

(** Within the freshness window the snapshot is returned and the store is
    not read. *)
Lemma get_cached_venue_fresh (s : store) (v : option VenueInfo.t) (t now : Z) :
  0 <= now - t < 300000000 ->
  let c := {| _venue_cache := Some v; _venue_cache_time := Some t |} in
  get_cached_venue s c now = {| venue := v; cache := c; reads := 0 |}.
Proof.
  intros H c. unfold get_cached_venue. cbn [_venue_cache_time c].
  rewrite seconds_same_day by (unfold day_us; lia).
  assert (E : ((now - t) / 1000000 <? 300) = true).
  { apply Z.ltb_lt. apply Z.div_lt_upper_bound; lia. }
  rewrite E. reflexivity.
Qed.

(** Past the window, on the day of the fetch, the store is read again and
    the new snapshot kept with the time of the read. *)
Lemma get_cached_venue_expired (s : store) (c : venue_cache) (t now : Z) :
  _venue_cache_time c = Some t ->
  300000000 <= now - t < day_us ->
  get_cached_venue s c now =
    {| venue := Db.first (venues s);
       cache := {| _venue_cache := Some (Db.first (venues s));
                   _venue_cache_time := Some now |};
       reads := 1 |}.
Proof.
  intros Ht H. unfold get_cached_venue. rewrite Ht.
  rewrite seconds_same_day by lia.
  assert (E : ((now - t) / 1000000 <? 300) = false).
  { apply Z.ltb_ge. apply Z.div_le_lower_bound; lia. }
  rewrite E. reflexivity.
Qed.

(** After an invalidation (or in a fresh process) the store is read. *)
Lemma get_cached_venue_invalidated (s : store) (now : Z) :
  get_cached_venue s empty_cache now =
    {| venue := Db.first (venues s);
       cache := {| _venue_cache := Some (Db.first (venues s));
                   _venue_cache_time := Some now |};
       reads := 1 |}.
Proof. reflexivity. Qed.

(** C3.  The freshness test reads the [seconds] field of the elapsed time,
    which starts again at zero every 86400 seconds: [n] whole days and less
    than 300 seconds after the last fetch the cached snapshot is returned
    without a read of the store, however old it is. *)
Theorem get_cached_venue_stale_after_whole_days
  (s : store) (v : option VenueInfo.t) (t n d : Z) :
  0 <= d < 300000000 ->
  let c := {| _venue_cache := Some v; _venue_cache_time := Some t |} in
  get_cached_venue s c (t + n * day_us + d) =
    {| venue := v; cache := c; reads := 0 |}.
Proof.
  intros H c. unfold get_cached_venue. cbn [_venue_cache_time c].
  rewrite seconds_whole_days by (unfold day_us; lia).
  assert (E : (d / 1000000 <? 300) = true).
  { apply Z.ltb_lt. apply Z.div_lt_upper_bound; lia. }
  rewrite E. reflexivity.
Qed.

(** One day after the fetch, with another venue in the store, the old
    snapshot is served and the store is not read. *)
Lemma get_cached_venue_stale_after_whole_days_witness :
  0 <= 0 < 300000000 /\
  get_cached_venue
    {| guests := []; groups := []; venues := [moved_venue] |}
    {| _venue_cache := Some (Some old_venue); _venue_cache_time := Some 0 |}
    (0 + 1 * day_us + 0) =
  {| venue := Some old_venue;
     cache := {| _venue_cache := Some (Some old_venue);
                 _venue_cache_time := Some 0 |};
     reads := 0 |}.
Proof.
  split; [lia |].
  apply (get_cached_venue_stale_after_whole_days
           {| guests := []; groups := []; venues := [moved_venue] |}
           (Some old_venue) 0 1 0).
  lia.
Defined.

(* ================================================================= *)
(** ** Group lookup *)

(** A grouped guest: every guest of the group. *)
Lemma get_guest_group_grouped (s : store) (guest_id gid : Z) (guest : Guest.t) :
  Db.first (Db.guests_by_id s guest_id) = Some guest ->
  Guest.group_id guest = Some gid -> gid <> 0 ->
  get_guest_group s guest_id =
    Jsonify (JDict [("selected_guest_name"%string, JStr (Guest.name guest));
                    ("guests"%string,
                     JList (map group_member (Db.guests_by_group s gid)))])
            200.
Proof.
  intros Hg Hgid Hnz. unfold get_guest_group, get_guest_group_body.
  unfold Db.first_or_404. rewrite Hg. cbn [Py.bind]. rewrite Hgid.
  unfold truthy_id. destruct (Z.eqb_spec gid 0) as [E | _]; [contradiction |].
  reflexivity.
Qed.

(** A guest without a group: that guest alone. *)
Lemma get_guest_group_ungrouped (s : store) (guest_id : Z) (guest : Guest.t) :
  Db.first (Db.guests_by_id s guest_id) = Some guest ->
  Guest.group_id guest = None ->
  get_guest_group s guest_id =
    Jsonify (JDict [("selected_guest_name"%string, JStr (Guest.name guest));
                    ("guests"%string, JList [group_member guest])])
            200.
Proof.
  intros Hg Hgid. unfold get_guest_group, get_guest_group_body.
  unfold Db.first_or_404. rewrite Hg. cbn [Py.bind]. rewrite Hgid.
  reflexivity.
Qed.

(** C2.  For a guest id that is not in the store, [first_or_404] raises
    inside the [try] block, the handler of [Exception] catches it, and the
    response is the internal error with status 500, not a 404. *)
Theorem get_guest_group_unknown_id_is_500 (s : store) (guest_id : Z) :
  Db.guests_by_id s guest_id = [] ->
  get_guest_group s guest_id = internal_error.
Proof.
  intros H. unfold get_guest_group, get_guest_group_body, Db.first_or_404.
  rewrite H. reflexivity.
Qed.

Lemma get_guest_group_unknown_id_is_500_witness :
  Db.guests_by_id sample_store 7 = [] /\
  get_guest_group sample_store 7 =
    Jsonify (JDict [("error"%string, JStr "Erro interno")]) 500.
Proof.
  split; [reflexivity |].
  apply (get_guest_group_unknown_id_is_500 sample_store 7). reflexivity.
Defined.

(* ================================================================= *)
(** ** Deleting a group *)

Lemma groups_by_id_first (s : store) (group_id : Z) (group : GuestGroup.t) :
  Db.first (Db.groups_by_id s group_id) = Some group ->
  GuestGroup.id group = group_id.
Proof.
  unfold Db.first, Db.groups_by_id. intros H.
  assert (Hin : In group (filter (fun g => GuestGroup.id g =? group_id) (groups s))).
  { destruct (filter _ (groups s)); [discriminate |].
    injection H as ->. now left. }
  apply filter_In in Hin. destruct Hin as [_ E]. now apply Z.eqb_eq.
Qed.

Lemma count_pos_iff {A} (rows : list A) :
  (Db.count rows >? 0) = true <-> rows <> [].
Proof.
  unfold Db.count. destruct rows; cbn [List.length]; split; intros H.
  - discriminate.
  - contradiction.
  - discriminate.
  - apply Z.gtb_lt. lia.
Qed.

Lemma delete_group_row_gone (rows : list GuestGroup.t) (group_id : Z) :
  forall g, In g (Db.delete_group_row rows group_id) ->
            GuestGroup.id g <> group_id.
Proof.
  intros g H. apply filter_In in H. destruct H as [_ H].
  apply negb_true_iff in H. now apply Z.eqb_neq.
Qed.

(** C7.  Deleting a group that at least one guest refers to is refused with
    the conflict message and changes nothing in the store, whether or not
    the store is available; deleting a group that no guest refers to
    removes its row and no other. *)
Theorem delete_group_refused_while_referenced
  (s : store) (group_id : Z) (group : GuestGroup.t) :
  Db.first (Db.groups_by_id s group_id) = Some group ->
  (Db.guests_by_group s group_id <> [] ->
   forall db_ok,
     delete_group s group_id db_ok =
       {| db := s;
          flashes := [group_in_use (GuestGroup.name group)
                        (Db.count (Db.guests_by_group s group_id))];
          resp := Redirect "admin_groups" |})
  /\
  (Db.guests_by_group s group_id = [] ->
   delete_group s group_id true =
     {| db := with_groups s (Db.delete_group_row (groups s) group_id);
        flashes := [group_removed (GuestGroup.name group)];
        resp := Redirect "admin_groups" |}
   /\ guests (db (delete_group s group_id true)) = guests s
   /\ forall g, In g (groups (db (delete_group s group_id true))) ->
                GuestGroup.id g <> group_id).
Proof.
  intros Hg. pose proof (groups_by_id_first _ _ _ Hg) as Hid.
  split.
  - intros Href db_ok. unfold delete_group, delete_group_body, Db.first_or_404.
    rewrite Hg. cbn [Py.bind].
    apply count_pos_iff in Href. rewrite Href. reflexivity.
  - intros Hfree.
    assert (E : delete_group s group_id true =
      {| db := with_groups s (Db.delete_group_row (groups s) group_id);
         flashes := [group_removed (GuestGroup.name group)];
         resp := Redirect "admin_groups" |}).
    { unfold delete_group, delete_group_body, Db.first_or_404.
      rewrite Hg. cbn [Py.bind]. rewrite Hfree. cbn [Db.count List.length].
      cbn [Z.of_nat Z.gtb Z.compare]. rewrite Hid. reflexivity. }
    rewrite E. cbn [db with_groups guests groups].
    split; [reflexivity | split; [reflexivity |]].
    apply delete_group_row_gone.
Qed.

Lemma delete_group_refused_while_referenced_witness :
  Db.first (Db.groups_by_id sample_store 1) = Some familia /\
  Db.guests_by_group sample_store 1 <> [] /\
  db (delete_group sample_store 1 true) = sample_store /\
  flashes (delete_group sample_store 1 true) =
    [("Não é possível deletar o grupo 'Familia Silva' pois há 2 convidado(s) associado(s)!"%string,
      danger)].
Proof.
  assert (Hg : Db.first (Db.groups_by_id sample_store 1) = Some familia)
    by reflexivity.
  assert (Href : Db.guests_by_group sample_store 1 <> []) by discriminate.
  split; [exact Hg | split; [exact Href |]].
  pose proof (proj1 (delete_group_refused_while_referenced sample_store 1
                       familia Hg) Href true) as E.
  rewrite E. split; reflexivity.
Defined.

(* ================================================================= *)
(** ** Confirming attendance *)


(** The loop of [confirm_rsvp] collects, in order, the selected ids whose
    status is accepted, and counts them. *)
Lemma for_each_rsvp_step (f : form) (guest_ids : list string) :
  forall (updates : list (Z * string)) (confirmed_count : Z),
    for_each (rsvp_step f) guest_ids (updates, confirmed_count) =
      (ns <- Py.int_all (valid_ids f guest_ids) ;;
       Ok ((updates ++
            combine ns (map (status_of f) (valid_ids f guest_ids)))%list,
           confirmed_count
           + Z.of_nat (List.length (valid_ids f guest_ids)))).
Proof.
  induction guest_ids as [| g rest IH]; intros updates n.
  - cbn. now rewrite app_nil_r, Z.add_0_r.
  - cbn [for_each valid_ids filter]. unfold rsvp_step at 1.
    fold (valid_ids f rest).
    destruct (accepted_status (get f (String.append "rsvp_" g))) eqn:Hacc.
    + cbn [Py.int_all]. destruct (Py.int g) as [i |]; cbn [Py.bind]; [| reflexivity].
      rewrite IH. destruct (Py.int_all (valid_ids f rest)) as [ns |];
        cbn [Py.bind]; [| reflexivity].
      cbn [map combine List.length]. unfold status_of at 2.
      rewrite <- app_assoc. cbn [app].
      f_equal. f_equal. lia.
    + cbn [Py.bind]. apply IH.
Qed.

(** A row whose key no update names is left as it was. *)
Lemma apply_mappings_other_rows (updates : list (Z * string)) :
  forall (rows : list Guest.t) (g : Guest.t),
    In g rows -> ~ In (Guest.id g) (map fst updates) ->
    In g (Db.apply_mappings rows updates).
Proof.
  unfold Db.apply_mappings.
  induction updates as [| u us IH]; intros rows g Hin Hno; cbn.
  - exact Hin.
  - apply IH.
    + unfold Db.update_mapping. apply in_map_iff. exists g. split; [| exact Hin].
      destruct (Z.eqb_spec (Guest.id g) (fst u)) as [E | _]; [| reflexivity].
      exfalso. apply Hno. cbn. now left.
    + intros H. apply Hno. cbn. now right.
Qed.

(** A submission that selects no guest is refused before anything is
    looked at. *)
Lemma confirm_rsvp_none_selected (s : store) (f : form) (db_ok : bool) :
  getlist f "guest_ids" = [] ->
  confirm_rsvp s f db_ok =
    {| db := s; flashes := [none_selected]; resp := Redirect "rsvp" |}.
Proof. intros H. unfold confirm_rsvp. rewrite H. reflexivity. Qed.

(** A selected id with an accepted status that is not an integer makes the
    whole submission fail; nothing is written.  The ids are ASCII text,
    for which [Py.int] refuses what [int] refuses. *)
Lemma confirm_rsvp_bad_id (s : store) (f : form) (db_ok : bool) (e : Py.exn) :
  getlist f "guest_ids" <> [] ->
  forallb is_ascii (valid_ids f (getlist f "guest_ids")) = true ->
  Py.int_all (valid_ids f (getlist f "guest_ids")) = Raise e ->
  confirm_rsvp s f db_ok =
    {| db := s; flashes := [rsvp_failed]; resp := Redirect "rsvp" |}.
Proof.
  intros Hne _ He. unfold confirm_rsvp, confirm_rsvp_body.
  rewrite for_each_rsvp_step, He. cbn [Py.bind].
  destruct (getlist f "guest_ids"); [contradiction | reflexivity].
Qed.




(** A pair with an accepted status for an id that no guest has fails the
    whole submission, the pair for guest 1 included. *)
Lemma confirm_rsvp_unknown_guest :
  confirm_rsvp sample_store
    [("guest_ids", "1"); ("guest_ids", "9");
     ("rsvp_1", "confirmado"); ("rsvp_9", "confirmado")]%string true =
  {| db := sample_store; flashes := [rsvp_failed]; resp := Redirect "rsvp" |}.
Proof. reflexivity. Qed.


(* ================================================================= *)
(** ** Editing a guest *)

Lemma is_digit_not_space (c : ascii) :
  Py.is_digit c = true -> Py.is_c_space c = false.
Proof.
  unfold Py.is_digit, Py.is_c_space. intros H.
  apply andb_true_iff in H. destruct H as [H1 H2].
  apply Nat.leb_le in H1.
  apply orb_false_iff. split.
  - apply andb_false_iff. right. apply Nat.leb_gt. lia.
  - apply Nat.eqb_neq. lia.
Qed.

Lemma all_digits_rskip (s : string) :
  Py.all_digits s = true -> Py.rskip s = s.
Proof.
  induction s as [| c s IH]; cbn; [reflexivity |].
  intros H. apply andb_true_iff in H. destruct H as [Hc Hs].
  rewrite (IH Hs). destruct s; [| reflexivity].
  now rewrite (is_digit_not_space c Hc).
Qed.

Lemma all_digits_int_digits (s : string) :
  forall acc after_digit,
    Py.all_digits s = true ->
    (s <> EmptyString \/ after_digit = true) ->
    exists n, Py.int_digits acc after_digit s = Some n.
Proof.
  induction s as [| c s IH]; intros acc b Hd Hne; cbn.
  - destruct Hne as [Hne | ->]; [contradiction |]. now exists acc.
  - cbn in Hd. apply andb_true_iff in Hd. destruct Hd as [Hc Hs].
    rewrite Hc. apply IH; [exact Hs | now right].
Qed.

(** [int] accepts every string for which [isdigit] holds. *)
Lemma int_isdigit (s : string) :
  Py.isdigit s = true -> exists n, Py.int s = Ok n.
Proof.
  unfold Py.isdigit, Py.int. intros H.
  apply andb_true_iff in H. destruct H as [Hne Hd].
  destruct s as [| c s]; [discriminate |].
  assert (Hc : Py.is_digit c = true).
  { cbn in Hd. now apply andb_true_iff in Hd. }
  assert (Hl : Py.lskip (String c s) = String c s).
  { cbn. now rewrite (is_digit_not_space c Hc). }
  rewrite Hl, (all_digits_rskip _ Hd).
  destruct (all_digits_int_digits (String c s) 0 false Hd) as [n Hn].
  { left. discriminate. }
  exists n.
  destruct c as [[] [] [] [] [] [] [] []]; try discriminate Hc;
    cbv beta iota; now rewrite Hn.
Qed.

Lemma parse_group_id_total (group_id : option string) :
  exists gid, parse_group_id group_id = Ok gid.
Proof.
  unfold parse_group_id. destruct group_id as [g |]; [| now exists None].
  destruct (Py.truthy g && Py.isdigit g) eqn:E; [| now exists None].
  apply andb_true_iff in E. destruct E as [_ E].
  destruct (int_isdigit g E) as [n ->]. now exists (Some n).
Qed.

Lemma save_guest_first (rows : list Guest.t) (guest_id : Z) (g g' : Guest.t) :
  Db.first (filter (fun r => Guest.id r =? guest_id) rows) = Some g ->
  Guest.id g' = guest_id ->
  Db.first (filter (fun r => Guest.id r =? guest_id) (Db.save_guest rows g'))
  = Some g'.
Proof.
  intros H Hid. subst guest_id. revert H.
  induction rows as [| r rows IH]; [discriminate |].
  cbn [Db.save_guest map filter]. fold (Db.save_guest rows g').
  destruct (Z.eqb_spec (Guest.id r) (Guest.id g')) as [E | N].
  - intros _. rewrite Z.eqb_refl. reflexivity.
  - intros H. destruct (Z.eqb_spec (Guest.id r) (Guest.id g'));
      [contradiction | exact (IH H)].
Qed.

Lemma guests_by_id_first (s : store) (guest_id : Z) (g : Guest.t) :
  Db.first (Db.guests_by_id s guest_id) = Some g -> Guest.id g = guest_id.
Proof.
  unfold Db.first, Db.guests_by_id. intros H.
  assert (Hin : In g (filter (fun r => Guest.id r =? guest_id) (guests s))).
  { destruct (filter _ (guests s)); [discriminate |].
    injection H as ->. now left. }
  apply filter_In in Hin. destruct Hin as [_ E]. now apply Z.eqb_eq.
Qed.

(** What [edit_guest] stores for an existing guest, a non-empty name and a
    plain group field. *)
Lemma edit_guest_stored (s : store) (guest_id : Z) (guest : Guest.t) (f : form) :
  Db.first (Db.guests_by_id s guest_id) = Some guest ->
  Py.truthy (Py.strip (get_default f "name" "")) = true ->
  plain_group_field (get f "group_id") = true ->
  exists guest',
    Db.first (Db.guests_by_id (db (edit_guest s guest_id f true)) guest_id)
    = Some guest'
    /\ Guest.rsvp_status guest' = get_default f "rsvp_status" "pendente".
Proof.
  intros Hg Hname _. pose proof (guests_by_id_first _ _ _ Hg) as Hid.
  destruct (parse_group_id_total (get f "group_id")) as [gid Hgid].
  unfold edit_guest, edit_guest_body, Db.first_or_404.
  rewrite Hg. cbn [Py.bind]. rewrite Hname. cbn [negb].
  rewrite Hgid. cbn [Py.bind Db.commit db].
  eexists. split.
  - unfold Db.guests_by_id. cbn [guests with_guests].
    apply (save_guest_first _ _ guest); [exact Hg | exact Hid].
  - reflexivity.
Qed.

(** Every update of [apply_mappings] carries an accepted status when
    the statuses written are accepted. *)
Lemma apply_mappings_status (updates : list (Z * string)) :
  forall (rows : list Guest.t) (g' : Guest.t),
    Forall (fun u => accepted_status (Some (snd u)) = true) updates ->
    In g' (Db.apply_mappings rows updates) ->
    In g' rows \/ accepted_status (Some (Guest.rsvp_status g')) = true.
Proof.
  unfold Db.apply_mappings.
  induction updates as [| u us IH]; intros rows g' Hall Hin; cbn in Hin.
  - now left.
  - inversion Hall as [| ? ? Hu Hus]; subst.
    destruct (IH _ _ Hus Hin) as [Hrow | Hacc]; [| now right].
    unfold Db.update_mapping in Hrow. apply in_map_iff in Hrow.
    destruct Hrow as [g [Hg Hing]].
    destruct (Guest.id g =? fst u).
    + right. subst g'. exact Hu.
    + left. now subst g'.
Qed.

Lemma valid_ids_status (f : form) (guest_ids : list string) :
  Forall (fun st => accepted_status (Some st) = true)
         (map (status_of f) (valid_ids f guest_ids)).
Proof.
  apply Forall_forall. intros st Hin. apply in_map_iff in Hin.
  destruct Hin as [g [<- Hg]]. apply filter_In in Hg. destruct Hg as [_ Hg].
  unfold status_of. destruct (get f (String.append "rsvp_" g)); [exact Hg |].
  discriminate Hg.
Qed.

Lemma combine_snd_Forall {A B} (P : B -> Prop) (xs : list A) (ys : list B) :
  Forall P ys -> Forall (fun u => P (snd u)) (combine xs ys).
Proof.
  intros H. apply Forall_forall. intros [a b] Hin.
  apply in_combine_r in Hin. rewrite Forall_forall in H. now apply H.
Qed.

(** The public path writes no status but the two accepted ones. *)
Lemma confirm_rsvp_writes_accepted (s : store) (f : form) (db_ok : bool)
  (g' : Guest.t) :
  In g' (guests (db (confirm_rsvp s f db_ok))) ->
  In g' (guests s) \/ accepted_status (Some (Guest.rsvp_status g')) = true.
Proof.
  unfold confirm_rsvp.
  destruct (getlist f "guest_ids") as [| g0 rest] eqn:Hids; [now left |].
  unfold confirm_rsvp_body. rewrite for_each_rsvp_step.
  destruct (Py.int_all (valid_ids f (g0 :: rest))) as [ns |]; cbn [Py.bind];
    [| now left].
  cbn [app].
  destruct (combine ns (map (status_of f) (valid_ids f (g0 :: rest))))
    as [| u us] eqn:Hupd; [now left |].
  unfold Db.bulk_update_mappings.
  destruct (_ =? _); cbn [Py.bind]; [| now left].
  destruct db_ok; cbn [Db.commit Py.bind db]; [| now left].
  cbn [guests with_guests]. apply apply_mappings_status.
  rewrite <- Hupd.
  apply (combine_snd_Forall (fun st => accepted_status (Some st) = true)).
  apply valid_ids_status.
Qed.

(** C10.  For an existing guest, a name that is not blank and a group
    field in plain ASCII, [edit_guest] stores the submitted status as it
    is, or [pendente] when the field is absent; some submission leaves an
    existing guest with a status outside the three values; [confirm_rsvp]
    writes none but the two accepted values. *)
Theorem edit_guest_stores_any_status :
  (forall (s : store) (guest_id : Z) (guest : Guest.t) (f : form),
     Db.first (Db.guests_by_id s guest_id) = Some guest ->
     Py.truthy (Py.strip (get_default f "name" "")) = true ->
     plain_group_field (get f "group_id") = true ->
     exists guest',
       Db.first (Db.guests_by_id (db (edit_guest s guest_id f true)) guest_id)
       = Some guest'
       /\ Guest.rsvp_status guest' = get_default f "rsvp_status" "pendente")
  /\
  (exists (s : store) (guest_id : Z) (f : form) (guest guest' : Guest.t),
     Db.first (Db.guests_by_id s guest_id) = Some guest
     /\ Db.first (Db.guests_by_id (db (edit_guest s guest_id f true)) guest_id)
        = Some guest'
     /\ in_enum (Guest.rsvp_status guest') = false)
  /\
  (forall (s : store) (f : form) (db_ok : bool) (g' : Guest.t),
     In g' (guests (db (confirm_rsvp s f db_ok))) ->
     In g' (guests s) \/ accepted_status (Some (Guest.rsvp_status g')) = true).
Proof.
  split; [exact edit_guest_stored | split; [| exact confirm_rsvp_writes_accepted]].
  exists sample_store, 1, edit_form, ana.
  eexists. repeat split.
Qed.

Lemma edit_guest_stores_any_status_witness :
  Db.first (Db.guests_by_id sample_store 1) = Some ana /\
  Py.truthy (Py.strip (get_default edit_form "name" "")) = true /\
  plain_group_field (get edit_form "group_id") = true /\
  exists guest',
    Db.first (Db.guests_by_id (db (edit_guest sample_store 1 edit_form true)) 1)
    = Some guest'
    /\ Guest.rsvp_status guest' = "talvez"%string.
Proof.
  split; [reflexivity | split; [reflexivity | split; [reflexivity |]]].
  apply (proj1 edit_guest_stores_any_status sample_store 1 ana edit_form);
    reflexivity.
Defined.

(* ================================================================= *)
(** ** Phone numbers and the public responses *)

Section Erasure.

(** A view [e] of the rows under which the filter and the output are
    unchanged. *)
Context {A B : Type} (e : A -> A) (p : A -> bool) (out : A -> B).
Hypothesis p_e : forall a, p (e a) = p a.
Hypothesis out_e : forall a, out (e a) = out a.

Lemma filter_erased (l : list A) : filter p (map e l) = map e (filter p l).
Proof.
  induction l as [| a l IH]; cbn; [reflexivity |].
  rewrite p_e. destruct (p a); cbn; now rewrite IH.
Qed.

Lemma query_erased (n : nat) (l : list A) :
  map out (firstn n (filter p l)) = map out (firstn n (filter p (map e l))).
Proof.
  rewrite filter_erased, firstn_map, map_map.
  apply map_ext. intros a. now rewrite out_e.
Qed.

Lemma query_same (n : nat) (l1 l2 : list A) :
  map e l1 = map e l2 ->
  map out (firstn n (filter p l1)) = map out (firstn n (filter p l2)).
Proof.
  intros H. rewrite (query_erased n l1), (query_erased n l2). now rewrite H.
Qed.

Lemma filter_same (l1 l2 : list A) :
  map e l1 = map e l2 -> map e (filter p l1) = map e (filter p l2).
Proof. intros H. now rewrite <- !filter_erased, H. Qed.

End Erasure.

Lemma all_same {A B} (e : A -> A) (p : A -> bool) (out : A -> B)
  (p_e : forall a, p (e a) = p a) (out_e : forall a, out (e a) = out a)
  (l1 l2 : list A) :
  map e l1 = map e l2 -> map out (filter p l1) = map out (filter p l2).
Proof.
  intros H.
  assert (E : forall l, map out l = map out (map e l)).
  { intros l. rewrite map_map. apply map_ext. intros a. now rewrite out_e. }
  rewrite (E (filter p l1)), (E (filter p l2)).
  now rewrite (filter_same e p p_e l1 l2 H).
Qed.

Lemma search_result_groups (s1 s2 : store) (g : Guest.t) :
  groups s1 = groups s2 -> search_result s1 g = search_result s2 g.
Proof.
  intros H. unfold search_result, Db.group_of, Db.groups_by_id. now rewrite H.
Qed.

Lemma search_result_keys (s : store) (g : Guest.t) :
  exists id name status group_name,
    search_result s g =
      JDict [("id"%string, id); ("name"%string, name);
             ("rsvp_status"%string, status);
             ("group_name"%string, group_name)].
Proof. unfold search_result. now eexists _, _, _, _. Qed.

(** C9.  Two stores that differ only in the phone numbers of their guests
    get the same response from [search_guest] for every form, and the same
    response from [get_guest_group] for every guest id. *)
Theorem public_responses_hide_phone (s1 s2 : store) :
  same_but_phones s1 s2 ->
  (forall f : form, search_guest s1 f = search_guest s2 f)
  /\ (forall guest_id : Z, get_guest_group s1 guest_id = get_guest_group s2 guest_id).
Proof.
  intros [Hguests [Hgroups _]]. split.
  - intros f. unfold search_guest.
    destruct (negb (Py.truthy (Py.strip (get_default f "name" "")))
              || (Py.len (Py.strip (get_default f "name" "")) <? 3));
      [reflexivity |].
    unfold Db.limit.
    set (p := fun g : Guest.t =>
                Db.ilike (Guest.name g)
                  (String.append (Py.strip (get_default f "name" "")) "%")).
    rewrite (query_same without_phone p (search_result s1)
               (fun _ => eq_refl) (fun _ => eq_refl) 10 _ _ Hguests).
    rewrite (map_ext (search_result s1) (search_result s2)
               (fun g => search_result_groups s1 s2 g Hgroups)).
    reflexivity.
  - intros guest_id. unfold get_guest_group, get_guest_group_body.
    unfold Db.first_or_404, Db.first, Db.guests_by_id.
    pose proof (filter_same without_phone
                  (fun g : Guest.t => Guest.id g =? guest_id)
                  (fun _ => eq_refl) _ _ Hguests) as Hsel.
    destruct (filter _ (guests s1)) as [| g1 r1];
      destruct (filter _ (guests s2)) as [| g2 r2];
      try discriminate Hsel; [reflexivity |].
    assert (Hg : without_phone g1 = without_phone g2)
      by (cbn [map] in Hsel; congruence).
    assert (Hname : Guest.name g1 = Guest.name g2)
      by exact (f_equal Guest.name Hg).
    assert (Hgid : Guest.group_id g1 = Guest.group_id g2)
      by exact (f_equal Guest.group_id Hg).
    assert (Hmember : group_member g1 = group_member g2)
      by exact (f_equal group_member Hg).
    cbn [hd_error Py.bind]. rewrite Hname, Hgid.
    destruct (truthy_id (Guest.group_id g2)) as [gid |].
    + unfold Db.guests_by_group.
      rewrite (all_same without_phone
                 (fun g : Guest.t =>
                    match Guest.group_id g with
                    | Some i => i =? gid
                    | None => false
                    end)
                 group_member
                 (fun _ => eq_refl) (fun _ => eq_refl) _ _ Hguests).
      reflexivity.
    + cbn [map]. now rewrite Hmember.
Qed.

Lemma public_responses_hide_phone_witness :
  same_but_phones sample_store sample_store_other_phones /\
  search_guest sample_store [("name", "ana")]%string =
    search_guest sample_store_other_phones [("name", "ana")]%string /\
  get_guest_group sample_store 1 = get_guest_group sample_store_other_phones 1.
Proof.
  assert (H : same_but_phones sample_store sample_store_other_phones).
  { repeat split. }
  split; [exact H |].
  destruct (public_responses_hide_phone _ _ H) as [Hs Hg].
  split; [apply Hs | apply Hg].
Defined.

(* ================================================================= *)
(** ** Searching for a guest *)

Lemma len_nonneg (s : string) : 0 <= Py.len s.
Proof.
  induction s as [| c s IH]; cbn; [lia |].
  destruct (Py.is_continuation c); lia.
Qed.

Lemma len_append (a b : string) :
  Py.len (String.append a b) = Py.len a + Py.len b.
Proof.
  induction a as [| c a IH]; cbn [String.append Py.len]; [reflexivity |].
  rewrite IH. lia.
Qed.

(** A string is the sequence of its characters. *)
Lemma joined_chars (s : string) : Py.joined (Py.chars s) = s.
Proof.
  induction s as [| c s IH]; [reflexivity |].
  cbn [Py.chars]. destruct (Py.chars s) as [| x xs].
  - cbn in IH. subst s. reflexivity.
  - destruct (Py.continues x); cbn [Py.joined String.append] in *;
      now rewrite IH.
Qed.

Lemma len_lstrip_chars (xs : list string) :
  Py.len (Py.joined (Py.lstrip_chars xs)) <= Py.len (Py.joined xs).
Proof.
  induction xs as [| x xs IH]; cbn [Py.lstrip_chars]; [lia |].
  destruct (Py.is_space_char x); [| lia].
  cbn [Py.joined]. rewrite len_append. pose proof (len_nonneg x). lia.
Qed.

Lemma len_rstrip_chars (xs : list string) :
  Py.len (Py.joined (Py.rstrip_chars xs)) <= Py.len (Py.joined xs).
Proof.
  induction xs as [| x xs IH]; cbn [Py.rstrip_chars]; [lia |].
  pose proof (len_nonneg x) as Hx.
  pose proof (len_nonneg (Py.joined xs)) as Hxs.
  destruct (Py.rstrip_chars xs) as [| y r].
  - destruct (Py.is_space_char x); cbn [Py.joined] in *;
      rewrite ?len_append; cbn [Py.len] in *; lia.
  - cbn [Py.joined] in *. rewrite !len_append in *. lia.
Qed.

Lemma len_lstrip (s : string) : Py.len (Py.lstrip s) <= Py.len s.
Proof.
  unfold Py.lstrip. rewrite <- (joined_chars s) at 2. apply len_lstrip_chars.
Qed.

Lemma len_rstrip (s : string) : Py.len (Py.rstrip s) <= Py.len s.
Proof.
  unfold Py.rstrip. rewrite <- (joined_chars s) at 2. apply len_rstrip_chars.
Qed.

Lemma len_strip (s : string) : Py.len (Py.strip s) <= Py.len s.
Proof.
  unfold Py.strip.
  pose proof (len_rstrip_chars (Py.lstrip_chars (Py.chars s))).
  pose proof (len_lstrip_chars (Py.chars s)).
  rewrite (joined_chars s) in *. lia.
Qed.

(** A name of fewer than three characters: no guest, and no query. *)
Lemma search_guest_short (s : store) (f : form) :
  Py.len (get_default f "name" "") < 3 ->
  search_guest s f = (no_guests, 0%nat).
Proof.
  intros H. unfold search_guest.
  pose proof (len_strip (get_default f "name" "")) as Hs.
  assert (E : (Py.len (Py.strip (get_default f "name" "")) <? 3) = true)
    by (apply Z.ltb_lt; lia).
  rewrite E, orb_true_r. reflexivity.
Qed.

(** Never more than ten guests. *)
Lemma search_guest_at_most_10 (s : store) (f : form) :
  (List.length (found (search_guest s f)) <= 10)%nat.
Proof.
  unfold search_guest.
  destruct (negb _ || _); cbn [found fst]; [cbn; lia |].
  rewrite length_map. unfold Db.limit. apply firstn_le_length.
Qed.







(** C8.  The name typed is used as a [LIKE] pattern: in the search for
    [a_a] the underscore stands for any character, and the guest
    [Ana Silva] is returned although her name does not start with
    [a_a]. *)
Theorem search_guest_wildcard_not_prefix :
  search_guest sample_store [("name", "a_a")]%string =
    (Jsonify (JDict [("guests"%string,
                      JList [search_result sample_store ana])]) 200,
     1%nat)
  /\ name_starts_with "a_a" ana = false
  /\ found (search_guest sample_store [("name", "%%%")]%string) =
       map (search_result sample_store) (guests sample_store).
Proof. repeat split. Qed.

(* ================================================================= *)
(** ** Updating the venue *)

Lemma set_venue_event_id (v : VenueInfo.t) (event_date event_time : string) :
  VenueInfo.id (fst (set_venue_event v event_date event_time)) = VenueInfo.id v
  /\ VenueInfo.name (fst (set_venue_event v event_date event_time))
     = VenueInfo.name v.
Proof.
  unfold set_venue_event.
  destruct (Py.truthy event_date && Py.truthy event_time).
  - destruct (Strptime.strptime_datetime _); split; reflexivity.
  - destruct (Py.truthy event_date); [| split; reflexivity].
    destruct (Strptime.strptime_date _); split; reflexivity.
Qed.

(** A successful call of [update_venue], written out. *)
Lemma update_venue_committed (s : store) (c : venue_cache) (f : form) (now : Z) :
  Py.truthy (field f "name") = true ->
  let ve :=
    set_venue_event
      (set_venue_text (prior_venue s now) (field f "name") (field f "address")
         (field f "map_link") (field f "description"))
      (field f "event_date") (field f "event_time") in
  let venue := set_venue_updated_at (fst ve) now in
  update_venue s c f now true =
    {| out :=
         {| db := match Db.first (venues s) with
                  | Some _ => with_venues s (Db.save_venue (venues s) venue)
                  | None => with_venues s (venues s ++ [venue])%list
                  end;
            flashes := (snd ve ++ [venue_updated])%list;
            resp := Redirect "admin_venue" |};
       cache_after := empty_cache |}.
Proof.
  intros Hname ve venue. unfold update_venue. fold (field f "name").
  rewrite Hname. cbn [negb].
  fold (field f "address") (field f "map_link") (field f "description")
       (field f "event_date") (field f "event_time").
  fold (prior_venue s now). subst venue. subst ve.
  destruct (set_venue_event _ _ _) as [v w]. reflexivity.
Qed.

(* ----------------------------------------------------------------- *)
(** *** Text that [strptime] reads back *)

Lemma append_assoc (a b c : string) :
  String.append (String.append a b) c = String.append a (String.append b c).
Proof. induction a as [| x a IH]; cbn; [reflexivity | now rewrite IH]. Qed.

Lemma append_empty (a : string) : String.append a "" = a.
Proof. induction a as [| x a IH]; cbn; [reflexivity | now rewrite IH]. Qed.

(** The first match of [p] followed by [k] is the first match of [k] after
    the first match of [p]. *)
Lemma bind_hd {A B} (p : Strptime.parser A) (k : A -> Strptime.parser B)
  (s r r' : string) (a : A) (b : B) :
  hd_error (p s) = Some (a, r) ->
  hd_error (k a r) = Some (b, r') ->
  hd_error (Strptime.bind p k s) = Some (b, r').
Proof.
  unfold Strptime.bind. intros Hp Hk.
  destruct (p s) as [| [a0 r0] more]; [discriminate |].
  cbn in Hp. injection Hp as -> ->. cbn [flat_map fst snd].
  destruct (k a r) as [| x more']; [discriminate |].
  cbn in Hk. injection Hk as ->. reflexivity.
Qed.

Lemma first_match_hd {A} (p : Strptime.parser A) (s : string) (a : A) :
  hd_error (p s) = Some (a, EmptyString) -> Strptime.first_match p s = Some a.
Proof.
  unfold Strptime.first_match. intros H.
  destruct (p s) as [| [a0 r0] more]; [discriminate |].
  cbn in H. injection H as -> ->. reflexivity.
Qed.

Lemma lit_hd (c : ascii) (rest : string) :
  hd_error (Strptime.lit c (String c rest)) = Some (tt, rest).
Proof. unfold Strptime.lit. now rewrite Ascii.eqb_refl. Qed.

(** Case analysis on an integer between two bounds. *)
Ltac as_nat n lo hi :=
  let H := fresh in
  assert (H : exists k : nat, n = Z.of_nat k /\ (lo <= k <= hi)%nat)
    by (exists (Z.to_nat n); lia);
  destruct H as [k [-> Hbound]].

Lemma digit_digit_char (n : Z) (rest : string) :
  0 <= n <= 9 ->
  hd_error (Strptime.digit 48 57 (String (digit_char n) rest)) = Some (n, rest).
Proof.
  intros H. as_nat n 0%nat 9%nat.
  do 10 (destruct k as [| k]; [first [reflexivity | lia] |]). lia.
Qed.

Lemma dir_Y_text (y : Z) (rest : string) :
  0 <= y <= 9999 ->
  hd_error (Strptime.dir_Y (String.append (four_digits y) rest)) = Some (y, rest).
Proof.
  intros H. unfold Strptime.dir_Y, four_digits, two_digits.
  cbn [String.append].
  do 4 (eapply bind_hd;
        [apply digit_digit_char; Z.to_euclidean_division_equations; lia |]).
  unfold Strptime.ret. cbn [hd_error]. do 2 f_equal.
  Z.to_euclidean_division_equations; lia.
Qed.

Lemma dir_m_text (m : Z) (rest : string) :
  1 <= m <= 12 ->
  hd_error (Strptime.dir_m (String.append (two_digits m) rest)) = Some (m, rest).
Proof.
  intros H. as_nat m 1%nat 12%nat.
  do 13 (destruct k as [| k]; [first [reflexivity | lia] |]). lia.
Qed.

Lemma dir_d_text (d : Z) (rest : string) :
  1 <= d <= 31 ->
  hd_error (Strptime.dir_d (String.append (two_digits d) rest)) = Some (d, rest).
Proof.
  intros H. as_nat d 1%nat 31%nat.
  do 32 (destruct k as [| k]; [first [reflexivity | lia] |]). lia.
Qed.

Lemma dir_H_text (h : Z) (rest : string) :
  0 <= h <= 23 ->
  hd_error (Strptime.dir_H (String.append (two_digits h) rest)) = Some (h, rest).
Proof.
  intros H. as_nat h 0%nat 23%nat.
  do 24 (destruct k as [| k]; [first [reflexivity | lia] |]). lia.
Qed.

Lemma dir_M_text (m : Z) (rest : string) :
  0 <= m <= 59 ->
  hd_error (Strptime.dir_M (String.append (two_digits m) rest)) = Some (m, rest).
Proof.
  intros H. as_nat m 0%nat 59%nat.
  do 60 (destruct k as [| k]; [first [reflexivity | lia] |]). lia.
Qed.

(** The single space between the date and the time. *)
Lemma spaces_before_time (h : Z) (rest : string) :
  0 <= h <= 23 ->
  hd_error (Strptime.spaces
              (String " " (String.append (two_digits h) rest)))
  = Some (tt, String.append (two_digits h) rest).
Proof.
  intros H. as_nat h 0%nat 23%nat.
  do 24 (destruct k as [| k]; [first [reflexivity | lia] |]). lia.
Qed.

Lemma valid_date_bounds (d : date) :
  Strptime.valid_date d = true ->
  1 <= year d <= 9999 /\ 1 <= month d <= 12 /\ 1 <= day d <= 31.
Proof.
  unfold Strptime.valid_date, Strptime.days_in_month. intros H.
  repeat (apply andb_true_iff in H; destruct H as [H ?]).
  repeat match goal with
         | H : (_ <=? _) = true |- _ => apply Z.leb_le in H
         end.
  destruct (month d =? 2); [destruct (Strptime.is_leap (year d)) |];
    [| | destruct (_ || _)]; lia.
Qed.

(** The date format reads a date written [YYYY-MM-DD] back. *)
Lemma fmt_date_text (d : date) (rest : string) :
  Strptime.valid_date d = true ->
  hd_error (Strptime.fmt_date (String.append (date_text d) rest))
  = Some (d, rest).
Proof.
  intros H. apply valid_date_bounds in H. destruct H as [Hy [Hm Hd]].
  unfold Strptime.fmt_date, date_text. rewrite !append_assoc.
  eapply bind_hd; [apply dir_Y_text; lia |].
  cbn [String.append].
  eapply bind_hd; [apply lit_hd |].
  eapply bind_hd; [apply dir_m_text; lia |].
  eapply bind_hd; [apply lit_hd |].
  eapply bind_hd; [apply dir_d_text; lia |].
  destruct d. reflexivity.
Qed.

Lemma strptime_date_text (d : date) :
  Strptime.valid_date d = true ->
  Strptime.strptime_date (date_text d) = Some d.
Proof.
  intros H. unfold Strptime.strptime_date.
  rewrite (first_match_hd Strptime.fmt_date (date_text d) d).
  - now rewrite H.
  - rewrite <- (append_empty (date_text d)) at 1. now apply fmt_date_text.
Qed.

Lemma on_the_minute_bounds (t : time) :
  on_the_minute t = true ->
  0 <= hour t <= 23 /\ 0 <= minute t <= 59 /\ second t = 0.
Proof.
  unfold on_the_minute. intros H.
  repeat (apply andb_true_iff in H; destruct H as [H ?]).
  repeat match goal with
         | H : (_ <=? _) = true |- _ => apply Z.leb_le in H
         | H : (_ =? _) = true |- _ => apply Z.eqb_eq in H
         end.
  lia.
Qed.

(** The combined format reads a date and a time of day written
    [YYYY-MM-DD HH:MM] back. *)
Lemma strptime_datetime_text (d : date) (t : time) :
  Strptime.valid_date d = true ->
  on_the_minute t = true ->
  Strptime.strptime_datetime
    (String.append (date_text d) (String.append " " (time_text t)))
  = Some {| dt_date := d; dt_time := t |}.
Proof.
  intros Hd Ht. destruct (on_the_minute_bounds t Ht) as [Hh [Hm Hs]].
  unfold Strptime.strptime_datetime.
  rewrite (first_match_hd Strptime.fmt_datetime _
             {| dt_date := d; dt_time := t |}).
  - cbn [dt_date]. now rewrite Hd.
  - unfold Strptime.fmt_datetime.
    eapply bind_hd; [now apply fmt_date_text |].
    unfold time_text. cbn [String.append].
    eapply bind_hd; [apply spaces_before_time; lia |].
    eapply bind_hd; [apply dir_H_text; lia |].
    cbn [String.append].
    eapply bind_hd; [apply lit_hd |].
    rewrite <- (append_empty (two_digits (minute t))).
    eapply bind_hd; [apply dir_M_text; lia |].
    destruct t as [h mi sec]. cbn in Hs. subst sec. reflexivity.
Qed.

(** Text in ASCII that does not start with a digit is refused by both
    formats. *)
Lemma fmt_date_not_digit (c : ascii) (rest : string) :
  Py.is_digit c = false -> Strptime.fmt_date (String c rest) = [].
Proof.
  intros H.
  assert (E : Strptime.digit 48 57 (String c rest) = []).
  { unfold Strptime.digit.
    replace (Strptime.between 48 57 c) with (Py.is_digit c) by reflexivity.
    now rewrite H. }
  unfold Strptime.fmt_date, Strptime.dir_Y, Strptime.bind.
  now rewrite E.
Qed.

Lemma strptime_not_digit (c : ascii) (rest more : string) :
  Py.is_digit c = false ->
  Strptime.strptime_date (String c rest) = None
  /\ Strptime.strptime_datetime (String.append (String c rest) more) = None.
Proof.
  intros H. unfold Strptime.strptime_date, Strptime.strptime_datetime.
  unfold Strptime.first_match, Strptime.fmt_datetime.
  cbn [String.append]. unfold Strptime.bind at 1.
  now rewrite !(fmt_date_not_digit c _ H).
Qed.

(** C6.  With a name given and the store available, [update_venue] leaves
    a row [v] with the name submitted; the number of rows is unchanged
    unless the table was empty; a table of at most one row is left with
    [v] alone, which has the key of the row found, if any; the cache is
    emptied.  With a date and a time that parse together, the combined
    column is the parsed value and the date and time columns are its two
    parts; with a date alone that parses, the date column is the parsed
    date and the two others stay; when ASCII strings do not parse, a
    warning is flashed before the success message and the three columns
    stay as they were.  A date written [YYYY-MM-DD] and a time written
    [HH:MM] parse to themselves; text in ASCII that does not start with a
    digit does not parse. *)
Theorem update_venue_upsert (s : store) (c : venue_cache) (f : form) (now : Z) :
  let event_date := field f "event_date" in
  let event_time := field f "event_time" in
  let prior := prior_venue s now in
  let o := update_venue s c f now true in
  Py.truthy (field f "name") = true ->
  exists v : VenueInfo.t,
    In v (venues (db (out o)))
    /\ List.length (venues (db (out o))) = Nat.max 1 (List.length (venues s))
    /\ ((List.length (venues s) <= 1)%nat -> venues (db (out o)) = [v])
    /\ (forall r, Db.first (venues s) = Some r ->
                  VenueInfo.id v = VenueInfo.id r)
    /\ VenueInfo.name v = field f "name"
    /\ cache_after o = empty_cache
    /\ (Py.truthy event_date = true -> Py.truthy event_time = true ->
        match Strptime.strptime_datetime
                (String.append event_date (String.append " " event_time)) with
        | Some dt =>
            VenueInfo.event_datetime v = Some dt
            /\ VenueInfo.date v = Some (dt_date dt)
            /\ VenueInfo.time v = Some (dt_time dt)
            /\ flashes (out o) = [venue_updated]
        | None =>
            is_ascii event_date = true -> is_ascii event_time = true ->
            same_event v prior
            /\ flashes (out o) = [bad_date_time; venue_updated]
        end)
    /\ (Py.truthy event_date = true -> Py.truthy event_time = false ->
        match Strptime.strptime_date event_date with
        | Some d =>
            VenueInfo.date v = Some d
            /\ VenueInfo.time v = VenueInfo.time prior
            /\ VenueInfo.event_datetime v = VenueInfo.event_datetime prior
            /\ flashes (out o) = [venue_updated]
        | None =>
            is_ascii event_date = true ->
            same_event v prior
            /\ flashes (out o) = [bad_date; venue_updated]
        end)
    /\ (forall (d : date) (t : time),
          Strptime.valid_date d = true -> on_the_minute t = true ->
          event_date = date_text d -> event_time = time_text t ->
          VenueInfo.event_datetime v = Some {| dt_date := d; dt_time := t |}
          /\ VenueInfo.date v = Some d
          /\ VenueInfo.time v = Some t
          /\ flashes (out o) = [venue_updated])
    /\ (forall d : date,
          Strptime.valid_date d = true ->
          event_date = date_text d -> event_time = EmptyString ->
          VenueInfo.date v = Some d
          /\ VenueInfo.time v = VenueInfo.time prior
          /\ VenueInfo.event_datetime v = VenueInfo.event_datetime prior
          /\ flashes (out o) = [venue_updated])
    /\ (forall (ch : ascii) (rest : string),
          event_date = String ch rest -> is_ascii event_date = true ->
          Py.is_digit ch = false ->
          same_event v prior
          /\ flashes (out o) =
               [if Py.truthy event_time then bad_date_time else bad_date;
                venue_updated]).
Proof.
  intros event_date event_time prior o Hname. subst o.
  rewrite (update_venue_committed s c f now Hname).
  fold prior event_date event_time.
  set (v0 := set_venue_text prior (field f "name") (field f "address")
               (field f "map_link") (field f "description")).
  destruct (set_venue_event_id v0 event_date event_time) as [Hid Hnm].
  exists (set_venue_updated_at (fst (set_venue_event v0 event_date event_time)) now).
  cbn [out db flashes cache_after].
  assert (Hkey : VenueInfo.id
                   (set_venue_updated_at
                      (fst (set_venue_event v0 event_date event_time)) now)
                 = VenueInfo.id prior).
  { cbn [VenueInfo.id set_venue_updated_at]. now rewrite Hid. }
  split; [| split; [| split; [| split; [| split; [| split]]]]].
  - unfold prior, prior_venue in Hkey. unfold Db.first in *.
    destruct (venues s) as [| r rest]; cbn [hd_error] in *.
    + cbn [venues with_venues]. apply in_or_app. right. now left.
    + cbn [venues with_venues Db.save_venue map]. left.
      rewrite Hkey. now rewrite Z.eqb_refl.
  - unfold Db.first. destruct (venues s) as [| r rest]; cbn [hd_error].
    + reflexivity.
    + cbn [venues with_venues]. unfold Db.save_venue.
      rewrite length_map. reflexivity.
  - intros Hlen. unfold prior, prior_venue in Hkey. unfold Db.first in *.
    destruct (venues s) as [| r [| r' rest]]; cbn [hd_error] in *.
    + reflexivity.
    + cbn [venues with_venues Db.save_venue map].
      rewrite Hkey. now rewrite Z.eqb_refl.
    + cbn [List.length] in Hlen. lia.
  - intros r Hr. rewrite Hkey. unfold prior, prior_venue. now rewrite Hr.
  - cbn [VenueInfo.name set_venue_updated_at]. rewrite Hnm. reflexivity.
  - reflexivity.
  - split; [| split; [| split; [| split]]].
    + intros Hd Ht. unfold set_venue_event. rewrite Hd, Ht. cbn [andb].
      destruct (Strptime.strptime_datetime _) as [dt |].
      * repeat split.
      * intros _ _. repeat split.
    + intros Hd Ht. unfold set_venue_event. rewrite Hd, Ht. cbn [andb].
      destruct (Strptime.strptime_date _) as [d |].
      * repeat split.
      * intros _. repeat split.
    + intros d t Hvd Hvt Ed Et. unfold set_venue_event. rewrite Ed, Et.
      assert (Hd : Py.truthy (date_text d) = true) by reflexivity.
      assert (Ht : Py.truthy (time_text t) = true) by reflexivity.
      rewrite Hd, Ht. cbn [andb].
      rewrite (strptime_datetime_text d t Hvd Hvt). repeat split.
    + intros d Hvd Ed Et. unfold set_venue_event. rewrite Ed, Et.
      assert (Hd : Py.truthy (date_text d) = true) by reflexivity.
      rewrite Hd. cbn [Py.truthy andb].
      rewrite (strptime_date_text d Hvd). repeat split.
    + intros ch rest Ed _ Hch. unfold set_venue_event. rewrite Ed.
      destruct (strptime_not_digit ch rest
                  (String.append " " event_time) Hch) as [H1 H2].
      cbn [Py.truthy andb]. destruct (Py.truthy event_time).
      * rewrite H2. repeat split.
      * rewrite H1. repeat split.
Qed.

(** The first call on an empty table creates one row with the combined
    date and time 2025-08-15 16:00:00. *)
Lemma update_venue_upsert_witness :
  Py.truthy (field venue_form "name") = true /\
  exists v : VenueInfo.t,
    venues (db (out (update_venue empty_store empty_cache venue_form 0 true)))
    = [v]
    /\ VenueInfo.event_datetime v =
         Some {| dt_date := {| year := 2025; month := 8; day := 15 |};
                 dt_time := {| hour := 16; minute := 0; second := 0 |} |}.
Proof.
  split; [reflexivity |].
  destruct (update_venue_upsert empty_store empty_cache venue_form 0 eq_refl)
    as [v [_ [_ [Hone [_ [_ [_ [_ [_ [Htext _]]]]]]]]]].
  exists v. split.
  - apply Hone. cbn. lia.
  - exact (proj1 (Htext {| year := 2025; month := 8; day := 15 |}
                        {| hour := 16; minute := 0; second := 0 |}
                        eq_refl eq_refl eq_refl eq_refl)).
Defined.

(** A second call with another name changes that row; there is still one
    row, and its date and time are kept. *)
Lemma update_venue_twice :
  let s1 := db (out (update_venue empty_store empty_cache venue_form 0 true)) in
  let s2 := db (out (update_venue s1 empty_cache venue_form_renamed 5 true)) in
  map VenueInfo.name (venues s1) = ["X"%string]
  /\ map VenueInfo.name (venues s2) = ["Y"%string]
  /\ map VenueInfo.id (venues s2) = map VenueInfo.id (venues s1)
  /\ map VenueInfo.event_datetime (venues s2)
     = map VenueInfo.event_datetime (venues s1).
Proof. repeat split. Qed.

(** When the write fails the store and the cache are as before. *)
Lemma update_venue_rolled_back (s : store) (c : venue_cache) (f : form) (now : Z) :
  db (out (update_venue s c f now false)) = s
  /\ cache_after (update_venue s c f now false) = c.
Proof.
  unfold update_venue.
  destruct (negb (Py.truthy (Py.strip (get_default f "name" ""))));
    [split; reflexivity |].
  destruct (set_venue_event _ _ _) as [v w]. split; reflexivity.
Qed.

(* ================================================================= *)
(** ** Predefined messages *)

Lemma wedding_message_keys :
  map fst Whatsapp.WEDDING_MESSAGES =
    ["confirmation_reminder"; "thank_you"; "venue_update"; "gift_registry"]%string.
Proof. reflexivity. Qed.

(** A key of the table: the template with its fields filled in, or the
    exception raised while filling them. *)
Lemma get_wedding_message_known (message_type template : string)
  (kwargs : list (string * string)) :
  Whatsapp.dict_get Whatsapp.WEDDING_MESSAGES message_type = Some template ->
  Whatsapp.get_wedding_message message_type kwargs =
    Whatsapp.format template kwargs.
Proof.
  intros H. unfold Whatsapp.get_wedding_message. rewrite H.
  assert (Hin : In template (map snd Whatsapp.WEDDING_MESSAGES)).
  { revert H. generalize Whatsapp.WEDDING_MESSAGES.
    induction l as [| [k v] l IH]; cbn; [discriminate |].
    destruct (String.eqb k message_type).
    - intros [= ->]. now left.
    - intros H. right. now apply IH. }
  cbn [map snd Whatsapp.WEDDING_MESSAGES] in Hin.
  destruct Hin as [<- | [<- | [<- | [<- | []]]]]; reflexivity.
Qed.

(** A key that is not in the table: the empty string, no exception. *)
Lemma get_wedding_message_unknown (message_type : string)
  (kwargs : list (string * string)) :
  Whatsapp.dict_get Whatsapp.WEDDING_MESSAGES message_type = None ->
  Whatsapp.get_wedding_message message_type kwargs = Ok EmptyString.
Proof.
  intros H. unfold Whatsapp.get_wedding_message. now rewrite H.
Qed.

Lemma get_wedding_message_thank_you :
  Whatsapp.get_wedding_message "thank_you" thank_you_kwargs
  = Ok thank_you_rendered.
Proof. vm_compute. reflexivity. Qed.

(** A field the caller did not supply raises [KeyError]. *)
Lemma get_wedding_message_missing_variable :
  Whatsapp.get_wedding_message "thank_you" [] = Raise (KeyError "date").
Proof. vm_compute. reflexivity. Qed.

(** C4.  The table of templates has no entry for [invite], the message
    type [send_whatsapp] falls back to: for that key the result is the
    empty string, whatever the variables. *)
Theorem get_wedding_message_invite_is_empty (kwargs : list (string * string)) :
  Whatsapp.get_wedding_message "invite" kwargs = Ok EmptyString.
Proof. apply get_wedding_message_unknown. reflexivity. Qed.

(* ================================================================= *)
(** ** Sending in bulk *)

Section Bulk.

Context {recipient : Type} (str_of : recipient -> string)
  (creds : Whatsapp.credentials) (twilio : Whatsapp.provider)
  (message : string).

Let entry := entry_of str_of creds twilio message.
Let ok (p : recipient) : bool := Whatsapp.success (entry p).

Lemma bulk_step_eq (acc : Whatsapp.bulk recipient) (p : recipient) :
  Whatsapp.bulk_step recipient str_of creds twilio message acc p =
    {| Whatsapp.total := Whatsapp.total acc;
       Whatsapp.successful :=
         Whatsapp.successful acc + (if ok p then 1 else 0);
       Whatsapp.failed := Whatsapp.failed acc + (if ok p then 0 else 1);
       Whatsapp.results := (Whatsapp.results acc ++ [entry p])%list |}.
Proof.
  unfold Whatsapp.bulk_step, ok, entry, entry_of. cbn [Whatsapp.success].
  destruct (Whatsapp.success_of recipient _); f_equal; lia.
Qed.

Lemma bulk_fold (phone_numbers : list recipient) :
  forall acc : Whatsapp.bulk recipient,
    fold_left (Whatsapp.bulk_step recipient str_of creds twilio message)
              phone_numbers acc =
      {| Whatsapp.total := Whatsapp.total acc;
         Whatsapp.successful :=
           Whatsapp.successful acc + count_if ok phone_numbers;
         Whatsapp.failed :=
           Whatsapp.failed acc + count_if (fun p => negb (ok p)) phone_numbers;
         Whatsapp.results :=
           (Whatsapp.results acc ++ map entry phone_numbers)%list |}.
Proof.
  induction phone_numbers as [| p l IH]; intros acc.
  - cbn. unfold count_if. cbn. rewrite !Z.add_0_r, app_nil_r.
    now destruct acc.
  - cbn [fold_left]. rewrite IH, bulk_step_eq.
    cbn [Whatsapp.total Whatsapp.successful Whatsapp.failed Whatsapp.results].
    unfold count_if. cbn [filter map]. rewrite <- app_assoc. cbn [app].
    destruct (ok p); cbn [negb List.length]; f_equal; lia.
Qed.

(** The dispatcher makes one single send for each element, in order;
    what is recorded for an element depends on that element alone; the
    three counts are the number of elements, of successes and of
    failures. *)
Lemma send_bulk_whatsapp_messages_tally (phone_numbers : list recipient) :
  let r := Whatsapp.send_bulk_whatsapp_messages recipient str_of creds twilio
             phone_numbers message in
  Whatsapp.results r = map entry phone_numbers
  /\ Whatsapp.total r = Z.of_nat (List.length phone_numbers)
  /\ Whatsapp.successful r = count_if ok phone_numbers
  /\ Whatsapp.failed r = count_if (fun p => negb (ok p)) phone_numbers
  /\ Whatsapp.successful r + Whatsapp.failed r = Whatsapp.total r.
Proof.
  unfold Whatsapp.send_bulk_whatsapp_messages. rewrite bulk_fold.
  cbn [Whatsapp.results Whatsapp.total Whatsapp.successful Whatsapp.failed app].
  repeat split.
  unfold count_if. clear.
  induction phone_numbers as [| p l IH]; [reflexivity |].
  cbn [filter List.length]. destruct (ok p); cbn [negb List.length]; lia.
Qed.

End Bulk.

(** Whatever is submitted, [send_whatsapp] flashes no message of the
    success category: the counts of the dispatcher never reach the admin. *)
Lemma send_whatsapp_no_success (s : store) (c : venue_cache)
  (creds : Whatsapp.credentials) (twilio : Whatsapp.provider)
  (f : form) (now : Z) :
  Forall (fun m : flashed => snd m <> success)
         (w_flashes (send_whatsapp s c creds twilio f now)).
Proof.
  assert (Hwarned : forall l : list Guest.t,
    Forall (fun m : flashed => snd m <> success)
      match l with
      | [] => []
      | _ :: _ =>
          [(String.append "Convidados sem telefone: "
              (Py.join ", " (map Guest.name l)), warning)]
      end).
  { intros [| g l]; repeat constructor; discriminate. }
  assert (Herr : forall before e c' a,
    Forall (fun m : flashed => snd m <> success) before ->
    Forall (fun m : flashed => snd m <> success)
           (w_flashes (general_error before e c' a))).
  { intros before e c' a Hb. cbn [general_error w_flashes].
    apply Forall_app. split; [exact Hb |]. repeat constructor. discriminate. }
  unfold send_whatsapp.
  destruct (getlist f "guest_ids") as [| g0 rest].
  { repeat constructor. discriminate. }
  destruct (Py.int_all (g0 :: rest)) as [guest_ids | e].
  2: { apply Herr. constructor. }
  destruct (filter (fun g => Py.truthy_opt (Guest.phone g))
              (Db.guests_in s guest_ids)) as [| g gs].
  { cbn [w_flashes]. apply Forall_app. split; [apply Hwarned |].
    repeat constructor. discriminate. }
  destruct (choose_message _ _ _ _ _) as [[message | e] c'].
  2: { apply Herr, Hwarned. }
  cbn [Whatsapp.bulk_keys Py.unpack3]. apply Herr, Hwarned.
Qed.

(** C1.  Three guests are selected, one without a phone, and the provider
    refuses one of the two others.  The guest without a phone is named in
    a warning and no send is made for him; the two others get one send
    each, one accepted and one refused; unpacking the dict of the
    dispatcher into three names then raises, and the admin is shown a
    general error in place of the counts and of the reasons.  With a
    predefined message the call of [get_wedding_message] raises before any
    send. *)
Theorem send_whatsapp_tally_is_lost :
  let o := send_whatsapp sample_store empty_cache sample_creds sample_twilio
             whatsapp_form 0 in
  let o' := send_whatsapp sample_store empty_cache sample_creds sample_twilio
              whatsapp_form_template 0 in
  w_flashes o =
    [("Convidados sem telefone: Joao Silva"%string, warning);
     ("Erro geral no envio: too many values to unpack (expected 3)"%string,
      danger)]
  /\ map Whatsapp.phone (w_attempts o) = [ana; rita]
  /\ map Whatsapp.success (w_attempts o) = [true; false]
  /\ w_flashes o' =
       [("Convidados sem telefone: Joao Silva"%string, warning);
        ("Erro geral no envio: get_wedding_message() takes 1 positional argument but 2 were given"%string,
         danger)]
  /\ w_attempts o' = [].
Proof. vm_compute. repeat split. Qed.

(* ================================================================= *)
(** * Further properties *)

(* ================================================================= *)
(** ** send_whatsapp.py *)

Lemma entry_without_credentials {recipient : Type}
  (str_of : recipient -> string) (creds : Whatsapp.credentials)
  (twilio : Whatsapp.provider) (message : string) (p : recipient) :
  configured creds = false ->
  entry_of str_of creds twilio message p =
    {| Whatsapp.phone := p; Whatsapp.success := false;
       Whatsapp.error := Some credentials_missing |}.
Proof.
  intros H. unfold entry_of, Whatsapp.send_whatsapp_message.
  unfold configured in H. rewrite H. reflexivity.
Qed.

(** X1.  When one of the three credentials is missing or empty, the bulk
    send fails every recipient with the configuration error, whatever the
    provider would have answered: no send succeeds and the count of
    failures is the number of recipients. *)
Theorem send_bulk_without_credentials {recipient : Type}
  (str_of : recipient -> string) (creds : Whatsapp.credentials)
  (twilio : Whatsapp.provider) (phone_numbers : list recipient)
  (message : string) :
  configured creds = false ->
  Whatsapp.send_bulk_whatsapp_messages recipient str_of creds twilio
    phone_numbers message =
  {| Whatsapp.total := Z.of_nat (List.length phone_numbers);
     Whatsapp.successful := 0;
     Whatsapp.failed := Z.of_nat (List.length phone_numbers);
     Whatsapp.results :=
       map (fun p => {| Whatsapp.phone := p; Whatsapp.success := false;
                        Whatsapp.error := Some credentials_missing |})
           phone_numbers |}.
Proof.
  intros H. unfold Whatsapp.send_bulk_whatsapp_messages. rewrite bulk_fold.
  cbn [Whatsapp.total Whatsapp.successful Whatsapp.failed Whatsapp.results app].
  assert (Hok : forall p,
    Whatsapp.success (entry_of str_of creds twilio message p) = false).
  { intros p. now rewrite entry_without_credentials. }
  f_equal.
  - unfold count_if. rewrite (filter_ext _ (fun _ => false)) by exact Hok.
    clear. induction phone_numbers; [reflexivity | exact IHphone_numbers].
  - unfold count_if.
    rewrite (filter_ext _ (fun _ => true)) by (intros p; now rewrite Hok).
    clear. cbn [Z.add]. f_equal. f_equal.
    induction phone_numbers as [| p l IH]; [reflexivity |].
    cbn [filter]. now rewrite IH.
  - apply map_ext. intros p. now apply entry_without_credentials.
Qed.

Lemma send_bulk_without_credentials_witness :
  configured no_credentials = false /\
  Whatsapp.failed
    (Whatsapp.send_bulk_whatsapp_messages string (fun p => p) no_credentials
       sample_twilio ["+5511666666666"; "+5511999000000"]%string "Oi!") = 2.
Proof.
  split; [reflexivity |].
  rewrite (send_bulk_without_credentials (fun p : string => p) no_credentials
             sample_twilio ["+5511666666666"; "+5511999000000"]%string "Oi!");
    reflexivity.
Defined.

Section Format.

Variable kwargs : list (string * string).

Lemma kwarg_supplied (k : string) :
  supplied kwargs k = true -> exists v, Whatsapp.kwarg kwargs k = Ok v.
Proof.
  unfold supplied, Whatsapp.kwarg.
  destruct (Whatsapp.dict_get kwargs k) as [v |]; [now exists v | discriminate].
Qed.

Lemma kwarg_missing (k : string) :
  supplied kwargs k = false -> Whatsapp.kwarg kwargs k = Raise (KeyError k).
Proof.
  unfold supplied, Whatsapp.kwarg.
  destruct (Whatsapp.dict_get kwargs k); [discriminate | reflexivity].
Qed.

(** Literal text in front changes nothing. *)
Lemma formats_as_literal (s s' : string) (wrap : string -> string) :
  Whatsapp.format_from kwargs None s =
    (r <- Whatsapp.format_from kwargs None s' ;; Ok (wrap r)) ->
  fields_from None s = fields_from None s' ->
  formats_as kwargs None s' -> formats_as kwargs None s.
Proof.
  intros Hf Hfs IH fs Hs. rewrite Hfs in Hs. destruct (IH fs Hs) as [Hok Hko].
  split.
  - intros Hall. destruct (Hok Hall) as [m Hm]. rewrite Hf, Hm.
    now eexists.
  - intros Hall. destruct (Hko Hall) as [k [Hin [Hk Hm]]].
    exists k. rewrite Hf, Hm. now repeat split.
Qed.

Lemma formats_as_all (n : nat) :
  forall (s : string) (field : option string),
    (String.length s <= n)%nat -> formats_as kwargs field s.
Proof.
  induction n as [| n IH]; intros s field Hlen.
  - destruct s; [| cbn in Hlen; lia].
    intros fs Hfs. destruct field; cbn in Hfs; [discriminate |].
    injection Hfs as <-. split; [now eexists | discriminate].
  - destruct s as [| c s']; [apply IH; cbn; lia |].
    cbn [String.length] in Hlen.
    assert (IH' : forall fld, formats_as kwargs fld s') by (intros; apply IH; lia).
    destruct field as [name |].
    + (* inside a field *)
      intros fs Hfs. cbn [fields_from Whatsapp.format_from] in *.
      destruct (Ascii.eqb c "}").
      * destruct (fields_from None s') as [fs' |] eqn:Hfs'; [| discriminate].
        injection Hfs as <-. destruct (IH' None fs' Hfs') as [Hok Hko].
        cbn [forallb]. split.
        -- intros Hall. apply andb_true_iff in Hall. destruct Hall as [Hn Hr].
           destruct (kwarg_supplied name Hn) as [v ->].
           destruct (Hok Hr) as [m ->]. now eexists.
        -- intros Hall. destruct (supplied kwargs name) eqn:Hn.
           ++ destruct (kwarg_supplied name Hn) as [v ->].
              destruct (Hko Hall) as [k [Hin [Hk ->]]].
              exists k. repeat split; [now right | exact Hk].
           ++ exists name. rewrite (kwarg_missing name Hn).
              repeat split; [now left | exact Hn].
      * exact (IH' _ fs Hfs).
    + (* outside *)
      destruct (Ascii.eqb c "{") eqn:Hopen.
      * apply Ascii.eqb_eq in Hopen. subst c.
        destruct s' as [| d s''].
        -- intros fs Hfs. discriminate Hfs.
        -- destruct (Ascii.eqb d "{") eqn:Hd.
           ++ apply Ascii.eqb_eq in Hd. subst d.
              apply (formats_as_literal _ s'' (String "{")); try reflexivity.
              apply IH. cbn in Hlen. lia.
           ++ intros fs Hfs.
              assert (E1 : fields_from None (String "{" (String d s''))
                           = fields_from (Some EmptyString) (String d s'')).
              { destruct d as [[] [] [] [] [] [] [] []];
                  try reflexivity; discriminate Hd. }
              assert (E2 : Whatsapp.format_from kwargs None
                             (String "{" (String d s''))
                           = Whatsapp.format_from kwargs (Some EmptyString)
                               (String d s'')).
              { destruct d as [[] [] [] [] [] [] [] []];
                  try reflexivity; discriminate Hd. }
              rewrite E1 in Hfs. rewrite E2. exact (IH' _ fs Hfs).
      * destruct (Ascii.eqb c "}") eqn:Hclose.
        -- apply Ascii.eqb_eq in Hclose. subst c.
           destruct s' as [| d s''].
           ++ intros fs Hfs. discriminate Hfs.
           ++ destruct (Ascii.eqb d "}") eqn:Hd.
              ** apply Ascii.eqb_eq in Hd. subst d.
                 apply (formats_as_literal _ s'' (String "}")); try reflexivity.
                 apply IH. cbn in Hlen. lia.
              ** intros fs Hfs. exfalso.
                 assert (E : fields_from None (String "}" (String d s''))
                             = None).
                 { destruct d as [[] [] [] [] [] [] [] []];
                     try reflexivity; discriminate Hd. }
                 rewrite E in Hfs. discriminate.
        -- apply (formats_as_literal _ s' (String c)).
           ++ cbn [Whatsapp.format_from]. now rewrite Hopen, Hclose.
           ++ cbn [fields_from]. now rewrite Hopen, Hclose.
           ++ apply IH'.
Qed.

End Format.

Lemma wedding_message_fields :
  map (fun kv => (fst kv, fields_of (snd kv))) Whatsapp.WEDDING_MESSAGES =
    [("confirmation_reminder", Some ["date"; "time"; "venue"; "rsvp_link"]);
     ("thank_you", Some ["date"; "time"; "venue"]);
     ("venue_update", Some ["date"; "time"; "venue"; "address"]);
     ("gift_registry", Some ["gift_link"; "date"; "time"])]%string.
Proof. vm_compute. reflexivity. Qed.

(** X2.  Every template of the table has well-paired braces.  A message
    type of the table is rendered without an exception exactly when every
    variable between the braces of its template is among the keyword
    arguments; otherwise [KeyError] is raised for a variable of the
    template that was not supplied. *)
Theorem get_wedding_message_needs_variables
  (message_type template : string) (kwargs : list (string * string)) :
  Whatsapp.dict_get Whatsapp.WEDDING_MESSAGES message_type = Some template ->
  exists fs,
    fields_of template = Some fs
    /\ (forallb (supplied kwargs) fs = true ->
        exists m, Whatsapp.get_wedding_message message_type kwargs = Ok m)
    /\ (forallb (supplied kwargs) fs = false ->
        exists k, In k fs /\ supplied kwargs k = false
                  /\ Whatsapp.get_wedding_message message_type kwargs
                     = Raise (KeyError k)).
Proof.
  intros H. rewrite (get_wedding_message_known _ _ kwargs H).
  assert (Hfs : exists fs, fields_of template = Some fs).
  { assert (Hin : In (message_type, fields_of template)
                     (map (fun kv => (fst kv, fields_of (snd kv)))
                          Whatsapp.WEDDING_MESSAGES)).
    { revert H. generalize Whatsapp.WEDDING_MESSAGES.
      induction l as [| [k v] l IH]; cbn; [discriminate |].
      destruct (String.eqb_spec k message_type) as [-> | _].
      - intros [= ->]. now left.
      - intros H. right. now apply IH. }
    rewrite wedding_message_fields in Hin.
    destruct Hin as [E | [E | [E | [E | []]]]]; injection E as _ <-;
      now eexists. }
  destruct Hfs as [fs Hfs]. exists fs. split; [exact Hfs |].
  exact (formats_as_all kwargs _ template None (Nat.le_refl _) fs Hfs).
Qed.

Lemma get_wedding_message_needs_variables_witness :
  Whatsapp.dict_get Whatsapp.WEDDING_MESSAGES "gift_registry" <> None /\
  exists k,
    In k ["gift_link"; "date"; "time"]%string
    /\ Whatsapp.get_wedding_message "gift_registry"
         [("date", "15/08/2025"); ("time", "16:00")]%string
       = Raise (KeyError k).
Proof.
  split; [discriminate |].
  destruct (Whatsapp.dict_get Whatsapp.WEDDING_MESSAGES "gift_registry")
    as [template |] eqn:Ht; [| discriminate Ht].
  destruct (get_wedding_message_needs_variables "gift_registry" template
              [("date", "15/08/2025"); ("time", "16:00")]%string Ht)
    as [fs [Hfs [_ Hko]]].
  assert (E : fs = ["gift_link"; "date"; "time"]%string).
  { vm_compute in Ht. injection Ht as <-. vm_compute in Hfs.
    now injection Hfs as <-. }
  subst fs. destruct (Hko eq_refl) as [k [Hin [_ Hk]]].
  exists k. split; [exact Hin | exact Hk].
Defined.

(* ================================================================= *)
(** ** The venue after an update *)

Lemma update_venue_first_row (s : store) (c : venue_cache) (f : form) (now : Z) :
  Py.truthy (field f "name") = true ->
  Db.first (venues (db (out (update_venue s c f now true)))) =
    Some (set_venue_updated_at
            (fst (set_venue_event
                    (set_venue_text (prior_venue s now) (field f "name")
                       (field f "address") (field f "map_link")
                       (field f "description"))
                    (field f "event_date") (field f "event_time"))) now).
Proof.
  intros Hname. rewrite (update_venue_committed s c f now Hname).
  cbn [out db].
  set (v0 := set_venue_text (prior_venue s now) (field f "name")
               (field f "address") (field f "map_link")
               (field f "description")).
  destruct (set_venue_event_id v0 (field f "event_date")
              (field f "event_time")) as [Hid _].
  unfold prior_venue, Db.first in *.
  destruct (venues s) as [| r rest]; cbn [hd_error]; [reflexivity |].
  cbn [venues with_venues Db.save_venue map hd_error].
  cbn [VenueInfo.id set_venue_updated_at]. rewrite Hid.
  subst v0. cbn [VenueInfo.id set_venue_text hd_error].
  now rewrite Z.eqb_refl.
Qed.

(** X3.  After an update of the venue that went through, on a table of
    at most one row, the next call of [get_cached_venue], at whatever
    time, reads the store once and returns the row just written, with the
    name submitted. *)
Theorem update_venue_then_get_cached_venue
  (s : store) (c : venue_cache) (f : form) (now later : Z) :
  Py.truthy (field f "name") = true ->
  (List.length (venues s) <= 1)%nat ->
  let o := update_venue s c f now true in
  let cv := get_cached_venue (db (out o)) (cache_after o) later in
  reads cv = 1%nat
  /\ venue cv = Db.first (venues (db (out o)))
  /\ _venue_cache_time (cache cv) = Some later
  /\ exists v, venue cv = Some v /\ VenueInfo.name v = field f "name".
Proof.
  intros Hname _ o cv. subst cv.
  assert (Hc : cache_after o = empty_cache).
  { subst o. now rewrite (update_venue_committed s c f now Hname). }
  rewrite Hc, get_cached_venue_invalidated. cbn [reads venue cache _venue_cache_time].
  repeat split. subst o. rewrite (update_venue_first_row s c f now Hname).
  eexists. split; [reflexivity |].
  cbn [VenueInfo.name set_venue_updated_at].
  now rewrite (proj2 (set_venue_event_id _ _ _)).
Qed.

Lemma update_venue_then_get_cached_venue_witness :
  Py.truthy (field venue_form "name") = true /\
  (List.length (venues empty_store) <= 1)%nat /\
  reads (get_cached_venue
           (db (out (update_venue empty_store
                       {| _venue_cache := Some None;
                          _venue_cache_time := Some 0 |}
                       venue_form 1000000 true)))
           (cache_after (update_venue empty_store
                           {| _venue_cache := Some None;
                              _venue_cache_time := Some 0 |}
                           venue_form 1000000 true))
           2000000) = 1%nat.
Proof.
  assert (Hone : (List.length (venues empty_store) <= 1)%nat) by (cbn; lia).
  split; [reflexivity | split; [exact Hone |]].
  exact (proj1 (update_venue_then_get_cached_venue empty_store
                  {| _venue_cache := Some None; _venue_cache_time := Some 0 |}
                  venue_form 1000000 2000000 eq_refl Hone)).
Defined.

(** X4.  After an update, on a table of at most one row, whose date and
    time parse together, the event date served by [api_event_datetime] is
    the ISO text of the parsed value; the fixed date 2025-10-19T18:30:00
    is not served. *)
Theorem api_event_datetime_after_update
  (s : store) (c : venue_cache) (f : form) (now later : Z) (dt : datetime) :
  Py.truthy (field f "name") = true ->
  (List.length (venues s) <= 1)%nat ->
  Py.truthy (field f "event_date") = true ->
  Py.truthy (field f "event_time") = true ->
  Strptime.strptime_datetime
    (String.append (field f "event_date")
       (String.append " " (field f "event_time"))) = Some dt ->
  let o := update_venue s c f now true in
  fst (api_event_datetime (db (out o)) (cache_after o) later) =
    event_json (isoformat dt).
Proof.
  intros Hname _ Hd Ht Hdt o. unfold api_event_datetime.
  assert (Hc : cache_after o = empty_cache).
  { subst o. now rewrite (update_venue_committed s c f now Hname). }
  rewrite Hc, get_cached_venue_invalidated. cbn [venue cache]. subst o.
  rewrite (update_venue_first_row s c f now Hname).
  unfold set_venue_event. rewrite Hd, Ht, Hdt. reflexivity.
Qed.

Lemma api_event_datetime_after_update_witness :
  Py.truthy (field venue_form "name") = true /\
  (List.length (venues empty_store) <= 1)%nat /\
  fst (api_event_datetime
         (db (out (update_venue empty_store empty_cache venue_form 0 true)))
         (cache_after (update_venue empty_store empty_cache venue_form 0 true))
         5) =
  Jsonify (JDict [("datetime"%string, JStr "2025-08-15T16:00:00");
                  ("success"%string, JBool true)]) 200.
Proof.
  assert (Hone : (List.length (venues empty_store) <= 1)%nat) by (cbn; lia).
  split; [reflexivity | split; [exact Hone |]].
  exact (api_event_datetime_after_update empty_store empty_cache venue_form
           0 5 _ eq_refl Hone eq_refl eq_refl eq_refl).
Defined.

(* ================================================================= *)
(** ** Dates and times accepted by [strptime] *)

Lemma in_bind {A B} (p : Strptime.parser A) (k : A -> Strptime.parser B)
  (s : string) (x : B * string) :
  In x (Strptime.bind p k s) ->
  exists a r, In (a, r) (p s) /\ In x (k a r).
Proof.
  unfold Strptime.bind. intros H. apply in_flat_map in H.
  destruct H as [[a r] [Hin Hx]]. now exists a, r.
Qed.

Lemma in_alt {A} (p q : Strptime.parser A) (s : string) (x : A * string) :
  In x (Strptime.alt p q s) -> In x (p s) \/ In x (q s).
Proof. unfold Strptime.alt. apply in_app_or. Qed.

Lemma in_ret {A} (a : A) (s : string) (x : A * string) :
  In x (Strptime.ret a s) -> x = (a, s).
Proof. intros [H | []]. now symmetry. Qed.

Lemma in_digit (lo hi : nat) (s : string) (v : Z) (r : string) :
  In (v, r) (Strptime.digit lo hi s) ->
  Z.of_nat lo - 48 <= v <= Z.of_nat hi - 48.
Proof.
  unfold Strptime.digit. destruct s as [| c s']; [intros [] |].
  unfold Strptime.between. destruct (_ && _) eqn:E; [| intros []].
  intros [H | []]. injection H as <- _.
  apply andb_true_iff in E. destruct E as [E1 E2].
  apply Nat.leb_le in E1, E2. unfold Py.digit_val. lia.
Qed.

(** Take a membership in the matches of a parser apart, down to the
    digits. *)
Ltac parse_inversion :=
  repeat match goal with
  | H : In _ (Strptime.alt _ _ _) |- _ => apply in_alt in H; destruct H as [H | H]
  | H : In _ (Strptime.two _ _ _) |- _ => unfold Strptime.two in H
  | H : In _ (Strptime.bind _ _ _) |- _ =>
      apply in_bind in H; destruct H as (? & ? & ? & H)
  | H : In _ (Strptime.ret _ _) |- _ =>
      apply in_ret in H; apply pair_equal_spec in H; destruct H as [? ?]
  | H : In (_, _) (Strptime.digit _ _ _) |- _ =>
      apply in_digit in H; cbn [Z.of_nat Pos.of_succ_nat Pos.succ] in H
  end.

Lemma in_dir_Y (s : string) (v : Z) (r : string) :
  In (v, r) (Strptime.dir_Y s) -> 0 <= v <= 9999.
Proof. unfold Strptime.dir_Y. intros H. parse_inversion. subst. lia. Qed.

Lemma in_dir_m (s : string) (v : Z) (r : string) :
  In (v, r) (Strptime.dir_m s) -> 1 <= v <= 12.
Proof. unfold Strptime.dir_m. intros H. parse_inversion; subst; lia. Qed.

Lemma in_dir_d (s : string) (v : Z) (r : string) :
  In (v, r) (Strptime.dir_d s) -> 1 <= v <= 31.
Proof. unfold Strptime.dir_d. intros H. parse_inversion; subst; lia. Qed.

Lemma in_dir_H (s : string) (v : Z) (r : string) :
  In (v, r) (Strptime.dir_H s) -> 0 <= v <= 23.
Proof. unfold Strptime.dir_H. intros H. parse_inversion; subst; lia. Qed.

Lemma in_dir_M (s : string) (v : Z) (r : string) :
  In (v, r) (Strptime.dir_M s) -> 0 <= v <= 59.
Proof. unfold Strptime.dir_M. intros H. parse_inversion; subst; lia. Qed.

Lemma in_fmt_datetime (s : string) (dt : datetime) (r : string) :
  In (dt, r) (Strptime.fmt_datetime s) -> real_time (dt_time dt) = true.
Proof.
  unfold Strptime.fmt_datetime. intros H.
  apply in_bind in H. destruct H as (d & r1 & _ & H).
  apply in_bind in H. destruct H as (u & r2 & _ & H).
  apply in_bind in H. destruct H as (h & r3 & Hh & H).
  apply in_bind in H. destruct H as (u' & r4 & _ & H).
  apply in_bind in H. destruct H as (mi & r5 & Hm & H).
  apply in_ret in H. apply pair_equal_spec in H. destruct H as [-> _].
  apply in_dir_H in Hh. apply in_dir_M in Hm.
  unfold real_time. cbn [dt_time hour minute second].
  repeat (apply andb_true_iff; split); apply Z.leb_le; lia.
Qed.

Lemma first_match_in {A} (p : Strptime.parser A) (s : string) (a : A) :
  Strptime.first_match p s = Some a -> In (a, EmptyString) (p s).
Proof.
  unfold Strptime.first_match. destruct (p s) as [| [b r] l]; [discriminate |].
  destruct r; [| discriminate]. intros [= ->]. now left.
Qed.

(** What [strptime] returns for the two formats is a calendar date, with
    a time of day. *)
Lemma strptime_datetime_real (s : string) (dt : datetime) :
  Strptime.strptime_datetime s = Some dt ->
  Strptime.valid_date (dt_date dt) = true /\ real_time (dt_time dt) = true.
Proof.
  unfold Strptime.strptime_datetime.
  destruct (Strptime.first_match Strptime.fmt_datetime s) as [dt' |] eqn:E;
    [| discriminate].
  destruct (Strptime.valid_date (dt_date dt')) eqn:V; [| discriminate].
  intros [= <-]. split; [exact V |].
  apply first_match_in in E. now apply in_fmt_datetime in E.
Qed.

Lemma strptime_date_real (s : string) (d : date) :
  Strptime.strptime_date s = Some d -> Strptime.valid_date d = true.
Proof.
  unfold Strptime.strptime_date.
  destruct (Strptime.first_match Strptime.fmt_date s) as [d' |]; [| discriminate].
  destruct (Strptime.valid_date d') eqn:V; [| discriminate].
  now intros [= <-].
Qed.

Lemma set_venue_event_real (v : VenueInfo.t) (event_date event_time : string) :
  real_event v = true ->
  real_event (fst (set_venue_event v event_date event_time)) = true.
Proof.
  intros Hv. unfold set_venue_event.
  destruct (Py.truthy event_date && Py.truthy event_time).
  - destruct (Strptime.strptime_datetime _) as [dt |] eqn:E; [| exact Hv].
    apply strptime_datetime_real in E. destruct E as [E1 E2].
    unfold real_event. cbn. now rewrite E1, E2.
  - destruct (Py.truthy event_date); [| exact Hv].
    destruct (Strptime.strptime_date _) as [d |] eqn:E; [| exact Hv].
    apply strptime_date_real in E.
    unfold real_event in *. cbn. rewrite E. cbn [andb].
    apply andb_true_iff in Hv. destruct Hv as [Hv Hdt].
    apply andb_true_iff in Hv. destruct Hv as [_ Ht].
    now rewrite Ht, Hdt.
Qed.

(** X5.  [update_venue] keeps the venue table free of impossible dates:
    when every row held calendar dates and times of day before the call,
    every row does after it, whatever was typed in the date and time
    fields (30 February, hour 24 and the like are refused by the parser
    and the columns stay as they were). *)
Theorem update_venue_keeps_real_dates
  (s : store) (c : venue_cache) (f : form) (now : Z) (db_ok : bool) :
  forallb real_event (venues s) = true ->
  forallb real_event (venues (db (out (update_venue s c f now db_ok)))) = true.
Proof.
  intros Hs. unfold update_venue.
  destruct (negb (Py.truthy (Py.strip (get_default f "name" ""))));
    [exact Hs |].
  set (v0 := set_venue_text _ _ _ _ _).
  assert (Hv0 : real_event v0 = true).
  { subst v0. unfold Db.first.
    destruct (venues s) as [| r rest] eqn:E; cbn [hd_error].
    - reflexivity.
    - cbn [forallb] in Hs. apply andb_true_iff in Hs. exact (proj1 Hs). }
  pose proof (set_venue_event_real v0
                (Py.strip (get_default f "event_date" ""))
                (Py.strip (get_default f "event_time" "")) Hv0) as Hev.
  destruct (set_venue_event v0 _ _) as [v w]. cbn [fst] in Hev.
  assert (Hv : real_event (set_venue_updated_at v now) = true) by exact Hev.
  destruct db_ok; cbn [Db.commit out db]; [| exact Hs].
  destruct (Db.first (venues s)); cbn [venues with_venues].
  - unfold Db.save_venue. rewrite forallb_forall in *.
    intros x Hx. apply in_map_iff in Hx. destruct Hx as [r [<- Hr]].
    destruct (_ =? _); [exact Hv | now apply Hs].
  - rewrite forallb_app, Hs. cbn [forallb]. now rewrite Hv.
Qed.

Lemma update_venue_keeps_real_dates_witness :
  forallb real_event (venues empty_store) = true /\
  map VenueInfo.event_datetime
      (venues (db (out (update_venue empty_store empty_cache
                          venue_form_bad_day 0 true)))) = [None] /\
  forallb real_event
    (venues (db (out (update_venue empty_store empty_cache
                        venue_form_bad_day 0 true)))) = true.
Proof.
  split; [reflexivity | split; [reflexivity |]].
  apply (update_venue_keeps_real_dates empty_store empty_cache
           venue_form_bad_day 0 true). reflexivity.
Defined.

(* ================================================================= *)
(** ** Dates shown in Portuguese *)

(** X6.  A date that [update_venue] accepts is shown by the filter
    [format_date_br] as day, month name and year, the month name being one
    of the twelve: the empty first entry of the table of names is never
    used and the index never falls outside the table. *)
Theorem format_date_br_after_strptime (s : string) (d : date) :
  Strptime.strptime_date s = Some d ->
  exists mes,
    In mes (tl meses) /\ mes <> EmptyString
    /\ format_date_br (FDate d) =
         String.append (Py.str_int (day d))
           (String.append " de "
              (String.append mes
                 (String.append " de " (Py.str_int (year d))))).
Proof.
  intros H. apply strptime_date_real in H. unfold Strptime.valid_date in H.
  repeat (apply andb_true_iff in H; destruct H as [H ?]).
  repeat match goal with
         | E : (_ <=? _) = true |- _ => apply Z.leb_le in E
         end.
  unfold format_date_br, date_br.
  assert (Hm : month d = 1 \/ month d = 2 \/ month d = 3 \/ month d = 4
               \/ month d = 5 \/ month d = 6 \/ month d = 7 \/ month d = 8
               \/ month d = 9 \/ month d = 10 \/ month d = 11
               \/ month d = 12) by lia.
  repeat (destruct Hm as [-> | Hm]); try rewrite Hm;
    eexists; (split; [| split; [| reflexivity]]);
    cbn; try discriminate; tauto.
Qed.

Lemma format_date_br_after_strptime_witness :
  Strptime.strptime_date "2025-08-15" =
    Some {| year := 2025; month := 8; day := 15 |} /\
  exists mes,
    In mes (tl meses)
    /\ format_date_br (FDate {| year := 2025; month := 8; day := 15 |}) =
         String.append "15 de " (String.append mes " de 2025").
Proof.
  split; [reflexivity |].
  destruct (format_date_br_after_strptime "2025-08-15"
              {| year := 2025; month := 8; day := 15 |} eq_refl)
    as [mes [Hin [_ E]]].
  exists mes. split; [exact Hin | exact E].
Defined.

(* ================================================================= *)
(** ** Adding and removing guests *)

Lemma next_id_fresh {A} (key : A -> Z) (rows : list A) (r : A) :
  In r rows -> key r < Sql.next_id key rows.
Proof.
  unfold Sql.next_id. induction rows as [| x rows IH]; [intros [] |].
  cbn [fold_right]. intros [-> | H]; [lia |]. specialize (IH H). lia.
Qed.

Lemma with_guests_same (s : store) : with_guests s (guests s) = s.
Proof. now destruct s. Qed.

Lemma with_groups_same (s : store) : with_groups s (groups s) = s.
Proof. now destruct s. Qed.

Lemma filter_none {A} (p : A -> bool) (l : list A) :
  (forall x, In x l -> p x = false) -> filter p l = [].
Proof.
  induction l as [| x l IH]; intros H; [reflexivity |].
  cbn. rewrite (H x) by now left. apply IH. intros y Hy. apply H. now right.
Qed.

Lemma filter_all {A} (p : A -> bool) (l : list A) :
  (forall x, In x l -> p x = true) -> filter p l = l.
Proof.
  induction l as [| x l IH]; intros H; [reflexivity |].
  cbn. rewrite (H x) by now left. f_equal. apply IH. intros y Hy.
  apply H. now right.
Qed.

(** What [add_guest] does for a name that is not in the table. *)
Lemma add_guest_new (s : store) (f : form) (now : Z) :
  Py.truthy (field f "name") = true ->
  Sql.guests_by_name s (field f "name") = [] ->
  exists g,
    Guest.id g = Sql.next_id Guest.id (guests s)
    /\ Guest.name g = field f "name"
    /\ Guest.rsvp_status g = "pendente"%string
    /\ db (add_guest s f now true) = with_guests s (guests s ++ [g])%list.
Proof.
  intros Hname Hnew. unfold add_guest, add_guest_body.
  fold (field f "name"). rewrite Hname, Hnew. cbn [negb Db.first hd_error].
  destruct (parse_group_id_total (get f "group_id")) as [gid ->].
  cbn [Py.bind Db.commit db]. eexists.
  split; [| split; [| split]]. 4: reflexivity. all: reflexivity.
Qed.

(** X7.  After [add_guest] with a name that is not blank and a group
    field in plain ASCII, a guest of that name is in the table, and the
    same submission again, whether the store is available or not, is
    refused as a duplicate and changes nothing. *)
Theorem add_guest_twice (s : store) (f : form) (now later : Z) (db_ok : bool) :
  Py.truthy (field f "name") = true ->
  plain_group_field (get f "group_id") = true ->
  let s1 := db (add_guest s f now true) in
  Sql.guests_by_name s1 (field f "name") <> []
  /\ add_guest s1 f later db_ok =
       {| db := s1; flashes := [guest_already_exists (field f "name")];
          resp := Redirect "admin_guests" |}.
Proof.
  intros Hname _ s1.
  assert (Hin : Sql.guests_by_name s1 (field f "name") <> []).
  { subst s1. destruct (Sql.guests_by_name s (field f "name")) as [| g0 l] eqn:E.
    - destruct (add_guest_new s f now Hname E) as [g [_ [Hn [_ ->]]]].
      unfold Sql.guests_by_name. cbn [guests with_guests].
      rewrite filter_app. cbn [filter]. rewrite Hn, String.eqb_refl.
      intros H. now apply app_eq_nil in H.
    - unfold add_guest, add_guest_body. fold (field f "name").
      rewrite Hname, E. cbn [negb Db.first hd_error db]. rewrite E.
      discriminate. }
  split; [exact Hin |].
  unfold add_guest, add_guest_body. fold (field f "name"). rewrite Hname.
  cbn [negb]. destruct (Sql.guests_by_name s1 (field f "name"));
    [contradiction | reflexivity].
Qed.

Lemma add_guest_twice_witness :
  Py.truthy (field new_guest_form "name") = true /\
  plain_group_field (get new_guest_form "group_id") = true /\
  map Guest.name (guests (db (add_guest sample_store new_guest_form 0 true)))
  = ["Ana Silva"; "Joao Silva"; "Rita Lima"; "Bruno Ferreira"]%string /\
  db (add_guest (db (add_guest sample_store new_guest_form 0 true))
                new_guest_form 1 true)
  = db (add_guest sample_store new_guest_form 0 true).
Proof.
  split; [reflexivity | split; [reflexivity | split; [reflexivity |]]].
  destruct (add_guest_twice sample_store new_guest_form 0 1 true eq_refl
              eq_refl) as [_ E].
  rewrite E. reflexivity.
Defined.

(** X8.  Adding a guest under a new name and deleting the guest of the
    key it received gives back the store as it was. *)
Theorem add_guest_then_delete_guest (s : store) (f : form) (now : Z) :
  Py.truthy (field f "name") = true ->
  Sql.guests_by_name s (field f "name") = [] ->
  db (delete_guest (db (add_guest s f now true))
        (Sql.next_id Guest.id (guests s)) true) = s.
Proof.
  intros Hname Hnew.
  destruct (add_guest_new s f now Hname Hnew) as [g [Hid [_ [_ ->]]]].
  assert (Hold : forall r, In r (guests s) ->
                 (Guest.id r =? Sql.next_id Guest.id (guests s)) = false).
  { intros r Hr. apply Z.eqb_neq.
    pose proof (next_id_fresh Guest.id (guests s) r Hr). lia. }
  unfold delete_guest, delete_guest_body, Db.first_or_404, Db.guests_by_id.
  cbn [guests with_guests]. rewrite filter_app, (filter_none _ _ Hold).
  cbn [filter app]. rewrite Hid, Z.eqb_refl.
  cbn [Db.first hd_error Py.bind Db.commit db]. rewrite Hid.
  unfold Sql.delete_guest_row. rewrite filter_app. cbn [filter].
  rewrite Hid, Z.eqb_refl. cbn [negb]. rewrite app_nil_r.
  rewrite filter_all.
  - destruct s. reflexivity.
  - intros r Hr. now rewrite (Hold r Hr).
Qed.

Lemma add_guest_then_delete_guest_witness :
  Py.truthy (field new_guest_form "name") = true /\
  Sql.guests_by_name sample_store (field new_guest_form "name") = [] /\
  Sql.next_id Guest.id (guests sample_store) = 4 /\
  db (delete_guest (db (add_guest sample_store new_guest_form 0 true)) 4 true)
  = sample_store.
Proof.
  split; [reflexivity | split; [reflexivity | split; [reflexivity |]]].
  exact (add_guest_then_delete_guest sample_store new_guest_form 0
           eq_refl eq_refl).
Defined.

(** X9.  [delete_guest] touches no table but the guests, adds no guest,
    keeps every guest of another id, and, when the store is available,
    leaves no guest of the id it was given (for an id that no guest has
    it changes nothing). *)
Theorem delete_guest_removes_only_that_guest
  (s : store) (guest_id : Z) (db_ok : bool) :
  let s' := db (delete_guest s guest_id db_ok) in
  groups s' = groups s
  /\ venues s' = venues s
  /\ (forall g, In g (guests s') -> In g (guests s))
  /\ (forall g, In g (guests s) -> Guest.id g <> guest_id -> In g (guests s'))
  /\ (db_ok = true -> forall g, In g (guests s') -> Guest.id g <> guest_id).
Proof.
  unfold delete_guest, delete_guest_body, Db.first_or_404.
  destruct (Db.first (Db.guests_by_id s guest_id)) as [g0 |] eqn:E.
  - pose proof (guests_by_id_first s guest_id g0 E) as Hid.
    destruct db_ok; cbn [Py.bind Db.commit db].
    + cbn [guests groups venues with_guests]. rewrite Hid.
      unfold Sql.delete_guest_row. repeat split.
      * intros g Hg. now apply filter_In in Hg.
      * intros g Hg Hne. apply filter_In. split; [exact Hg |].
        apply negb_true_iff. now apply Z.eqb_neq.
      * intros _ g Hg. apply filter_In in Hg. destruct Hg as [_ Hg].
        apply negb_true_iff in Hg. now apply Z.eqb_neq.
    + repeat split; auto; discriminate.
  - cbn [Py.bind db]. repeat split; auto.
    intros _ g Hg Heq. unfold Db.first, Db.guests_by_id in E.
    assert (Hin : In g (filter (fun r => Guest.id r =? guest_id) (guests s))).
    { apply filter_In. split; [exact Hg | now apply Z.eqb_eq]. }
    destruct (filter _ (guests s)); [exact Hin | discriminate E].
Qed.

(* ================================================================= *)
(** ** Guests and their groups *)

Lemma update_group_id_by_id (rows : list Guest.t) (guest_id : Z)
  (group_id : option Z) (i : Z) :
  map Guest.id (filter (fun g => Guest.id g =? i)
                       (Sql.update_group_id rows guest_id group_id))
  = map Guest.id (filter (fun g => Guest.id g =? i) rows).
Proof.
  unfold Sql.update_group_id.
  induction rows as [| r rows IH]; [reflexivity |].
  cbn [map filter].
  destruct (Guest.id r =? guest_id); cbn [Guest.id];
    destruct (Guest.id r =? i); cbn [map Guest.id]; now rewrite IH.
Qed.

Lemma update_group_id_member (rows : list Guest.t) (guest_id group_id : Z) :
  filter (fun g => Guest.id g =? guest_id) rows <> [] ->
  filter (fun g => match Guest.group_id g with
                   | Some i => i =? group_id
                   | None => false
                   end)
         (Sql.update_group_id rows guest_id (Some group_id)) <> [].
Proof.
  unfold Sql.update_group_id.
  induction rows as [| r rows IH]; [intros H; now contradiction H |].
  cbn [map filter]. destruct (Guest.id r =? guest_id).
  - intros _. cbn [Guest.group_id]. rewrite Z.eqb_refl. discriminate.
  - intros H. specialize (IH H).
    destruct (match Guest.group_id r with
              | Some i => i =? group_id
              | None => false
              end); [discriminate | exact IH].
Qed.

Lemma truthy_id_nonzero (n : Z) : n <> 0 -> truthy_id (Some n) = Some n.
Proof.
  intros H. unfold truthy_id. destruct (Z.eqb_spec n 0); [contradiction |].
  reflexivity.
Qed.

(** What [add_guest_to_group] does for a guest that exists. *)
Lemma add_guest_to_group_done (s : store) (guest_id group_id : Z) :
  guest_id <> 0 -> group_id <> 0 ->
  Db.guests_by_id s guest_id <> [] ->
  add_guest_to_group s (into_group guest_id group_id) true =
    (with_guests s (Sql.update_group_id (guests s) guest_id (Some group_id)),
     json_success "Convidado adicionado ao grupo com sucesso").
Proof.
  intros Hg Hgr Hex. unfold add_guest_to_group, into_group.
  cbn [req_guest_id req_group_id].
  rewrite (truthy_id_nonzero _ Hg), (truthy_id_nonzero _ Hgr).
  unfold Db.count. destruct (Db.guests_by_id s guest_id); [contradiction |].
  reflexivity.
Qed.

(** X10.  Once a guest has been put into a group by [add_guest_to_group],
    [delete_group] refuses to delete that group, whether the store is
    available or not, and leaves the store as it is. *)
Theorem add_guest_to_group_blocks_delete_group
  (s : store) (guest_id group_id : Z) (group : GuestGroup.t) (db_ok : bool) :
  guest_id <> 0 -> group_id <> 0 ->
  Db.guests_by_id s guest_id <> [] ->
  Db.first (Db.groups_by_id s group_id) = Some group ->
  let s1 := fst (add_guest_to_group s (into_group guest_id group_id) true) in
  0 < Db.count (Db.guests_by_group s1 group_id)
  /\ delete_group s1 group_id db_ok =
       {| db := s1;
          flashes := [group_in_use (GuestGroup.name group)
                        (Db.count (Db.guests_by_group s1 group_id))];
          resp := Redirect "admin_groups" |}.
Proof.
  intros Hg Hgr Hex Hgroup s1. subst s1.
  rewrite (add_guest_to_group_done s guest_id group_id Hg Hgr Hex). cbn [fst].
  set (s1 := with_guests s _).
  assert (Hmem : Db.guests_by_group s1 group_id <> []).
  { subst s1. unfold Db.guests_by_group. cbn [guests with_guests].
    apply update_group_id_member. exact Hex. }
  assert (Hpos : (Db.count (Db.guests_by_group s1 group_id) >? 0) = true)
    by now apply count_pos_iff.
  split; [now apply Z.gtb_lt in Hpos |].
  unfold delete_group, delete_group_body, Db.first_or_404.
  assert (Hgroups : Db.groups_by_id s1 group_id = Db.groups_by_id s group_id)
    by reflexivity.
  rewrite Hgroups, Hgroup. cbn [Py.bind]. rewrite Hpos. reflexivity.
Qed.

Lemma add_guest_to_group_blocks_delete_group_witness :
  3 <> 0 /\ 2 <> 0 /\ Db.guests_by_id sample_store 3 <> [] /\
  Db.first (Db.groups_by_id sample_store 2) = Some amigos /\
  db (delete_group sample_store 2 true) <> sample_store /\
  db (delete_group (fst (add_guest_to_group sample_store (into_group 3 2) true))
        2 true)
  = fst (add_guest_to_group sample_store (into_group 3 2) true).
Proof.
  assert (H3 : 3 <> 0) by lia. assert (H2 : 2 <> 0) by lia.
  assert (Hex : Db.guests_by_id sample_store 3 <> []) by discriminate.
  repeat (split; [first [assumption | reflexivity | discriminate] |]).
  destruct (add_guest_to_group_blocks_delete_group sample_store 3 2 amigos
              true H3 H2 Hex eq_refl) as [_ E].
  rewrite E. reflexivity.
Defined.

Lemma guest_eta (g : Guest.t) :
  {| Guest.id := Guest.id g; Guest.name := Guest.name g;
     Guest.phone := Guest.phone g; Guest.rsvp_status := Guest.rsvp_status g;
     Guest.group_id := Guest.group_id g;
     Guest.created_at := Guest.created_at g |} = g.
Proof. now destruct g. Qed.

(** What the two handlers answer for an id that no guest has. *)
Lemma add_guest_to_group_absent (s : store) (guest_id group_id : Z) :
  guest_id <> 0 -> group_id <> 0 ->
  Db.guests_by_id s guest_id = [] ->
  add_guest_to_group s (into_group guest_id group_id) true =
    (s, json_failure "Convidado não encontrado" 404).
Proof.
  intros Hg Hgr E. unfold add_guest_to_group, into_group.
  cbn [req_guest_id req_group_id].
  rewrite (truthy_id_nonzero _ Hg), (truthy_id_nonzero _ Hgr), E.
  reflexivity.
Qed.

Lemma remove_guest_from_group_absent (s : store) (guest_id : Z) :
  guest_id <> 0 ->
  Db.guests_by_id s guest_id = [] ->
  remove_guest_from_group s (out_of_group guest_id) true =
    (s, json_failure "Convidado não encontrado" 404).
Proof.
  intros Hg E. unfold remove_guest_from_group, out_of_group.
  cbn [req_guest_id]. rewrite (truthy_id_nonzero _ Hg), E. reflexivity.
Qed.

(** What [remove_guest_from_group] does for a guest that exists. *)
Lemma remove_guest_from_group_done (s : store) (guest_id : Z) :
  guest_id <> 0 ->
  Db.guests_by_id s guest_id <> [] ->
  remove_guest_from_group s (out_of_group guest_id) true =
    (with_guests s (Sql.update_group_id (guests s) guest_id None),
     json_success "Convidado removido do grupo com sucesso").
Proof.
  intros Hg Hex. unfold remove_guest_from_group, out_of_group.
  cbn [req_guest_id]. rewrite (truthy_id_nonzero _ Hg).
  unfold Db.count. destruct (Db.guests_by_id s guest_id); [contradiction |].
  reflexivity.
Qed.

(** The statement of [update_group_id] finds the guests it found before. *)
Lemma update_group_id_found (s : store) (guest_id : Z) (group_id : option Z) :
  Db.guests_by_id s guest_id <> [] ->
  Db.guests_by_id
    (with_guests s (Sql.update_group_id (guests s) guest_id group_id))
    guest_id <> [].
Proof.
  unfold Db.guests_by_id. cbn [guests with_guests]. intros H E. apply H.
  apply (f_equal (map Guest.id)) in E.
  rewrite update_group_id_by_id in E. cbn [map] in E.
  now apply map_eq_nil in E.
Qed.

(** Every guest of the key has the group written by [update_group_id]. *)
Lemma update_group_id_written (rows : list Guest.t) (guest_id : Z)
  (group_id : option Z) (g : Guest.t) :
  In g (Sql.update_group_id rows guest_id group_id) ->
  Guest.id g = guest_id -> Guest.group_id g = group_id.
Proof.
  unfold Sql.update_group_id. intros Hin Hid. apply in_map_iff in Hin.
  destruct Hin as [r [Hr _]].
  destruct (Z.eqb_spec (Guest.id r) guest_id) as [E | N].
  - now subst g.
  - subst g. contradiction.
Qed.

(** Writing a group and then no group to the guests of a key that had
    none gives the rows back. *)
Lemma update_group_id_undone (rows : list Guest.t) (guest_id group_id : Z) :
  (forall g, In g rows -> Guest.id g = guest_id -> Guest.group_id g = None) ->
  Sql.update_group_id (Sql.update_group_id rows guest_id (Some group_id))
    guest_id None = rows.
Proof.
  intros Hnone. unfold Sql.update_group_id. rewrite map_map.
  rewrite <- (map_id rows) at 2. apply map_ext_in.
  intros g Hin. destruct (Z.eqb_spec (Guest.id g) guest_id) as [Hid | Hne].
  - cbn [Guest.id]. rewrite Hid, Z.eqb_refl. cbn.
    rewrite <- (Hnone g Hin Hid), <- Hid. apply guest_eta.
  - destruct (Z.eqb_spec (Guest.id g) guest_id); [contradiction |].
    reflexivity.
Qed.

(** X11.  Putting a guest that has no group into a group and taking the
    guest out again: when a guest has the id, both requests are answered
    with success, the guest is in the group in between, and afterwards
    the guests, the groups and the venue are those from before (the
    guests as a collection, whatever the order the table returns them
    in); when no guest has the id, both requests are answered 404 and
    the store is unchanged. *)
Theorem add_then_remove_guest_from_group (s : store) (guest_id group_id : Z) :
  guest_id <> 0 -> group_id <> 0 ->
  (forall g, In g (guests s) -> Guest.id g = guest_id ->
             Guest.group_id g = None) ->
  let added := add_guest_to_group s (into_group guest_id group_id) true in
  let removed :=
    remove_guest_from_group (fst added) (out_of_group guest_id) true in
  (Db.guests_by_id s guest_id <> [] ->
   snd added = json_success "Convidado adicionado ao grupo com sucesso"
   /\ Db.guests_by_id (fst added) guest_id <> []
   /\ (forall g, In g (guests (fst added)) -> Guest.id g = guest_id ->
                 Guest.group_id g = Some group_id)
   /\ snd removed = json_success "Convidado removido do grupo com sucesso"
   /\ Permutation (guests (fst removed)) (guests s)
   /\ groups (fst removed) = groups s
   /\ venues (fst removed) = venues s)
  /\
  (Db.guests_by_id s guest_id = [] ->
   added = (s, json_failure "Convidado não encontrado" 404)
   /\ removed = (s, json_failure "Convidado não encontrado" 404)).
Proof.
  intros Hg Hgr Hnone added removed. split.
  - intros Hex. subst removed added.
    rewrite (add_guest_to_group_done s guest_id group_id Hg Hgr Hex).
    cbn [fst snd].
    pose proof (update_group_id_found s guest_id (Some group_id) Hex) as Hex1.
    rewrite (remove_guest_from_group_done _ guest_id Hg Hex1).
    cbn [fst snd guests groups venues with_guests].
    split; [reflexivity | split; [exact Hex1 | split; [| split]]].
    + intros g Hin Hid.
      exact (update_group_id_written _ _ _ _ Hin Hid).
    + reflexivity.
    + rewrite (update_group_id_undone _ _ _ Hnone).
      split; [apply Permutation_refl | now split].
  - intros E. subst removed added.
    rewrite (add_guest_to_group_absent s guest_id group_id Hg Hgr E).
    cbn [fst]. split; [reflexivity |].
    exact (remove_guest_from_group_absent s guest_id Hg E).
Qed.

Lemma add_then_remove_guest_from_group_witness :
  3 <> 0 /\ 2 <> 0 /\
  Db.guests_by_id sample_store 3 <> [] /\
  guests (fst (add_guest_to_group sample_store (into_group 3 2) true))
  <> guests sample_store /\
  Permutation
    (guests (fst (remove_guest_from_group
                    (fst (add_guest_to_group sample_store (into_group 3 2) true))
                    (out_of_group 3) true)))
    (guests sample_store) /\
  add_guest_to_group sample_store (into_group 9 2) true
  = (sample_store, json_failure "Convidado não encontrado" 404).
Proof.
  assert (H3 : 3 <> 0) by lia. assert (H2 : 2 <> 0) by lia.
  assert (H9 : 9 <> 0) by lia.
  assert (Hex : Db.guests_by_id sample_store 3 <> []) by discriminate.
  split; [exact H3 | split; [exact H2 | split; [exact Hex |]]].
  split; [discriminate | split].
  - assert (Hnone : forall g, In g (guests sample_store) -> Guest.id g = 3 ->
                              Guest.group_id g = None).
    { intros g [<- | [<- | [<- | []]]]; intros H; try reflexivity;
        discriminate H. }
    destruct (add_then_remove_guest_from_group sample_store 3 2 H3 H2 Hnone)
      as [Hdone _].
    destruct (Hdone Hex) as [_ [_ [_ [_ [Hp _]]]]]. exact Hp.
  - assert (Hnone : forall g, In g (guests sample_store) -> Guest.id g = 9 ->
                              Guest.group_id g = None).
    { intros g [<- | [<- | [<- | []]]]; intros H; discriminate H. }
    destruct (add_then_remove_guest_from_group sample_store 9 2 H9 H2 Hnone)
      as [_ Habsent].
    destruct (Habsent eq_refl) as [Ha _]. exact Ha.
Defined.

(* ================================================================= *)
(** ** Adding, renaming and removing groups *)

Lemma add_group_new (s : store) (f : form) (now : Z) :
  Py.truthy (field f "name") = true ->
  Sql.groups_by_name s (field f "name") = [] ->
  exists g,
    GuestGroup.id g = Sql.next_id GuestGroup.id (groups s)
    /\ GuestGroup.name g = field f "name"
    /\ db (add_group s f now true) = with_groups s (groups s ++ [g])%list.
Proof.
  intros Hname Hnew. unfold add_group, add_group_body.
  fold (field f "name"). rewrite Hname, Hnew.
  cbn [negb Db.first hd_error Py.bind Db.commit db]. eexists.
  split; [| split]. 3: reflexivity. all: reflexivity.
Qed.

(** X12.  A group added under a new name can be deleted again, which
    gives back the store as it was, provided no guest already refers to
    the key the new group receives ([add_guest_to_group] can leave such a
    reference behind, since it does not look the group up). *)
Theorem add_group_then_delete_group (s : store) (f : form) (now : Z) :
  Py.truthy (field f "name") = true ->
  Sql.groups_by_name s (field f "name") = [] ->
  Db.guests_by_group s (Sql.next_id GuestGroup.id (groups s)) = [] ->
  db (delete_group (db (add_group s f now true))
        (Sql.next_id GuestGroup.id (groups s)) true) = s.
Proof.
  intros Hname Hnew Hfree.
  destruct (add_group_new s f now Hname Hnew) as [g [Hid [_ ->]]].
  assert (Hold : forall r, In r (groups s) ->
            (GuestGroup.id r =? Sql.next_id GuestGroup.id (groups s)) = false).
  { intros r Hr. apply Z.eqb_neq.
    pose proof (next_id_fresh GuestGroup.id (groups s) r Hr). lia. }
  unfold delete_group, delete_group_body, Db.first_or_404, Db.groups_by_id.
  cbn [groups with_groups]. rewrite filter_app, (filter_none _ _ Hold).
  cbn [filter app]. rewrite Hid, Z.eqb_refl.
  cbn [Db.first hd_error Py.bind].
  assert (Hg : Db.guests_by_group (with_groups s (groups s ++ [g])%list)
                 (Sql.next_id GuestGroup.id (groups s)) = []) by exact Hfree.
  rewrite Hg. cbn [Db.count List.length Z.of_nat Z.gtb Z.compare].
  cbn [Db.commit Py.bind db groups with_groups]. rewrite Hid.
  unfold Db.delete_group_row. rewrite filter_app. cbn [filter].
  rewrite Hid, Z.eqb_refl. cbn [negb]. rewrite app_nil_r, filter_all.
  - destruct s. reflexivity.
  - intros r Hr. now rewrite (Hold r Hr).
Qed.

Lemma add_group_then_delete_group_witness :
  Py.truthy (field new_group_form "name") = true /\
  Sql.groups_by_name sample_store (field new_group_form "name") = [] /\
  Db.guests_by_group sample_store 3 = [] /\
  map GuestGroup.name (groups (db (add_group sample_store new_group_form 0 true)))
  = ["Familia Silva"; "Amigos"; "Colegas"]%string /\
  db (delete_group (db (add_group sample_store new_group_form 0 true)) 3 true)
  = sample_store.
Proof.
  repeat (split; [reflexivity |]).
  exact (add_group_then_delete_group sample_store new_group_form 0
           eq_refl eq_refl eq_refl).
Defined.

(** X13.  [edit_group] renames: for a group that exists, a name that is
    not blank and a store that is available, the group of the key has the
    name and the description submitted and the date of creation it had,
    and the success is reported.  Whatever the submission, it touches
    neither the guests nor the venue, the keys of the groups are those
    from before, so every guest stays in the group it was in, and a
    group of another key is left as it was. *)
Theorem edit_group_keeps_members
  (s : store) (group_id : Z) (f : form) (db_ok : bool) :
  let s' := db (edit_group s group_id f db_ok) in
  guests s' = guests s
  /\ venues s' = venues s
  /\ Permutation (map GuestGroup.id (groups s')) (map GuestGroup.id (groups s))
  /\ (forall i, Db.guests_by_group s' i = Db.guests_by_group s i)
  /\ (forall g, In g (groups s) -> GuestGroup.id g <> group_id ->
                In g (groups s'))
  /\ (forall group,
        Db.first (Db.groups_by_id s group_id) = Some group ->
        Py.truthy (field f "name") = true ->
        db_ok = true ->
        let renamed :=
          {| GuestGroup.id := group_id;
             GuestGroup.name := field f "name";
             GuestGroup.description := Py.or_None (field f "description");
             GuestGroup.created_at := GuestGroup.created_at group |} in
        In renamed (groups s')
        /\ (forall g, In g (groups s') -> GuestGroup.id g = group_id ->
                      g = renamed)
        /\ flashes (edit_group s group_id f db_ok) =
             [(String.append "Grupo '"
                 (String.append (field f "name") "' atualizado com sucesso!"),
               success)]).
Proof.
  unfold edit_group, edit_group_body, Db.first_or_404, field.
  destruct (Db.first (Db.groups_by_id s group_id)) as [g0 |] eqn:E;
    cbn [Py.bind]; [| cbn [db]; repeat split; auto; discriminate].
  pose proof (groups_by_id_first s group_id g0 E) as Hid.
  assert (Hin0 : In g0 (groups s)).
  { unfold Db.first, Db.groups_by_id in E.
    destruct (filter _ (groups s)) as [| x l] eqn:Ef; [discriminate |].
    injection E as ->.
    assert (H : In g0 (filter (fun r => GuestGroup.id r =? group_id) (groups s)))
      by (rewrite Ef; now left).
    now apply filter_In in H. }
  destruct (Py.truthy (Py.strip (get_default f "name" ""))) eqn:Hname;
    cbn [negb];
    [| cbn [db]; repeat split; auto; intros; discriminate].
  destruct db_ok; cbn [Db.commit Py.bind db];
    [| repeat split; auto; intros; discriminate].
  cbn [guests venues groups with_groups flashes].
  split; [reflexivity | split; [reflexivity | split; [| split; [| split]]]].
  - unfold Sql.save_group. rewrite map_map.
    rewrite (map_ext _ GuestGroup.id); [apply Permutation_refl |].
    intros r. cbn [GuestGroup.id].
    destruct (Z.eqb_spec (GuestGroup.id r) (GuestGroup.id g0)) as [-> | _];
      reflexivity.
  - reflexivity.
  - intros g Hg Hne. unfold Sql.save_group. apply in_map_iff. exists g.
    split; [| exact Hg]. cbn [GuestGroup.id].
    destruct (Z.eqb_spec (GuestGroup.id g) (GuestGroup.id g0)) as [Heq | _];
      [| reflexivity].
    exfalso. apply Hne. now rewrite Heq.
  - intros group Hgroup _ _. injection Hgroup as <-. cbv zeta.
    rewrite <- Hid. split; [| split; [| reflexivity]].
    + unfold Sql.save_group. apply in_map_iff. exists g0.
      split; [| exact Hin0]. cbn [GuestGroup.id]. now rewrite Z.eqb_refl.
    + intros g Hg Hgid. unfold Sql.save_group in Hg. apply in_map_iff in Hg.
      destruct Hg as [r [Hr _]]. cbn [GuestGroup.id] in Hr.
      destruct (Z.eqb_spec (GuestGroup.id r) (GuestGroup.id g0)) as [_ | N].
      * now subst g.
      * subst g. contradiction.
Qed.

Lemma edit_group_keeps_members_witness :
  Db.first (Db.groups_by_id sample_store 1) = Some familia /\
  Py.truthy (field rename_group_form "name") = true /\
  map GuestGroup.name
    (groups (db (edit_group sample_store 1 rename_group_form true)))
  = ["Familia Souza"; "Amigos"]%string /\
  In {| GuestGroup.id := 1; GuestGroup.name := "Familia Souza";
        GuestGroup.description := Some "Lado da noiva"%string;
        GuestGroup.created_at := Some 0 |}
     (groups (db (edit_group sample_store 1 rename_group_form true))).
Proof.
  split; [reflexivity | split; [reflexivity | split; [reflexivity |]]].
  destruct (edit_group_keeps_members sample_store 1 rename_group_form true)
    as [_ [_ [_ [_ [_ Hren]]]]].
  destruct (Hren familia eq_refl eq_refl eq_refl) as [Hin _]. exact Hin.
Defined.

(* ================================================================= *)
(** ** The counts of the dashboard *)

Lemma status_counts (rows : list Guest.t) :
  let n st := Z.of_nat (List.length
                (filter (fun g => String.eqb (Guest.rsvp_status g) st) rows)) in
  n "confirmado"%string + n "pendente"%string + n "nao_confirmado"%string
  + Z.of_nat (List.length
      (filter (fun g => negb (in_enum (Guest.rsvp_status g))) rows))
  = Z.of_nat (List.length rows).
Proof.
  cbv zeta. induction rows as [| g rows IH]; [reflexivity |].
  cbn [filter List.length]. unfold in_enum at 1.
  destruct (String.eqb_spec (Guest.rsvp_status g) "confirmado") as [E | _].
  - rewrite E. cbn [String.eqb Ascii.eqb Bool.eqb andb orb negb List.length]. lia.
  - destruct (String.eqb_spec (Guest.rsvp_status g) "pendente") as [E | _].
    + rewrite E. cbn [String.eqb Ascii.eqb Bool.eqb andb orb negb List.length]. lia.
    + destruct (String.eqb_spec (Guest.rsvp_status g) "nao_confirmado")
        as [E | _]; cbn [orb negb List.length]; lia.
Qed.

Lemma none_outside_enum (rows : list Guest.t) :
  List.length (filter (fun g => negb (in_enum (Guest.rsvp_status g))) rows) = 0%nat
  <-> forallb (fun g => in_enum (Guest.rsvp_status g)) rows = true.
Proof.
  induction rows as [| g rows IH]; [now split |].
  cbn [filter forallb]. destruct (in_enum (Guest.rsvp_status g)); cbn [negb andb].
  - exact IH.
  - split; discriminate.
Qed.

(** X14.  On the dashboard and in [api_stats] the confirmed, pending and
    declined counts never exceed the total, and they add up to the total
    exactly when every guest has one of the three statuses: a guest whose
    status [edit_guest] set to something else is counted in the total and
    in none of the three. *)
Theorem dashboard_counts_add_up (s : store) (table : list GiftRegistry.t)
  (timestamp : string) :
  let d := admin_dashboard s table in
  0 <= confirmed_guests d /\ 0 <= pending_guests d /\ 0 <= declined_guests d
  /\ confirmed_guests d + pending_guests d + declined_guests d
     <= total_guests d
  /\ (confirmed_guests d + pending_guests d + declined_guests d
      = total_guests d <-> all_in_enum s = true)
  /\ api_stats s table timestamp =
       Jsonify
         (JDict [("total_guests"%string, JInt (total_guests d));
                 ("confirmed"%string, JInt (confirmed_guests d));
                 ("pending"%string, JInt (pending_guests d));
                 ("declined"%string, JInt (declined_guests d));
                 ("total_groups"%string, JInt (total_groups d));
                 ("total_gifts"%string, JInt (total_gifts d));
                 ("timestamp"%string, JStr timestamp)]) 200.
Proof.
  cbv zeta. unfold admin_dashboard.
  cbn [confirmed_guests pending_guests declined_guests total_guests
       total_groups total_gifts].
  unfold count_status, Db.count, all_in_enum.
  pose proof (status_counts (guests s)) as H. cbv zeta in H.
  pose proof (none_outside_enum (guests s)) as Hnone.
  repeat split; try lia.
  - intros Hsum. apply Hnone. lia.
  - intros Hall. apply Hnone in Hall. lia.
Qed.

(* ================================================================= *)
(** ** What [confirm_rsvp] leaves alone *)

Lemma update_mapping_status_only (rows : list Guest.t) (u : Z * string) :
  map without_status (Db.update_mapping rows u) = map without_status rows.
Proof.
  unfold Db.update_mapping. rewrite map_map. apply map_ext.
  intros g. now destruct (Guest.id g =? fst u).
Qed.

Lemma apply_mappings_status_only (updates : list (Z * string)) :
  forall rows,
    map without_status (Db.apply_mappings rows updates)
    = map without_status rows.
Proof.
  unfold Db.apply_mappings.
  induction updates as [| u us IH]; intros rows; [reflexivity |].
  cbn [fold_left]. now rewrite IH, update_mapping_status_only.
Qed.

(** X15.  [confirm_rsvp] changes nothing but the rsvp status of guests:
    groups and venue are as before, no guest is added or removed, and
    apart from the status every guest row is as it was (name, phone,
    group and key).  The rows are compared as a collection: the order in
    which the table returns them after the statements is the store's. *)
Theorem confirm_rsvp_changes_status_only (s : store) (f : form) (db_ok : bool) :
  let s' := db (confirm_rsvp s f db_ok) in
  groups s' = groups s
  /\ venues s' = venues s
  /\ Permutation (map without_status (guests s'))
                 (map without_status (guests s)).
Proof.
  unfold confirm_rsvp.
  destruct (getlist f "guest_ids") as [| g0 rest]; [now repeat split |].
  unfold confirm_rsvp_body.
  destruct (for_each (rsvp_step f) (g0 :: rest) ([], 0)) as [[updates n] | e];
    cbn [Py.bind]; [| now repeat split].
  destruct updates as [| u us]; [now repeat split |].
  unfold Db.bulk_update_mappings.
  destruct (_ =? _); cbn [Py.bind]; [| now repeat split].
  destruct db_ok; cbn [Db.commit Py.bind db]; [| now repeat split].
  cbn [groups venues guests with_guests]. repeat split.
  rewrite apply_mappings_status_only. apply Permutation_refl.
Qed.

(* ================================================================= *)
(** ** The gift lists *)

Section OrderBy.

Context {A : Type} (key : A -> Z).

Lemma insert_by_perm (x : A) (rows : list A) :
  Permutation (Sql.insert_by key x rows) (x :: rows).
Proof.
  induction rows as [| y rows IH]; cbn; [reflexivity |].
  destruct (key x <=? key y); [reflexivity |].
  rewrite IH. apply perm_swap.
Qed.

Lemma order_by_perm (rows : list A) :
  Permutation (Sql.order_by key rows) rows.
Proof.
  unfold Sql.order_by. induction rows as [| x rows IH]; cbn; [reflexivity |].
  rewrite insert_by_perm. now apply perm_skip.
Qed.

Lemma insert_by_sorted (x : A) (rows : list A) :
  StronglySorted (fun a b => key a <= key b) rows ->
  StronglySorted (fun a b => key a <= key b) (Sql.insert_by key x rows).
Proof.
  induction rows as [| y rows IH]; intros Hs; cbn.
  - constructor; constructor.
  - inversion Hs as [| ? ? Hrows Hy]; subst.
    destruct (Z.leb_spec (key x) (key y)) as [Hle | Hgt].
    + constructor; [exact Hs |]. constructor; [exact Hle |].
      rewrite Forall_forall in *. intros z Hz. specialize (Hy z Hz). lia.
    + constructor; [now apply IH |].
      rewrite Forall_forall in *. intros z Hz.
      apply (Permutation_in _ (insert_by_perm x rows)) in Hz.
      destruct Hz as [<- | Hz]; [lia | now apply Hy].
Qed.

Lemma order_by_sorted (rows : list A) :
  StronglySorted (fun a b => key a <= key b) (Sql.order_by key rows).
Proof.
  unfold Sql.order_by. induction rows as [| x rows IH]; cbn.
  - constructor.
  - now apply insert_by_sorted.
Qed.

End OrderBy.

(** In a sorted list every row of the first [n] comes before every row
    of the rest. *)
Lemma sorted_firstn_skipn {A} (R : A -> A -> Prop) (l : list A) :
  StronglySorted R l ->
  forall n g h, In g (firstn n l) -> In h (skipn n l) -> R g h.
Proof.
  induction 1 as [| x l Hs IH Hx]; intros n g h Hg Hh.
  - destruct n; contradiction.
  - destruct n as [| n]; [contradiction |].
    cbn [firstn skipn] in *. destruct Hg as [<- | Hg].
    + rewrite Forall_forall in Hx. apply Hx.
      rewrite <- (firstn_skipn n l). apply in_or_app. now right.
    + now apply (IH n).
Qed.

(** X16.  The public gift page lists the active gifts, each one once and
    no other, by ascending key. *)
Theorem gifts_page_lists_active_gifts (table : list GiftRegistry.t) :
  Permutation (gifts_page table) (filter GiftRegistry.is_active table)
  /\ StronglySorted (fun a b => GiftRegistry.id a <= GiftRegistry.id b)
                    (gifts_page table)
  /\ (forall g, In g (gifts_page table) <->
                In g table /\ GiftRegistry.is_active g = true).
Proof.
  unfold gifts_page, Sql.active. split; [apply order_by_perm |].
  split; [apply order_by_sorted |].
  intros g. rewrite <- filter_In. split; intros H.
  - now apply (Permutation_in _ (order_by_perm GiftRegistry.id _)).
  - now apply (Permutation_in _ (Permutation_sym
                                   (order_by_perm GiftRegistry.id _))).
Qed.

(** X17.  The home page shows at most three gifts, all of them active
    gifts of the table, and they are the newest: an active gift that is
    not shown has a key no greater than the key of any gift shown.  When
    there are fewer than three active gifts all of them are shown. *)
Theorem index_shows_newest_active_gifts
  (s : store) (table : list GiftRegistry.t) (c : venue_cache) (now : Z) :
  let shown := index_gifts (index s table c now) in
  List.length shown = Nat.min 3 (List.length (Sql.active table))
  /\ (forall g, In g shown ->
                In g table /\ GiftRegistry.is_active g = true)
  /\ (forall g h, In g shown ->
                  In h table -> GiftRegistry.is_active h = true ->
                  ~ In h shown ->
                  GiftRegistry.id h <= GiftRegistry.id g).
Proof.
  cbv zeta. unfold index. cbn [index_gifts]. unfold Db.limit, Sql.order_by_desc.
  set (k := fun r : GiftRegistry.t => - GiftRegistry.id r).
  set (l := Sql.order_by k (Sql.active table)).
  assert (Hperm : Permutation l (Sql.active table)) by apply order_by_perm.
  assert (Hsorted : StronglySorted (fun a b => k a <= k b) l)
    by apply order_by_sorted.
  split; [| split].
  - rewrite length_firstn. now rewrite (Permutation_length Hperm).
  - intros g Hg.
    assert (Hl : In g l).
    { rewrite <- (firstn_skipn 3 l). apply in_or_app. now left. }
    apply (Permutation_in _ Hperm) in Hl. now apply filter_In in Hl.
  - intros g h Hg Hh Hactive Hnot.
    assert (Hl : In h l).
    { apply (Permutation_in _ (Permutation_sym Hperm)).
      apply filter_In. now split. }
    rewrite <- (firstn_skipn 3 l) in Hl. apply in_app_or in Hl.
    destruct Hl as [Hl | Hl]; [contradiction |].
    pose proof (sorted_firstn_skipn _ l Hsorted 3 g h Hg Hl) as H.
    unfold k in H. lia.
Qed.

Lemma save_gift_in (rows : list GiftRegistry.t) (g' g : GiftRegistry.t) :
  In g (Sql.save_gift rows g') ->
  (g = g' /\ exists r, In r rows /\ GiftRegistry.id r = GiftRegistry.id g')
  \/ (In g rows /\ GiftRegistry.id g <> GiftRegistry.id g').
Proof.
  unfold Sql.save_gift. intros H. apply in_map_iff in H.
  destruct H as [r [Hr Hin]].
  destruct (Z.eqb_spec (GiftRegistry.id r) (GiftRegistry.id g')) as [E | N].
  - left. split; [now symmetry | now exists r].
  - right. subst g. now split.
Qed.

Lemma gifts_by_id_first (table : list GiftRegistry.t) (gift_id : Z)
  (gift : GiftRegistry.t) :
  Db.first (Sql.gifts_by_id table gift_id) = Some gift ->
  In gift table /\ GiftRegistry.id gift = gift_id.
Proof.
  unfold Db.first, Sql.gifts_by_id. intros H.
  assert (Hin : In gift (filter (fun g => GiftRegistry.id g =? gift_id) table)).
  { destruct (filter _ table); [discriminate |]. injection H as ->. now left. }
  apply filter_In in Hin. destruct Hin as [Hin E]. split; [exact Hin |].
  now apply Z.eqb_eq.
Qed.

(** X18.  After [edit_gift] went through, the gift is on the public page
    exactly when the box [is_active] was checked in the form. *)
Theorem edit_gift_controls_listing
  (table : list GiftRegistry.t) (gift_id : Z) (f : form)
  (gift : GiftRegistry.t) :
  Db.first (Sql.gifts_by_id table gift_id) = Some gift ->
  Py.truthy (field f "item_name") = true ->
  let table' := gift_rows (edit_gift table gift_id f true) in
  (exists g, In g (gifts_page table') /\ GiftRegistry.id g = gift_id)
  <-> contains f "is_active" = true.
Proof.
  intros Hgift Hname. cbv zeta.
  destruct (gifts_by_id_first table gift_id gift Hgift) as [Hin Hid].
  unfold edit_gift, edit_gift_body, Db.first_or_404. rewrite Hgift.
  cbn [Py.bind GiftRegistry.item_name]. fold (field f "item_name").
  rewrite Hname. cbn [negb Sql.commit Py.bind gift_rows].
  set (gift' := {| GiftRegistry.id := GiftRegistry.id gift |}).
  assert (Hid' : GiftRegistry.id gift' = gift_id) by exact Hid.
  assert (Hlisted : forall g, In g (gifts_page (Sql.save_gift table gift')) <->
                    In g (Sql.save_gift table gift')
                    /\ GiftRegistry.is_active g = true).
  { intros g. unfold gifts_page, Sql.active. rewrite <- filter_In. split; intros H.
    - now apply (Permutation_in _ (order_by_perm GiftRegistry.id _)).
    - now apply (Permutation_in _ (Permutation_sym
                                     (order_by_perm GiftRegistry.id _))). }
  split.
  - intros [g [Hg Hgid]]. apply Hlisted in Hg. destruct Hg as [Hg Hact].
    apply save_gift_in in Hg. destruct Hg as [[-> _] | [_ Hne]].
    + exact Hact.
    + exfalso. apply Hne. now rewrite Hgid, Hid'.
  - intros Hact. exists gift'. split; [| exact Hid'].
    apply Hlisted. split; [| exact Hact].
    unfold Sql.save_gift. apply in_map_iff. exists gift. split; [| exact Hin].
    now rewrite Hid, <- Hid', Z.eqb_refl.
Qed.

Lemma edit_gift_controls_listing_witness :
  Db.first (Sql.gifts_by_id sample_gifts 1) = Some panelas /\
  Py.truthy (field hide_gift_form "item_name") = true /\
  gifts_page sample_gifts = [panelas] /\
  gifts_page (gift_rows (edit_gift sample_gifts 1 hide_gift_form true)) = [] /\
  ~ exists g,
      In g (gifts_page (gift_rows (edit_gift sample_gifts 1 hide_gift_form true)))
      /\ GiftRegistry.id g = 1.
Proof.
  repeat (split; [reflexivity |]).
  intros H.
  apply (edit_gift_controls_listing sample_gifts 1 hide_gift_form panelas
           eq_refl eq_refl) in H.
  discriminate H.
Defined.

(** X19.  A gift added by [add_gift] is active: it is on the public page
    at once, under the name submitted and with a key that no gift of the
    table had, and every gift that was on the page still is. *)
Theorem add_gift_is_listed (table : list GiftRegistry.t) (f : form) (now : Z) :
  Py.truthy (field f "item_name") = true ->
  let table' := gift_rows (add_gift table f now true) in
  (exists g, In g (gifts_page table')
             /\ GiftRegistry.item_name g = field f "item_name"
             /\ ~ In (GiftRegistry.id g) (map GiftRegistry.id table))
  /\ (forall g, In g (gifts_page table) -> In g (gifts_page table')).
Proof.
  intros Hname. cbv zeta. unfold add_gift, add_gift_body.
  fold (field f "item_name"). rewrite Hname.
  cbn [negb Sql.commit Py.bind gift_rows].
  set (g' := {| GiftRegistry.id := Sql.next_id GiftRegistry.id table |}).
  assert (Hlisted : forall t g, In g (gifts_page t) <->
                    In g t /\ GiftRegistry.is_active g = true).
  { intros t g. unfold gifts_page, Sql.active. rewrite <- filter_In.
    split; intros H.
    - now apply (Permutation_in _ (order_by_perm GiftRegistry.id _)).
    - now apply (Permutation_in _ (Permutation_sym
                                     (order_by_perm GiftRegistry.id _))). }
  split.
  - exists g'. split; [| split].
    + apply Hlisted. split; [| reflexivity]. apply in_or_app. right. now left.
    + reflexivity.
    + intros Hin. apply in_map_iff in Hin. destruct Hin as [r [Hr Hin]].
      pose proof (next_id_fresh GiftRegistry.id table r Hin) as Hlt.
      cbn [GiftRegistry.id g'] in Hr. lia.
  - intros g Hg. apply Hlisted in Hg. destruct Hg as [Hg Hact].
    apply Hlisted. split; [| exact Hact]. apply in_or_app. now left.
Qed.

Lemma add_gift_is_listed_witness :
  Py.truthy (field new_gift_form "item_name") = true /\
  map GiftRegistry.item_name
      (gifts_page (gift_rows (add_gift sample_gifts new_gift_form 0 true)))
  = ["Jogo de Panelas"; "Jogo de Cama"]%string /\
  exists g,
    In g (gifts_page (gift_rows (add_gift sample_gifts new_gift_form 0 true)))
    /\ GiftRegistry.item_name g = "Jogo de Cama"%string.
Proof.
  split; [reflexivity | split; [reflexivity |]].
  destruct (proj1 (add_gift_is_listed sample_gifts new_gift_form 0 eq_refl))
    as [g [Hin [Hn _]]].
  exists g. split; [exact Hin | exact Hn].
Defined.

(* ================================================================= *)
(** ** Administrators *)

Section PasswordProperties.

Variable check_password_hash : string -> option string -> Py.result bool.
Variable generate_password_hash : string -> string.

(** X20.  [change_password] changes the table of administrators only
    when the administrator of the session exists, the current password
    passed the check, the new password has at least six characters and
    equals its confirmation, and the store is available. *)
Theorem change_password_only_when_checked
  (admins : list AdminUser.t) (admin_id : Z) (f : form) (db_ok : bool) :
  admin_rows (change_password check_password_hash generate_password_hash
                admins admin_id f db_ok) <> admins ->
  exists admin,
    admin_by_id admins admin_id = Some admin
    /\ check_password_hash (AdminUser.password_hash admin)
         (Some (get_default f "current_password" "")) = Ok true
    /\ 6 <= Py.len (get_default f "new_password" "")
    /\ get_default f "new_password" "" = get_default f "confirm_password" ""
    /\ db_ok = true.
Proof.
  unfold change_password.
  destruct (admin_by_id admins admin_id) as [admin |];
    [| intros H; now contradiction H].
  destruct (check_password_hash _ _) as [[|] | e] eqn:Hcheck;
    try (intros H; now contradiction H).
  destruct (Z.ltb_spec (Py.len (get_default f "new_password" "")) 6)
    as [Hshort | Hlong]; [intros H; now contradiction H |].
  destruct (String.eqb_spec (get_default f "new_password" "")
              (get_default f "confirm_password" "")) as [Heq | Hne];
    cbn [negb]; [| intros H; now contradiction H].
  destruct db_ok; cbn [Sql.commit]; [| intros H; now contradiction H].
  intros _. exists admin. now repeat split.
Qed.

(** X21.  Logging in puts an administrator into a session that had none
    only through a POST that names an administrator of the table and
    whose password passed the check against that administrator's hash. *)
Theorem admin_login_needs_password_check
  (admins : list AdminUser.t) (sess : session) (is_post : bool) (f : form) :
  session_has sess "admin_id" = false ->
  session_has (session_after (admin_login check_password_hash admins sess
                                is_post f)) "admin_id" = true ->
  is_post = true
  /\ exists admin,
       In admin admins
       /\ get f "username" = Some (AdminUser.username admin)
       /\ check_password_hash (AdminUser.password_hash admin)
            (get f "password") = Ok true.
Proof.
  intros Hout. unfold admin_login.
  destruct is_post; [| cbn [session_after]; congruence].
  unfold admin_by_username.
  destruct (get f "username") as [u |]; [| cbn [session_after]; congruence].
  destruct (Db.first (filter _ admins)) as [admin |] eqn:E;
    [| cbn [session_after]; congruence].
  assert (Hin : In admin (filter (fun a => String.eqb (AdminUser.username a) u)
                                 admins)).
  { unfold Db.first in E. destruct (filter _ admins); [discriminate |].
    injection E as ->. now left. }
  apply filter_In in Hin. destruct Hin as [Hin Hu].
  apply String.eqb_eq in Hu.
  destruct (check_password_hash _ _) as [[|] | e] eqn:Hcheck;
    cbn [session_after]; try congruence.
  intros _. split; [reflexivity |]. exists admin. now rewrite Hu.
Qed.

(** X22.  On an empty table of administrators the request hook
    [create_admin] creates the account [admin] with the hash of
    [admin123]; provided the check accepts a password against its own
    hash, logging in with that pair redirects to the dashboard and the
    session passes the decorator of the admin pages.  The hook does
    nothing on the table it has filled, and after [admin_logout] the
    decorator refuses again. *)
Theorem default_account_opens_the_gate (now : Z) (sess : session) :
  check_password_hash (generate_password_hash "admin123") (Some "admin123"%string)
  = Ok true ->
  let admins := create_admin generate_password_hash [] now true in
  let o := admin_login check_password_hash admins sess true default_login in
  login_resp o = LoginRedirect "admin_dashboard"
  /\ (forall (A : Type) (f : unit -> A),
        admin_required_optimized (session_after o) f = Allowed (f tt))
  /\ (forall later db_ok,
        create_admin generate_password_hash admins later db_ok = admins)
  /\ (forall (A : Type) (f : unit -> A),
        admin_required_optimized
          (fst (fst (admin_logout (session_after o)))) f
        = Refused ("Acesso negado! Faça login como administrador."%string,
                   danger) (Redirect "admin_login")).
Proof.
  intros Hcheck admins o. subst o admins.
  unfold admin_login, create_admin, default_login.
  cbn [Db.first hd_error Sql.commit app get getlist String.eqb Ascii.eqb
       Bool.eqb andb admin_by_username filter AdminUser.username
       AdminUser.password_hash].
  rewrite Hcheck. cbn [login_resp session_after].
  split; [reflexivity |]. split; [| split].
  - intros A f. unfold admin_required_optimized, session_has, session_set.
    cbn [existsb filter fst String.eqb Ascii.eqb Bool.eqb andb negb orb].
    reflexivity.
  - reflexivity.
  - reflexivity.
Qed.

End PasswordProperties.

Lemma change_password_only_when_checked_witness :
  admin_rows (change_password toy_check toy_hash sample_admins 1
                new_password_form true) <> sample_admins /\
  admin_rows (change_password toy_check toy_hash sample_admins 1
                short_password_form true) = sample_admins /\
  exists admin,
    admin_by_id sample_admins 1 = Some admin
    /\ 6 <= Py.len (get_default new_password_form "new_password" "").
Proof.
  assert (H : admin_rows (change_password toy_check toy_hash sample_admins 1
                            new_password_form true) <> sample_admins)
    by discriminate.
  split; [exact H | split; [reflexivity |]].
  destruct (change_password_only_when_checked toy_check toy_hash
              sample_admins 1 new_password_form true H)
    as [admin [Ha [_ [Hlen _]]]].
  exists admin. split; [exact Ha | exact Hlen].
Defined.

Lemma admin_login_needs_password_check_witness :
  session_has [] "admin_id" = false /\
  session_has (session_after (admin_login toy_check sample_admins []
                                true default_login)) "admin_id" = true /\
  exists admin, In admin sample_admins
                /\ get default_login "username"
                   = Some (AdminUser.username admin).
Proof.
  split; [reflexivity | split; [reflexivity |]].
  destruct (admin_login_needs_password_check toy_check sample_admins []
              true default_login eq_refl eq_refl)
    as [_ [admin [Hin [Hu _]]]].
  exists admin. split; [exact Hin | exact Hu].
Defined.

Lemma default_account_opens_the_gate_witness :
  toy_check (toy_hash "admin123") (Some "admin123"%string) = Ok true /\
  login_resp (admin_login toy_check (create_admin toy_hash [] 0 true) []
                true default_login) = LoginRedirect "admin_dashboard".
Proof.
  split; [reflexivity |].
  exact (proj1 (default_account_opens_the_gate toy_check toy_hash 0 []
                  eq_refl)).
Defined.

(* ================================================================= *)
(** ** Further properties of the public workflow *)


(** [confirm_rsvp_bad_id] on a submission with the id [x1] (X24: one
    selected id in ASCII that is not an integer, with an accepted status,
    fails the whole submission and nothing is written). *)
Lemma confirm_rsvp_bad_id_witness :
  getlist rsvp_form_bad_id "guest_ids" <> [] /\
  forallb is_ascii (valid_ids rsvp_form_bad_id
                      (getlist rsvp_form_bad_id "guest_ids")) = true /\
  confirm_rsvp sample_store rsvp_form_bad_id true =
    {| db := sample_store; flashes := [rsvp_failed]; resp := Redirect "rsvp" |}.
Proof.
  assert (Hne : getlist rsvp_form_bad_id "guest_ids" <> []) by discriminate.
  split; [exact Hne | split; [reflexivity |]].
  apply (confirm_rsvp_bad_id sample_store rsvp_form_bad_id true
           (Py.invalid_literal "x1") Hne eq_refl).
  reflexivity.
Defined.

(* ================================================================= *)
(** ** Required names *)

(** X25.  A name that is empty or made of white space only is refused by
    every handler that takes one, before anything is written: the guests,
    the groups, the venue with its cache, and the gifts are left as they
    were, whether or not the store is available, also by [edit_gift],
    which assigns the columns before it looks at the name. *)
Theorem blank_name_changes_nothing
  (s : store) (table : list GiftRegistry.t) (c : venue_cache) (f : form)
  (id now : Z) (db_ok : bool) :
  Py.truthy (field f "name") = false ->
  Py.truthy (field f "item_name") = false ->
  db (add_guest s f now db_ok) = s
  /\ db (edit_guest s id f db_ok) = s
  /\ db (add_group s f now db_ok) = s
  /\ db (edit_group s id f db_ok) = s
  /\ update_venue s c f now db_ok =
       {| out := {| db := s;
                    flashes := [("Nome do local é obrigatório!"%string, danger)];
                    resp := Redirect "admin_venue" |};
          cache_after := c |}
  /\ gift_rows (add_gift table f now db_ok) = table
  /\ gift_rows (edit_gift table id f db_ok) = table.
Proof.
  intros Hname Hitem. unfold field in *.
  repeat split.
  - unfold add_guest, add_guest_body. now rewrite Hname.
  - unfold edit_guest, edit_guest_body.
    destruct (Db.first_or_404 _); cbn [Py.bind]; [| reflexivity].
    now rewrite Hname.
  - unfold add_group, add_group_body. now rewrite Hname.
  - unfold edit_group, edit_group_body.
    destruct (Db.first_or_404 _); cbn [Py.bind]; [| reflexivity].
    now rewrite Hname.
  - unfold update_venue. now rewrite Hname.
  - unfold add_gift, add_gift_body. now rewrite Hitem.
  - unfold edit_gift, edit_gift_body.
    destruct (Db.first_or_404 _); cbn [Py.bind]; [| reflexivity].
    cbn [GiftRegistry.item_name]. now rewrite Hitem.
Qed.

Lemma blank_name_changes_nothing_witness :
  Py.truthy (field blank_name_form "name") = false /\
  Py.truthy (field blank_name_form "item_name") = false /\
  db (edit_guest sample_store 1 blank_name_form true) = sample_store /\
  gift_rows (edit_gift sample_gifts 1 blank_name_form true) = sample_gifts.
Proof.
  split; [reflexivity | split; [reflexivity |]].
  destruct (blank_name_changes_nothing sample_store sample_gifts empty_cache
              blank_name_form 1 0 true eq_refl eq_refl)
    as [_ [He [_ [_ [_ [_ Hg]]]]]].
  split; [exact He | exact Hg].
Defined.
